(** * bubbly: a shallow embedding of [bubbly/bubbly.py]

    The module turns a pandas DataFrame into a plotly figure dictionary.
    This development embeds the Python functions of [bubbly.py] as Rocq
    functions over
    - Python scalars ([scalar]) with binary64 floats as Rocq's primitive
      floats, and nested lists and dictionaries ([pyval]);
    - exceptions as an error monad ([result]);
    - a DataFrame as an ordered list of named, dtype-tagged columns;
    - the grid DataFrame ([value], [key]) as the list of its rows.
    The functions keep the names they have in the source. *)

From Stdlib Require Import ZArith List String Ascii Bool Lia.
From Stdlib Require Import Floats DecimalString DecimalZ.
Import ListNotations.

Set Warnings "-inexact-float,-register-all".

Open Scope string_scope.
Open Scope list_scope.
Open Scope Z_scope.

(* ================================================================= *)
(** ** Exceptions *)

Inductive exn : Type :=
| KeyError
| ValueError
| TypeError
| IndexError
| ZeroDivisionError
| OverflowError.

Inductive result (A : Type) : Type :=
| Ok (a : A)
| Raise (e : exn).

Arguments Ok {A} a.
Arguments Raise {A} e.

Definition bind {A B : Type} (c : result A) (k : A -> result B) : result B :=
  match c with
  | Ok a => k a
  | Raise e => Raise e
  end.

Declare Scope py_scope.
Delimit Scope py_scope with py.
Notation "x <- c ;; k" := (bind c (fun x => k))
  (at level 61, c at next level, right associativity) : py_scope.
Notation "' p <- c ;; k" := (bind c (fun p => k))
  (at level 61, p pattern, c at next level, right associativity) : py_scope.
Open Scope py_scope.

Definition returns {A : Type} (c : result A) : bool :=
  match c with Ok _ => true | Raise _ => false end.

(** [for x in xs: st = body(st, x)], stopping at the first exception. *)
Fixpoint for_each {A S : Type} (xs : list A) (body : S -> A -> result S)
  (st : S) : result S :=
  match xs with
  | [] => Ok st
  | x :: xs' => st' <- body st x ;; for_each xs' body st'
  end.

(* ================================================================= *)
(** ** Python values *)

(** A scalar as a DataFrame cell or an argument holds it.  [SInt] is
    Python's unbounded [int] (a numpy [int64] cell is one in the int64
    range), [SFloat] a binary64 float. *)
Inductive scalar : Type :=
| SNone
| SBool (b : bool)
| SInt (z : Z)
| SFloat (f : float)
| SStr (s : string).

Inductive pyval : Type :=
| VScalar (s : scalar)
| VList (l : list pyval)
| VDict (d : list (string * pyval)).

(** A Python [dict] with string keys, in insertion order. *)
Definition dict : Type := list (string * pyval).

Definition vnone : pyval := VScalar SNone.
Definition vbool (b : bool) : pyval := VScalar (SBool b).
Definition vint (z : Z) : pyval := VScalar (SInt z).
Definition vfloat (f : float) : pyval := VScalar (SFloat f).
Definition vstr (s : string) : pyval := VScalar (SStr s).
Definition vscalars (l : list scalar) : pyval := VList (map VScalar l).

(** An optional string argument ([None] or a [str]) as a value. *)
Definition vopt_str (o : option string) : pyval :=
  match o with Some s => vstr s | None => vnone end.

(** [d[k]] read with [dict.get]-like lookup. *)
Fixpoint dict_get (d : dict) (k : string) : option pyval :=
  match d with
  | [] => None
  | (k', v) :: d' => if String.eqb k' k then Some v else dict_get d' k
  end.

(** [d[k] = v]: an existing key keeps its place, a new key goes last. *)
Fixpoint dict_set (d : dict) (k : string) (v : pyval) : dict :=
  match d with
  | [] => [(k, v)]
  | (k', v') :: d' =>
      if String.eqb k' k then (k', v) :: d' else (k', v') :: dict_set d' k v
  end.

Definition dict_has (d : dict) (k : string) : bool :=
  match dict_get d k with Some _ => true | None => false end.

(** [d[k1][k2] = v]. *)
Definition dict_set_in (d : dict) (k1 k2 : string) (v : pyval) : result dict :=
  match dict_get d k1 with
  | Some (VDict inner) => Ok (dict_set d k1 (VDict (dict_set inner k2 v)))
  | Some _ => Raise TypeError
  | None => Raise KeyError
  end.

(** [d[k1][k2][k3] = v]. *)
Definition dict_set_in2 (d : dict) (k1 k2 k3 : string) (v : pyval)
  : result dict :=
  match dict_get d k1 with
  | Some (VDict inner) =>
      inner' <- dict_set_in inner k2 k3 v ;;
      Ok (dict_set d k1 (VDict inner'))
  | Some _ => Raise TypeError
  | None => Raise KeyError
  end.

(* ================================================================= *)
(** ** Numbers *)

(** [float(z)] for an [int]: rounding to the nearest binary64 value. *)
Definition Z2float (z : Z) : float :=
  SF2Prim (binary_normalize 53 1024 z 0 false).

(** NumPy's three binary floating-point formats.  A value of the two
    narrow ones is held as the binary64 float that equals it. *)
Inductive float_format : Type := Half | Single | Double.

(** A binary64 float rounded to a format, to nearest with ties to even. *)
Definition round_to (fmt : float_format) (f : float) : float :=
  match fmt with
  | Double => f
  | _ =>
      let '(prec, emax) :=
        match fmt with Half => (11, 16) | _ => (24, 128) end in
      match Prim2SF f with
      | S754_finite s m e =>
          SF2Prim (binary_normalize prec emax
                     (if s then Z.neg m else Z.pos m) e s)
      | _ => f
      end
  end.

(** The integer [m * 2^e] a finite float with [0 <= e] denotes, or the
    quotient that truncation towards zero leaves when [e < 0]. *)
Definition trunc_mag (m : positive) (e : Z) : Z :=
  if 0 <=? e then Z.pos m * 2 ^ e else Z.pos m / 2 ^ (- e).

(** Exact comparison of an [int] with a float, as Python compares them:
    [None] when the float is a NaN. *)
Definition Z_compare_float (z : Z) (f : float) : option comparison :=
  match Prim2SF f with
  | S754_nan => None
  | S754_zero _ => Some (z ?= 0)
  | S754_infinity s => Some (if s then Gt else Lt)
  | S754_finite s m e =>
      let n := if s then Z.neg m else Z.pos m in
      if 0 <=? e then Some (z ?= n * 2 ^ e)
      else Some (z * 2 ^ (- e) ?= n)
  end.

(** The argument of a function typed [float] whose default is an [int]. *)
Inductive num : Type :=
| NInt (z : Z)
| NFloat (f : float).

Definition num_scalar (n : num) : scalar :=
  match n with NInt z => SInt z | NFloat f => SFloat f end.

Definition float_of_int (z : Z) : result float :=
  let f := Z2float z in
  if is_infinity f then Raise OverflowError else Ok f.

(** [a * b] on numbers: exact on two ints, binary64 otherwise. *)
Definition num_mul (a b : num) : result num :=
  match a, b with
  | NInt x, NInt y => Ok (NInt (x * y))
  | NInt x, NFloat g => f <- float_of_int x ;; Ok (NFloat (f * g)%float)
  | NFloat f, NInt y => g <- float_of_int y ;; Ok (NFloat (f * g)%float)
  | NFloat f, NFloat g => Ok (NFloat (f * g)%float)
  end.

Definition num_truthy (n : num) : bool :=
  match n with
  | NInt z => negb (z =? 0)
  | NFloat f => negb (f =? 0)%float
  end.

(** The float a number converts to in mixed arithmetic; [TypeError] for
    what is no number ([bool] is a subclass of [int]). *)
Definition as_float (x : scalar) : result float :=
  match x with
  | SFloat f => Ok f
  | SInt z => float_of_int z
  | SBool b => Ok (if b then 1%float else 0%float)
  | SNone | SStr _ => Raise TypeError
  end.

(** [x * c] and [c * x] where [c] is a float literal. *)
Definition mul_float (x : scalar) (c : float) : result float :=
  f <- as_float x ;; Ok (f * c)%float.

(** [a / b] for a float [a]: Python raises on a zero divisor. *)
Definition float_truediv (a : float) (b : num) : result float :=
  match b with
  | NInt z =>
      if z =? 0 then Raise ZeroDivisionError
      else g <- float_of_int z ;; Ok (a / g)%float
  | NFloat g =>
      if (g =? 0)%float then Raise ZeroDivisionError else Ok (a / g)%float
  end.

(* ================================================================= *)
(** ** Python built-ins on scalars *)

(** A [Series]: the name of its dtype and its cells, top to bottom. *)
Record column : Type := { dtype : string; cells : list scalar }.

(** What this development takes from the interpreter and the libraries
    under the program (CPython 3.11 or later, NumPy 2 and pandas on it)
    without spelling it out:
    - [float_repr]: the text [str] gives a float;
    - [log10_pos], [log10f_pos]: [log10] on the positive finite floats,
      in double and in single precision;
    - [unicode_decimal]: the digit value of a code point above 126 that
      the interpreter's Unicode database lists as a decimal digit;
    - [int_max_str_digits]: [sys.get_int_max_str_digits()], where 0
      stands for no limit;
    - [np_log10_other]: [np.log10] on a Series whose dtype is neither
      [object] nor one of NumPy's boolean, integer and binary
      floating-point dtypes. *)
Class PyRuntime : Type := {
  float_repr : float -> string;
  log10_pos : float -> float;
  log10f_pos : float -> float;
  unicode_decimal : Z -> option Z;
  int_max_str_digits : Z;
  np_log10_other : column -> result (list scalar)
}.

Definition string_of_Z (z : Z) : string := NilZero.string_of_int (Z.to_int z).

(** [str(x)], which is also what a [{}] field of [str.format] shows. *)
Definition py_str `{PyRuntime} (x : scalar) : string :=
  match x with
  | SNone => "None"
  | SBool true => "True"
  | SBool false => "False"
  | SInt z => string_of_Z z
  | SFloat f => float_repr f
  | SStr s => s
  end.

(** [bool(x)], the test of [if x:]. *)
Definition py_truthy (x : scalar) : bool :=
  match x with
  | SNone => false
  | SBool b => b
  | SInt z => negb (z =? 0)
  | SFloat f => negb (f =? 0)%float
  | SStr s => negb (String.eqb s "")
  end.

(** [if name:] on an optional column name: [None] and [''] are false. *)
Definition given (name : option string) : bool :=
  match name with
  | Some s => negb (String.eqb s "")
  | None => false
  end.

(** *** [int] on text

    [int(s)] first replaces every character above 126: white space as
    [str.isspace] knows it by a blank, a decimal digit of any script by
    its ASCII digit, and anything else makes the text no literal.  It
    then reads the ASCII text: blanks, a sign, digits with single
    underscores between them, blanks. *)

(** The blanks of the ASCII parser: space, and tab to carriage return. *)
Definition is_space (c : ascii) : bool :=
  let n := nat_of_ascii c in
  (Nat.eqb n 32 || (Nat.leb 9 n && Nat.leb n 13))%bool.

Definition digit_of (c : ascii) : option Z :=
  let n := nat_of_ascii c in
  if (Nat.leb 48 n && Nat.leb n 57)%bool then Some (Z.of_nat (n - 48))
  else None.

(** The white space above the ASCII range: U+0085, U+00A0, U+1680,
    U+2000 to U+200A, U+2028, U+2029, U+202F, U+205F and U+3000. *)
Definition unicode_space (cp : Z) : bool :=
  ((cp =? 133) || (cp =? 160) || (cp =? 5760)
   || ((8192 <=? cp) && (cp <=? 8202))
   || (cp =? 8232) || (cp =? 8233) || (cp =? 8239) || (cp =? 8287)
   || (cp =? 12288))%bool.

(** The ASCII character that stands for the code point [cp] above 126. *)
Definition ascii_for `{PyRuntime} (cp : Z) : option ascii :=
  if unicode_space cp then Some " "%char
  else
    match unicode_decimal cp with
    | Some d =>
        if ((0 <=? d) && (d <=? 9))%bool
        then Some (ascii_of_nat (Z.to_nat (48 + d)))
        else None
    | None => None
    end.

Definition byte_of (c : ascii) : Z := Z.of_nat (nat_of_ascii c).

(** The six payload bits of a UTF-8 continuation byte. *)
Definition continuation (c : ascii) : option Z :=
  let n := byte_of c in
  if ((128 <=? n) && (n <? 192))%bool then Some (n - 128) else None.

Definition replaced `{PyRuntime} (cp : Z) (rest : option string)
  : option string :=
  match ascii_for cp, rest with
  | Some c, Some r => Some (String c r)
  | _, _ => None
  end.

(** The text, held as UTF-8, with its characters above 126 replaced;
    [None] when one of them is neither white space nor a decimal
    digit. *)
Fixpoint to_ascii_literal `{PyRuntime} (s : string) : option string :=
  match s with
  | EmptyString => Some EmptyString
  | String b r =>
      let n := byte_of b in
      if n <? 127 then option_map (String b) (to_ascii_literal r)
      else if n <? 194 then None
      else if n <? 224 then
        match r with
        | String c1 r1 =>
            match continuation c1 with
            | Some x1 => replaced ((n - 192) * 64 + x1) (to_ascii_literal r1)
            | None => None
            end
        | EmptyString => None
        end
      else if n <? 240 then
        match r with
        | String c1 (String c2 r2) =>
            match continuation c1, continuation c2 with
            | Some x1, Some x2 =>
                let cp := (n - 224) * 4096 + x1 * 64 + x2 in
                if ((2048 <=? cp)
                    && negb ((55296 <=? cp) && (cp <=? 57343)))%bool
                then replaced cp (to_ascii_literal r2)
                else None
            | _, _ => None
            end
        | _ => None
        end
      else if n <? 245 then
        match r with
        | String c1 (String c2 (String c3 r3)) =>
            match continuation c1, continuation c2, continuation c3 with
            | Some x1, Some x2, Some x3 =>
                let cp := (n - 240) * 262144 + x1 * 4096 + x2 * 64 + x3 in
                if ((65536 <=? cp) && (cp <=? 1114111))%bool
                then replaced cp (to_ascii_literal r3)
                else None
            | _, _, _ => None
            end
        | _ => None
        end
      else None
  end.

Fixpoint lstrip (s : string) : string :=
  match s with
  | String c r => if is_space c then lstrip r else s
  | EmptyString => EmptyString
  end.

(** The digits of an integer literal after its sign, read left to right:
    [acc] is the value so far, [after_digit] says a digit came last (an
    underscore may only stand between two digits); trailing blanks end
    the literal. *)
Fixpoint parse_digits (s : string) (acc : Z) (after_digit : bool)
  : option Z :=
  match s with
  | EmptyString => if after_digit then Some acc else None
  | String c r =>
      match digit_of c with
      | Some d => parse_digits r (10 * acc + d) true
      | None =>
          if (Ascii.eqb c "_" && after_digit)%bool then
            match r with
            | String c' _ =>
                match digit_of c' with
                | Some _ => parse_digits r acc false
                | None => None
                end
            | EmptyString => None
            end
          else if (is_space c && after_digit)%bool then
            match lstrip r with EmptyString => Some acc | _ => None end
          else None
      end
  end.

Fixpoint count_digits (s : string) : Z :=
  match s with
  | EmptyString => 0
  | String c r =>
      match digit_of c with
      | Some _ => 1 + count_digits r
      | None => count_digits r
      end
  end.

(** The limit on the digits of a literal, which the interpreter checks
    for literals of more than 640 digits. *)
Definition too_many_digits `{PyRuntime} (digits : Z) : bool :=
  ((640 <? digits) && (0 <? int_max_str_digits)
   && (int_max_str_digits <? digits))%bool.

(** [int(s)] for a [str], base ten. *)
Definition int_of_str `{PyRuntime} (s : string) : result Z :=
  match to_ascii_literal s with
  | None => Raise ValueError
  | Some literal =>
      let body := lstrip literal in
      let '(neg, ds) :=
        match body with
        | String "-" r => (true, r)
        | String "+" r => (false, r)
        | _ => (false, body)
        end in
      match parse_digits ds 0 false with
      | Some n =>
          if too_many_digits (count_digits ds) then Raise ValueError
          else Ok (if neg then - n else n)
      | None => Raise ValueError
      end
  end.

(** [int(x)]: truncation of a float towards zero. *)
Definition py_int `{PyRuntime} (x : scalar) : result Z :=
  match x with
  | SInt z => Ok z
  | SBool b => Ok (if b then 1 else 0)
  | SFloat f =>
      match Prim2SF f with
      | S754_nan => Raise ValueError
      | S754_infinity _ => Raise OverflowError
      | S754_zero _ => Ok 0
      | S754_finite s m e =>
          Ok (if s then - trunc_mag m e else trunc_mag m e)
      end
  | SStr s => int_of_str s
  | SNone => Raise TypeError
  end.

Definition Z_of_bool (b : bool) : Z := if b then 1 else 0.

Definition is_Eq (c : option comparison) : bool :=
  match c with Some Eq => true | _ => false end.

Definition is_Lt (c : option comparison) : bool :=
  match c with Some Lt => true | _ => false end.

Definition is_Gt (c : option comparison) : bool :=
  match c with Some Gt => true | _ => false end.

(** [a == b] on scalars: numbers compare by value across [bool], [int]
    and [float]; a NaN equals nothing. *)
Definition py_eq (a b : scalar) : bool :=
  match a, b with
  | SNone, SNone => true
  | SStr s, SStr t => String.eqb s t
  | SFloat f, SFloat g => (f =? g)%float
  | SFloat f, SInt z | SInt z, SFloat f => is_Eq (Z_compare_float z f)
  | SFloat f, SBool c | SBool c, SFloat f =>
      is_Eq (Z_compare_float (Z_of_bool c) f)
  | SInt x, SInt y => x =? y
  | SInt x, SBool c | SBool c, SInt x => x =? Z_of_bool c
  | SBool c, SBool d => Bool.eqb c d
  | _, _ => false
  end.

(** [a < b]; [TypeError] between a number and a [str] and on [None]. *)
Definition py_lt (a b : scalar) : result bool :=
  let int_like x :=
    match x with
    | SInt z => Some z
    | SBool c => Some (Z_of_bool c)
    | _ => None
    end in
  match a, b with
  | SStr s, SStr t => Ok (String.ltb s t)
  | SFloat f, SFloat g => Ok (f <? g)%float
  | SFloat f, _ =>
      match int_like b with
      | Some z => Ok (is_Gt (Z_compare_float z f))
      | None => Raise TypeError
      end
  | _, SFloat g =>
      match int_like a with
      | Some z => Ok (is_Lt (Z_compare_float z g))
      | None => Raise TypeError
      end
  | _, _ =>
      match int_like a, int_like b with
      | Some x, Some y => Ok (x <? y)
      | _, _ => Raise TypeError
      end
  end.

(** [min(xs)]: the first item is the candidate, and a later item
    replaces it when [item < candidate]. *)
Fixpoint min_from (cur : scalar) (xs : list scalar) : result scalar :=
  match xs with
  | [] => Ok cur
  | x :: r =>
      lt <- py_lt x cur ;;
      min_from (if lt then x else cur) r
  end.

Definition py_min (xs : list scalar) : result scalar :=
  match xs with
  | [] => Raise ValueError
  | x :: r => min_from x r
  end.

(** [max(xs)]: a later item replaces the candidate when
    [item > candidate]. *)
Fixpoint max_from (cur : scalar) (xs : list scalar) : result scalar :=
  match xs with
  | [] => Ok cur
  | x :: r =>
      gt <- py_lt cur x ;;
      max_from (if gt then x else cur) r
  end.

Definition py_max (xs : list scalar) : result scalar :=
  match xs with
  | [] => Raise ValueError
  | x :: r => max_from x r
  end.

(** [template.format(a1, a2, ...)] for templates whose replacement fields are
    all the automatic [{}]; [{{] and [}}] are literal braces, surplus
    arguments are ignored, a missing one is an [IndexError]. *)
Fixpoint str_format (template : string) (args : list string)
  : result string :=
  match template with
  | EmptyString => Ok EmptyString
  | String "{" (String "}" r) =>
      match args with
      | a :: args' => r' <- str_format r args' ;; Ok (a ++ r')%string
      | [] => Raise IndexError
      end
  | String "{" (String "{" r) =>
      r' <- str_format r args ;; Ok (String "{" r')
  | String "}" (String "}" r) =>
      r' <- str_format r args ;; Ok (String "}" r')
  | String "{" _ => Raise ValueError
  | String "}" _ => Raise ValueError
  | String c r => r' <- str_format r args ;; Ok (String c r')
  end.

(** NumPy's [log10] on one float of a format, under the default error
    state, where a zero or negative argument gives a warning and a
    special value, never an exception.  The half-precision loop computes
    in single precision and rounds. *)
Definition np_log10 `{PyRuntime} (fmt : float_format) (x : float) : float :=
  if is_nan x then nan
  else if (x <? 0)%float then nan
  else if (x =? 0)%float then neg_infinity
  else if (x =? infinity)%float then infinity
  else
    match fmt with
    | Double => log10_pos x
    | Single => log10f_pos x
    | Half => round_to Half (log10f_pos x)
    end.

(* ================================================================= *)
(** ** pandas: columns, DataFrames and the operations the program uses *)

(** A [DataFrame]: its columns by name, all of one length. *)
Definition DataFrame : Type := list (string * column).

(** [dataset[name]], a [KeyError] when there is no such column. *)
Fixpoint get_column (ds : DataFrame) (name : string) : result column :=
  match ds with
  | [] => Raise KeyError
  | (n, c) :: ds' => if String.eqb n name then Ok c else get_column ds' name
  end.

Definition is_nan_scalar (x : scalar) : bool :=
  match x with SFloat f => is_nan f | _ => false end.

Definition is_null (x : scalar) : bool :=
  match x with SNone => true | _ => is_nan_scalar x end.

(** Equality of the hash table behind [Series.unique]: Python's [==],
    and all NaNs are one value. *)
Definition hash_eq (a b : scalar) : bool :=
  (py_eq a b || (is_nan_scalar a && is_nan_scalar b))%bool.

(** [Series.unique()]: one pass that keeps a value when the table of the
    values kept so far does not hold it. *)
Fixpoint unique_from (seen : list scalar) (xs : list scalar) : list scalar :=
  match xs with
  | [] => []
  | x :: r =>
      if existsb (hash_eq x) seen then unique_from seen r
      else x :: unique_from (x :: seen) r
  end.

Definition unique (xs : list scalar) : list scalar := unique_from [] xs.

(** One cell of [series == s] for a scalar [s]: a missing value on
    either side compares false. *)
Definition series_eq (s cell : scalar) : bool :=
  if (is_null s || is_null cell)%bool then false else py_eq cell s.

(** The rows a boolean mask selects. *)
Fixpoint mask_filter {A : Type} (mask : list bool) (xs : list A) : list A :=
  match mask, xs with
  | b :: mask', x :: xs' =>
      if b then x :: mask_filter mask' xs' else mask_filter mask' xs'
  | _, _ => []
  end.

(** [dataset[mask]]. *)
Definition select_rows (ds : DataFrame) (mask : list bool) : DataFrame :=
  map (fun nc : string * column =>
         (fst nc, {| dtype := dtype (snd nc);
                     cells := mask_filter mask (cells (snd nc)) |})) ds.

(** [a & b] on two masks. *)
Fixpoint mask_and (a b : list bool) : list bool :=
  match a, b with
  | x :: a', y :: b' => (x && y)%bool :: mask_and a' b'
  | _, _ => []
  end.

Definition name_of (o : option string) : string :=
  match o with Some s => s | None => EmptyString end.

(* ================================================================= *)
(** ** The grid *)

(** One row of the grid DataFrame, with its two columns. *)
Record grid_row : Type := { value : list scalar; key : string }.

(** The grid: its rows in the order [pd.concat] appended them.  The
    empty list is the [pd.DataFrame()] the builders start from, which
    has no column at all. *)
Definition Grid : Type := list grid_row.

(** The body of the innermost loop of both builders: the row is added
    when the subset has rows. *)
Definition add_entry (subset : DataFrame) (col_name temp : string) (g : Grid)
  : result Grid :=
  c <- get_column subset col_name ;;
  if negb (Nat.eqb (List.length (cells c)) 0)
  then Ok (g ++ [{| value := cells c; key := temp |}])
  else Ok g.

Definition years_or_unique (ds : DataFrame) (time_column : string)
  (years : option (list scalar)) : result (list scalar) :=
  match years with
  | Some ys => Ok ys
  | None => c <- get_column ds time_column ;; Ok (unique (cells c))
  end.

(** The format of a float dtype, NumPy's or the nullable one. *)
Definition float_dtype (name : string) : option float_format :=
  if (String.eqb name "float64" || String.eqb name "Float64")%bool
  then Some Double
  else if (String.eqb name "float32" || String.eqb name "Float32")%bool
  then Some Single
  else if String.eqb name "float16" then Some Half
  else None.

Definition is_float (x : scalar) : bool :=
  match x with SFloat _ => true | _ => false end.

(** What the cells of a Series are compared with in [series == n] for an
    [int] [n].  A Series of a float dtype holds floats, and NumPy converts
    [n] to that dtype first: to binary64 as Python does, which raises
    [OverflowError] beyond the range of the floats, and from there to the
    narrower format.  A categorical of floats looks [n] up among its
    categories as a binary64 float, and where that conversion fails no
    cell matches.  The cells of every other Series compare with [n] as
    Python objects do, exactly. *)
Definition compared_int (tc : column) (n : Z) : result scalar :=
  if forallb is_float (cells tc) then
    match float_dtype (dtype tc) with
    | Some fmt => f <- float_of_int n ;; Ok (SFloat (round_to fmt f))
    | None =>
        if String.eqb (dtype tc) "category" then
          match float_of_int n with
          | Ok f => Ok (SFloat f)
          | Raise _ => Ok SNone
          end
        else Ok (SInt n)
    end
  else Ok (SInt n).

Definition integer_dtype (name : string) : bool :=
  existsb (String.eqb name)
    ["int8"; "int16"; "int32"; "int64";
     "uint8"; "uint16"; "uint32"; "uint64";
     "Int8"; "Int16"; "Int32"; "Int64";
     "UInt8"; "UInt16"; "UInt32"; "UInt64"].

Definition is_int (x : scalar) : bool :=
  match x with SInt _ => true | _ => false end.

(** An integer cell as the binary64 float NumPy casts it to. *)
Definition cell_as_float (x : scalar) : scalar :=
  match x with SInt z => SFloat (Z2float z) | _ => x end.

(** The test [series == s] applies to each cell, for a scalar [s] of
    Python or of the dtype of the Series.  A Series of a float dtype
    converts an [int] as above and rounds a float to its format; a Series
    of an integer dtype compares with a float after its cells are cast to
    binary64; everything else compares as Python objects do. *)
Definition compared (tc : column) (s : scalar) : result (scalar -> bool) :=
  match s with
  | SInt n => c <- compared_int tc n ;; Ok (series_eq c)
  | SFloat f =>
      if forallb is_float (cells tc) then
        match float_dtype (dtype tc) with
        | Some fmt => Ok (series_eq (SFloat (round_to fmt f)))
        | None => Ok (series_eq s)
        end
      else if (integer_dtype (dtype tc) && forallb is_int (cells tc))%bool
      then Ok (fun cell => series_eq s (cell_as_float cell))
      else Ok (series_eq s)
  | _ => Ok (series_eq s)
  end.

(** The mask [dataset[time_column] == int(year)]. *)
Definition year_mask `{PyRuntime} (ds : DataFrame) (time_column : string)
  (year : scalar) : result (list bool) :=
  tc <- get_column ds time_column ;;
  y <- py_int year ;;
  s <- compared_int tc y ;;
  Ok (map (series_eq s) (cells tc)).

(** The mask [dataset[category_column] == category]. *)
Definition category_mask (ds : DataFrame) (category_column : string)
  (category : scalar) : result (list bool) :=
  cc <- get_column ds category_column ;;
  same <- compared cc category ;;
  Ok (map same (cells cc)).

Section Program.

Context `{PyRuntime}.

(** The loop [for col_name in column_names] of both builders on one
    subset; [key_of col_name] is the [format] call that gives [temp]. *)
Definition add_columns (subset : DataFrame) (key_of : string -> result string)
  (column_names : list string) (grid : Grid) : result Grid :=
  for_each column_names (fun grid col_name =>
    temp <- key_of col_name ;;
    add_entry subset col_name temp grid) grid.

Definition makeGrid (dataset : DataFrame) (column_names : list string)
  (time_column : option string) (years : option (list scalar))
  : result Grid :=
  let grid : Grid := [] in
  if given time_column then
    let col_name_template := "{}+{}_grid" in
    years <- years_or_unique dataset (name_of time_column) years ;;
    for_each years (fun grid year =>
      mask <- year_mask dataset (name_of time_column) year ;;
      let dataset_by_year := select_rows dataset mask in
      add_columns dataset_by_year
        (fun col_name =>
           str_format col_name_template [py_str year; col_name])
        column_names grid) grid
  else
    for_each column_names (fun grid col_name =>
      c <- get_column dataset col_name ;;
      Ok (grid ++ [{| value := cells c;
                      key := (col_name ++ "_grid")%string |}])) grid.

Definition makeGridWithCategories (dataset : DataFrame)
  (column_names : list string) (time_column : option string)
  (category_column : string) (years categories : option (list scalar))
  : result Grid :=
  let grid : Grid := [] in
  categories <-
    match categories with
    | Some cs => Ok cs
    | None => c <- get_column dataset category_column ;; Ok (unique (cells c))
    end ;;
  if given time_column then
    let col_name_template := "{}+{}+{}_grid" in
    years <- years_or_unique dataset (name_of time_column) years ;;
    for_each years (fun grid year =>
      for_each categories (fun grid category =>
        ymask <- year_mask dataset (name_of time_column) year ;;
        cmask <- category_mask dataset category_column category ;;
        let dataset_by_year_and_cat :=
          select_rows dataset (mask_and ymask cmask) in
        add_columns dataset_by_year_and_cat
          (fun col_name =>
             str_format col_name_template
               [py_str year; col_name; py_str category])
          column_names grid) grid) grid
  else
    let col_name_template := "{}+{}_grid" in
    for_each categories (fun grid category =>
      cmask <- category_mask dataset category_column category ;;
      let dataset_by_cat := select_rows dataset cmask in
      add_columns dataset_by_cat
        (fun col_name =>
           str_format col_name_template [col_name; py_str category])
        column_names grid) grid.

(* ================================================================= *)
(** ** The figure and its layout *)

(** The figure dictionary, which has exactly the three keys ['data'],
    ['layout'] and ['frames'] from its creation on. *)
Record Figure : Type := {
  data : list pyval;
  layout : dict;
  frames : list pyval
}.

Definition with_layout (fig : Figure) (l : dict) : Figure :=
  {| data := data fig; layout := l; frames := frames fig |}.

Definition axis (title : option string) : pyval :=
  VDict [("title", vopt_str title); ("autorange", vbool false)].

Definition set2Daxes (figure : Figure) (x_title y_title : option string)
  (x_logscale y_logscale : bool) : result Figure :=
  let l := dict_set (layout figure) "xaxis" (axis x_title) in
  let l := dict_set l "yaxis" (axis y_title) in
  l <- (if x_logscale then dict_set_in l "xaxis" "type" (vstr "log")
        else Ok l) ;;
  l <- (if y_logscale then dict_set_in l "yaxis" "type" (vstr "log")
        else Ok l) ;;
  Ok (with_layout figure l).

Definition set3Daxes (figure : Figure) (x_title y_title z_title : option string)
  (x_logscale y_logscale z_logscale : bool) : result Figure :=
  let l := dict_set (layout figure) "scene" (VDict []) in
  l <- dict_set_in l "scene" "xaxis" (axis x_title) ;;
  l <- dict_set_in l "scene" "yaxis" (axis y_title) ;;
  l <- dict_set_in l "scene" "zaxis" (axis z_title) ;;
  l <- (if x_logscale then dict_set_in2 l "scene" "xaxis" "type" (vstr "log")
        else Ok l) ;;
  l <- (if y_logscale then dict_set_in2 l "scene" "yaxis" "type" (vstr "log")
        else Ok l) ;;
  l <- (if z_logscale then dict_set_in2 l "scene" "zaxis" "type" (vstr "log")
        else Ok l) ;;
  Ok (with_layout figure l).

Definition addSlider (figure : Figure) (slider_scale : option (list scalar))
  : result (Figure * dict) :=
  values <- match slider_scale with
            | Some ys => Ok ys
            | None => Raise TypeError
            end ;;
  initial <- py_min values ;;
  let sliders : dict :=
    [("args", VList [vstr "slider.value";
                     VDict [("duration", vint 400);
                            ("ease", vstr "cubic-in-out")]]);
     ("initialValue", VScalar initial);
     ("plotlycommand", vstr "animate");
     ("values", vscalars values);
     ("visible", vbool true)] in
  let sliders_dict : dict :=
    [("active", vint 0);
     ("yanchor", vstr "top");
     ("xanchor", vstr "left");
     ("currentvalue", VDict [("font", VDict [("size", vint 20)]);
                             ("prefix", vstr "Year:");
                             ("visible", vbool true);
                             ("xanchor", vstr "right")]);
     ("transition", VDict [("duration", vint 300);
                           ("easing", vstr "cubic-in-out")]);
     ("pad", VDict [("b", vint 10); ("t", vint 50)]);
     ("len", vfloat 0.9);
     ("x", vfloat 0.1);
     ("y", vint 0);
     ("steps", VList [])] in
  Ok (with_layout figure (dict_set (layout figure) "sliders" (VDict sliders)),
      sliders_dict).

Definition addButton (figure : Figure) : Figure :=
  let play : pyval :=
    VDict [("args", VList [vnone;
                           VDict [("frame", VDict [("duration", vint 500);
                                                   ("redraw", vbool false)]);
                                  ("fromcurrent", vbool true);
                                  ("transition",
                                   VDict [("duration", vint 300);
                                          ("easing",
                                           vstr "quadratic-in-out")])]]);
           ("label", vstr "Play");
           ("method", vstr "animate")] in
  let pause : pyval :=
    VDict [("args", VList [VList [vnone];
                           VDict [("frame", VDict [("duration", vint 0);
                                                   ("redraw", vbool false)]);
                                  ("mode", vstr "immediate");
                                  ("transition",
                                   VDict [("duration", vint 0)])]]);
           ("label", vstr "Pause");
           ("method", vstr "animate")] in
  with_layout figure
    (dict_set (layout figure) "updatemenus"
       (VList [VDict [("buttons", VList [play; pause]);
                      ("direction", vstr "left");
                      ("pad", VDict [("r", vint 10); ("t", vint 87)]);
                      ("showactive", vbool false);
                      ("type", vstr "buttons");
                      ("xanchor", vstr "right");
                      ("yanchor", vstr "top");
                      ("x", vfloat 0.1);
                      ("y", vint 0)]])).

(** [if width:] on an optional [int]: [None] and [0] are false. *)
Definition given_int (o : option Z) : bool :=
  match o with Some z => negb (z =? 0) | None => false end.

Definition int_of (o : option Z) : Z :=
  match o with Some z => z | None => 0 end.

Definition setLayout (x_title y_title z_title title : option string)
  (x_logscale y_logscale z_logscale axes3D show_slider : bool)
  (slider_scale : option (list scalar)) (show_button show_legend : bool)
  (width height : option Z) : result (Figure * dict) :=
  let figure := {| data := []; layout := []; frames := [] |} in
  figure <- (if axes3D
             then set3Daxes figure x_title y_title z_title
                    x_logscale y_logscale z_logscale
             else set2Daxes figure x_title y_title x_logscale y_logscale) ;;
  let l := dict_set (layout figure) "title" (vopt_str title) in
  let l := dict_set l "hovermode" (vstr "closest") in
  let l := dict_set l "showlegend" (vbool show_legend) in
  let l := dict_set l "margin"
             (VDict [("b", vint 50); ("t", vint 50); ("pad", vint 5)]) in
  let l := if given_int width then dict_set l "width" (vint (int_of width))
           else l in
  let l := if given_int height then dict_set l "height" (vint (int_of height))
           else l in
  let figure := with_layout figure l in
  '(figure, sliders_dict) <-
      (if show_slider then addSlider figure slider_scale
       else Ok (figure, [])) ;;
  let figure := if show_button then addButton figure else figure in
  Ok (figure, sliders_dict).

Definition addSliderSteps (sliders_dict : dict) (year : scalar) : result dict :=
  let slider_step : pyval :=
    VDict [("args", VList [VList [VScalar year];
                           VDict [("frame", VDict [("duration", vint 300);
                                                   ("redraw", vbool false)]);
                                  ("mode", vstr "immediate");
                                  ("transition",
                                   VDict [("duration", vint 300)])]]);
           ("label", vstr (py_str year));
           ("method", vstr "animate")] in
  match dict_get sliders_dict "steps" with
  | Some (VList steps) =>
      Ok (dict_set sliders_dict "steps" (VList (steps ++ [slider_step])))
  | Some _ => Raise TypeError
  | None => Raise KeyError
  end.

(* ================================================================= *)
(** ** Axis ranges *)

Fixpoint map_result {A B : Type} (f : A -> result B) (xs : list A)
  : result (list B) :=
  match xs with
  | [] => Ok []
  | x :: r => y <- f x ;; ys <- map_result f r ;; Ok (y :: ys)
  end.

(** The precision in which [np.log10] computes for a boolean, integer or
    binary floating-point dtype of NumPy: the narrowest float format that
    holds every value of the dtype. *)
Definition log10_format (name : string) : option float_format :=
  let among := existsb (String.eqb name) in
  if among ["bool"; "int8"; "uint8"; "float16"] then Some Half
  else if among ["int16"; "uint16"; "float32"] then Some Single
  else if among ["int32"; "uint32"; "int64"; "uint64"; "float64"]
  then Some Double
  else None.

Definition numeric_dtype (name : string) : bool :=
  match log10_format name with Some _ => true | None => false end.

(** [np.log10(values)]: a float Series for a numeric dtype.  On a Series
    of dtype [object] NumPy calls the [log10] method of each cell, which
    no number, text or [None] has: a [TypeError], unless there is no
    cell. *)
Definition np_log10_series (values : column) : result (list scalar) :=
  match log10_format (dtype values) with
  | Some fmt =>
      fs <- map_result as_float (cells values) ;;
      Ok (map (fun f => SFloat (np_log10 fmt f)) fs)
  | None =>
      if String.eqb (dtype values) "object" then
        match cells values with
        | [] => Ok []
        | _ :: _ => Raise TypeError
        end
      else np_log10_other values
  end.

Definition setRange (values : column) (logscale : bool) : result pyval :=
  '(rmin, rmax) <-
    (if logscale then
       logs <- np_log10_series values ;;
       lo <- py_min logs ;;
       rmin <- mul_float lo 0.97 ;;
       logs <- np_log10_series values ;;
       hi <- py_max logs ;;
       rmax <- mul_float hi 1.04 ;;
       Ok (rmin, rmax)
     else
       lo <- py_min (cells values) ;;
       rmin <- mul_float lo 0.7 ;;
       hi <- py_max (cells values) ;;
       rmax <- mul_float hi 1.4 ;;
       Ok (rmin, rmax)) ;;
  Ok (VList [vfloat rmin; vfloat rmax]).

(* ================================================================= *)
(** ** Traces *)

(** [grid.loc[grid['key'] == template.format(args), 'value'].values[0]]:
    the value list of the first row under the key.  The grid with no
    row has no ['key'] column. *)
Definition grid_value (grid : Grid) (template : string) (args : list string)
  : result pyval :=
  match grid with
  | [] => Raise KeyError
  | _ :: _ =>
      k <- str_format template args ;;
      match find (fun r => String.eqb (key r) k) grid with
      | Some r => Ok (vscalars (value r))
      | None => Raise IndexError
      end
  end.

Definition getTrace (grid : Grid) (col_name_template : string)
  (x_column y_column bubble_column : string)
  (z_column size_column : option string) (sizeref : pyval)
  (scale_bubble : num) (marker_opacity marker_border_width : option num)
  (color_column colorscale : option string) (show_colorbar : bool)
  (colorbar_title : option string) (category : scalar) : result dict :=
  x <- grid_value grid col_name_template [x_column; py_str category] ;;
  y <- grid_value grid col_name_template [y_column; py_str category] ;;
  text <- grid_value grid col_name_template
            [bubble_column; py_str category] ;;
  let trace : dict :=
    [("x", x); ("y", y); ("text", text); ("mode", vstr "markers")] in
  trace <-
    (if given z_column then
       z <- grid_value grid col_name_template
              [name_of z_column; py_str category] ;;
       Ok (dict_set trace "z" z)
     else Ok trace) ;;
  marker <-
    (if given size_column then
       size <- grid_value grid col_name_template
                 [name_of size_column; py_str category] ;;
       Ok [("sizemode", vstr "area"); ("sizeref", sizeref); ("size", size)]
     else
       s <- num_mul (NInt 10) scale_bubble ;;
       Ok [("size", VScalar (num_scalar s))]) ;;
  let trace := dict_set trace "marker" (VDict marker) in
  trace <-
    match marker_opacity with
    | Some o =>
        if num_truthy o
        then dict_set_in trace "marker" "opacity" (VScalar (num_scalar o))
        else Ok trace
    | None => Ok trace
    end ;;
  trace <-
    match marker_border_width with
    | Some w =>
        if num_truthy w
        then dict_set_in trace "marker" "line"
               (VDict [("width", VScalar (num_scalar w))])
        else Ok trace
    | None => Ok trace
    end ;;
  trace <-
    (if given color_column then
       color <- grid_value grid col_name_template [name_of color_column] ;;
       trace <- dict_set_in trace "marker" "color" color ;;
       trace <- dict_set_in trace "marker" "colorbar"
                  (VDict [("title", vopt_str colorbar_title)]) ;;
       dict_set_in trace "marker" "colorscale" (vopt_str colorscale)
     else Ok trace) ;;
  Ok (if py_truthy category then dict_set trace "name" (VScalar category)
      else trace).

(* ================================================================= *)
(** ** The orchestrator *)

(** The arguments of [bubbleplot] after the dataset. *)
Record bubble_args : Type := {
  x_column : string;
  y_column : string;
  bubble_column : string;
  z_column : option string;
  time_column : option string;
  size_column : option string;
  color_column : option string;
  x_logscale : bool;
  y_logscale : bool;
  z_logscale : bool;
  x_range : option pyval;
  y_range : option pyval;
  z_range : option pyval;
  x_title : option string;
  y_title : option string;
  z_title : option string;
  title : option string;
  colorbar_title : option string;
  scale_bubble : num;
  colorscale : option string;
  marker_opacity : option num;
  marker_border_width : option num;
  show_slider : bool;
  show_button : bool;
  show_colorbar : bool;
  show_legend : option bool;
  width : option Z;
  height : option Z
}.

(** A call that passes the three required columns and leaves every other
    parameter at its default. *)
Definition default_args (x y bubble : string) : bubble_args :=
  {| x_column := x; y_column := y; bubble_column := bubble;
     z_column := None; time_column := None; size_column := None;
     color_column := None;
     x_logscale := false; y_logscale := false; z_logscale := false;
     x_range := None; y_range := None; z_range := None;
     x_title := None; y_title := None; z_title := None;
     title := None; colorbar_title := None;
     scale_bubble := NInt 1; colorscale := None;
     marker_opacity := None; marker_border_width := None;
     show_slider := true; show_button := true; show_colorbar := true;
     show_legend := None; width := None; height := None |}.

Definition categorical_dtype (name : string) : bool :=
  (String.eqb name "category" || String.eqb name "object"
   || String.eqb name "bool")%bool.

(** The first step of [bubbleplot]: the pair [(category_column,
    color_column)] it goes on with. *)
Definition classify_color (dataset : DataFrame) (color_column : option string)
  : result (option string * option string) :=
  let category_column : option string := None in
  if given color_column then
    c <- get_column dataset (name_of color_column) ;;
    if categorical_dtype (dtype c) then Ok (color_column, None)
    else Ok (category_column, color_column)
  else Ok (category_column, color_column).

(** The column list of [bubbleplot], from the color column that is left
    after [classify_color]. *)
Definition column_names_of (a : bubble_args) (color_column : option string)
  : list string :=
  let column_names := [x_column a; y_column a] in
  let column_names :=
    if given (z_column a) then column_names ++ [name_of (z_column a)]
    else column_names in
  let column_names := column_names ++ [bubble_column a] in
  let column_names :=
    if given (size_column a) then column_names ++ [name_of (size_column a)]
    else column_names in
  if given color_column then column_names ++ [name_of color_column]
  else column_names.

(** [2.*max(dataset[size_column])/(scale_bubble*80**2)], or [None]. *)
Definition compute_sizeref (dataset : DataFrame) (size_column : option string)
  (scale_bubble : num) : result pyval :=
  if given size_column then
    c <- get_column dataset (name_of size_column) ;;
    m <- py_max (cells c) ;;
    n <- mul_float m 2 ;;
    d <- num_mul scale_bubble (NInt (80 ^ 2)) ;;
    sizeref <- float_truediv n d ;;
    Ok (vfloat sizeref)
  else Ok vnone.

(** [for year in years] and [min(years)] on the [years] of [bubbleplot],
    which is [None] when there is no time column. *)
Definition iter_years (years : option (list scalar)) : result (list scalar) :=
  match years with Some ys => Ok ys | None => Raise TypeError end.

Definition min_year (years : option (list scalar)) : result scalar :=
  ys <- iter_years years ;; py_min ys.

Definition mark3d (z_column : option string) (trace : dict) : dict :=
  if given z_column then dict_set trace "type" (vstr "scatter3d") else trace.

(** One pass of [for category in categories] that appends a trace per
    category to [acc]; [template] is the key template the loop body
    computes before it calls [getTrace]. *)
Definition category_traces (a : bubble_args) (grid : Grid) (sizeref : pyval)
  (template : result string) (categories : list scalar) (acc : list pyval)
  : result (list pyval) :=
  for_each categories (fun acc category =>
    col_name_template_year <- template ;;
    trace <- getTrace grid col_name_template_year
               (x_column a) (y_column a) (bubble_column a)
               (z_column a) (size_column a) sizeref (scale_bubble a)
               (marker_opacity a) (marker_border_width a)
               None None true None category ;;
    Ok (acc ++ [VDict (mark3d (z_column a) trace)])) acc.

(** The single trace of the plot without categories. *)
Definition plain_trace (a : bubble_args) (grid : Grid) (sizeref : pyval)
  (color_column : option string) (col_name_template_year : string)
  : result pyval :=
  trace <- getTrace grid col_name_template_year
             (x_column a) (y_column a) (bubble_column a)
             (z_column a) (size_column a) sizeref (scale_bubble a)
             (marker_opacity a) (marker_border_width a)
             color_column (colorscale a) (show_colorbar a)
             (colorbar_title a) SNone ;;
  Ok (VDict (mark3d (z_column a) trace)).

Definition frame (traces : list pyval) (year : scalar) : pyval :=
  VDict [("data", VList traces); ("name", vstr (py_str year))].

Definition append_frame (fig : Figure) (f : pyval) : Figure :=
  {| data := data fig; layout := layout fig; frames := frames fig ++ [f] |}.

Definition with_data (fig : Figure) (d : list pyval) : Figure :=
  {| data := d; layout := layout fig; frames := frames fig |}.

(** The loop [for year in years] that adds one frame, and one slider
    step when the slider is shown; [traces_of year] builds the
    ['data'] of the frame. *)
Definition add_frames (traces_of : scalar -> result (list pyval))
  (show_slider : bool) (years : list scalar) (st : Figure * dict)
  : result (Figure * dict) :=
  for_each years (fun st year =>
    let '(figure, sliders_dict) := st in
    traces <- traces_of year ;;
    let figure := append_frame figure (frame traces year) in
    sliders_dict <- (if show_slider then addSliderSteps sliders_dict year
                     else Ok sliders_dict) ;;
    Ok (figure, sliders_dict)) st.

(** The part of [bubbleplot] that fills ['data'] and ['frames']: the
    base traces from the earliest time value (or from the whole dataset),
    then one frame and one slider step per time value. *)
Definition add_traces (a : bubble_args)
  (category_column color_column : option string)
  (years : option (list scalar)) (categories : list scalar)
  (col_name_template : string) (grid : Grid) (sizeref : pyval)
  (show_slider : bool) (figure : Figure) (sliders_dict : dict)
  : result (Figure * dict) :=
  if given category_column then
    traces <- category_traces a grid sizeref
                (if given (time_column a) then
                   year <- min_year years ;;
                   str_format col_name_template [py_str year; "{}"; "{}"]
                 else Ok "{}+{}_grid")
                categories (data figure) ;;
    let figure := with_data figure traces in
    if given (time_column a) then
      years <- iter_years years ;;
      add_frames (fun year =>
                    category_traces a grid sizeref
                      (str_format col_name_template
                         [py_str year; "{}"; "{}"])
                      categories [])
        show_slider years (figure, sliders_dict)
    else Ok (figure, sliders_dict)
  else
    col_name_template_year <-
      (if given (time_column a) then
         year <- min_year years ;;
         str_format col_name_template [py_str year; "{}"]
       else Ok "{}_grid") ;;
    trace <- plain_trace a grid sizeref color_column
               col_name_template_year ;;
    let figure := with_data figure (data figure ++ [trace]) in
    if given (time_column a) then
      years <- iter_years years ;;
      add_frames (fun year =>
                    col_name_template_year <-
                      str_format col_name_template [py_str year; "{}"] ;;
                    trace <- plain_trace a grid sizeref color_column
                               col_name_template_year ;;
                    Ok [trace])
        show_slider years (figure, sliders_dict)
    else Ok (figure, sliders_dict).

(** The part of [bubbleplot] that puts the ranges into the layout, under
    ['scene'] for a 3D plot. *)
Definition store_ranges (axes3D : bool) (l : dict) (x_range y_range : pyval)
  (z_range : result pyval) : result dict :=
  if axes3D then
    z_range <- z_range ;;
    l <- dict_set_in2 l "scene" "xaxis" "range" x_range ;;
    l <- dict_set_in2 l "scene" "yaxis" "range" y_range ;;
    dict_set_in2 l "scene" "zaxis" "range" z_range
  else
    l <- dict_set_in l "xaxis" "range" x_range ;;
    dict_set_in l "yaxis" "range" y_range.

(** The range of an axis: the one passed, or the one [setRange]
    computes from the column. *)
Definition axis_range (dataset : DataFrame) (name : string)
  (range : option pyval) (logscale : bool) : result pyval :=
  match range with
  | None => c <- get_column dataset name ;; setRange c logscale
  | Some r => Ok r
  end.

Definition bubbleplot (dataset : DataFrame) (a : bubble_args) : result Figure :=
  '(category_column, color_column) <-
      classify_color dataset (color_column a) ;;
  '(years, show_slider, show_button) <-
      (if given (time_column a) then
         tc <- get_column dataset (name_of (time_column a)) ;;
         Ok (Some (unique (cells tc)), show_slider a, show_button a)
       else Ok (None, false, false)) ;;
  let axes3D := given (z_column a) in
  let column_names := column_names_of a color_column in
  '(categories, col_name_template, grid, showlegend) <-
      (if given category_column then
         cc <- get_column dataset (name_of category_column) ;;
         let categories := unique (cells cc) in
         grid <- makeGridWithCategories dataset column_names (time_column a)
                   (name_of category_column) years (Some categories) ;;
         Ok (categories, "{}+{}+{}_grid", grid,
             match show_legend a with None => true | Some b => b end)
       else
         grid <- makeGrid dataset column_names (time_column a) years ;;
         Ok ([], "{}+{}_grid", grid,
             match show_legend a with None => false | Some b => b end)) ;;
  let slider_scale := if show_slider then years else None in
  '(figure, sliders_dict) <-
      setLayout (x_title a) (y_title a) (z_title a) (title a)
        (x_logscale a) (y_logscale a) (z_logscale a) axes3D
        show_slider slider_scale show_button showlegend
        (width a) (height a) ;;
  sizeref <- compute_sizeref dataset (size_column a) (scale_bubble a) ;;
  '(figure, sliders_dict) <-
      add_traces a category_column color_column years categories
        col_name_template grid sizeref show_slider figure sliders_dict ;;
  x_range <- axis_range dataset (x_column a) (x_range a) (x_logscale a) ;;
  y_range <- axis_range dataset (y_column a) (y_range a) (y_logscale a) ;;
  l <- store_ranges axes3D (layout figure) x_range y_range
         (axis_range dataset (name_of (z_column a)) (z_range a)
            (z_logscale a)) ;;
  let figure := with_layout figure l in
  let figure :=
    if show_slider
    then with_layout figure
           (dict_set (layout figure) "sliders" (VList [VDict sliders_dict]))
    else figure in
  Ok figure.

End Program.

(* ================================================================= *)
(** ** What the specification says of the grid *)

(** The values of a column at the rows whose selector cell satisfies
    [p], top to bottom: the rows are the pairs (selector cell, value
    cell), and filtering keeps their order. *)
Definition values_where (p : scalar -> bool) (sel vals : list scalar)
  : list scalar :=
  map snd (filter (fun row => p (fst row)) (combine sel vals)).

(** The same with two selector columns, both of which must match. *)
Definition values_where2 (p q : scalar -> bool) (sel1 sel2 vals : list scalar)
  : list scalar :=
  map snd (filter (fun row => (p (fst (fst row)) && q (snd (fst row)))%bool)
             (combine (combine sel1 sel2) vals)).

(** The subset of column [col] for a time value: the rows whose time cell
    equals [int(year)], as the time column compares with an [int].
    [None] when a column is missing, [int(year)] raises or the comparison
    does. *)
Definition time_subset `{PyRuntime} (ds : DataFrame) (tcol : string) (year : scalar)
  (col : string) : option (list scalar) :=
  match get_column ds tcol, py_int year, get_column ds col with
  | Ok tc, Ok y, Ok c =>
      match compared_int tc y with
      | Ok s => Some (values_where (series_eq s) (cells tc) (cells c))
      | Raise _ => None
      end
  | _, _, _ => None
  end.

(** The subset for a category: the rows whose category cell equals it,
    as the category column compares with it. *)
Definition category_subset (ds : DataFrame) (ccol : string)
  (category : scalar) (col : string) : option (list scalar) :=
  match get_column ds ccol, get_column ds col with
  | Ok cc, Ok c =>
      match compared cc category with
      | Ok same => Some (values_where same (cells cc) (cells c))
      | Raise _ => None
      end
  | _, _ => None
  end.

(** The subset for a time value and a category. *)
Definition time_category_subset `{PyRuntime} (ds : DataFrame) (tcol ccol : string)
  (year category : scalar) (col : string) : option (list scalar) :=
  match get_column ds tcol, py_int year, get_column ds ccol,
        get_column ds col with
  | Ok tc, Ok y, Ok cc, Ok c =>
      match compared_int tc y, compared cc category with
      | Ok s, Ok same =>
          Some (values_where2 (series_eq s) same
                  (cells tc) (cells cc) (cells c))
      | _, _ => None
      end
  | _, _, _, _ => None
  end.

(** The whole column, the subset when there is neither time nor
    category. *)
Definition whole_column (ds : DataFrame) (col : string)
  : option (list scalar) :=
  match get_column ds col with
  | Ok c => Some (cells c)
  | Raise _ => None
  end.

Section Keys.

Context `{PyRuntime}.

(** The four composite keys. *)
Definition plain_key (col : string) : string := (col ++ "_grid")%string.

Definition time_key (year : scalar) (col : string) : string :=
  (py_str year ++ "+" ++ col ++ "_grid")%string.

Definition category_key (col : string) (category : scalar) : string :=
  (col ++ "+" ++ py_str category ++ "_grid")%string.

Definition time_category_key (year : scalar) (col : string)
  (category : scalar) : string :=
  (py_str year ++ "+" ++ col ++ "+" ++ py_str category ++ "_grid")%string.

(** The time values and categories a builder iterates: the array it was
    given, or the unique values of the column. *)
Definition effective (ds : DataFrame) (col : string)
  (given_values : option (list scalar)) : list scalar :=
  match given_values with
  | Some vs => vs
  | None =>
      match get_column ds col with
      | Ok c => unique (cells c)
      | Raise _ => []
      end
  end.

(** A combination a builder visits, as its composite key and its
    subset. *)
Definition candidate : Type := string * option (list scalar).

(** The combinations [makeGrid] visits, in the order of its loops. *)
Definition makeGrid_candidates (ds : DataFrame) (column_names : list string)
  (time_column : option string) (years : option (list scalar))
  : list candidate :=
  if given time_column then
    flat_map (fun year =>
      map (fun col =>
             (time_key year col,
              time_subset ds (name_of time_column) year col))
        column_names)
      (effective ds (name_of time_column) years)
  else
    map (fun col => (plain_key col, whole_column ds col)) column_names.

(** The combinations [makeGridWithCategories] visits. *)
Definition makeGridWithCategories_candidates (ds : DataFrame)
  (column_names : list string) (time_column : option string)
  (category_column : string) (years categories : option (list scalar))
  : list candidate :=
  if given time_column then
    flat_map (fun year =>
      flat_map (fun category =>
        map (fun col =>
               (time_category_key year col category,
                time_category_subset ds (name_of time_column)
                  category_column year category col))
          column_names)
        (effective ds category_column categories))
      (effective ds (name_of time_column) years)
  else
    flat_map (fun category =>
      map (fun col =>
             (category_key col category,
              category_subset ds category_column category col))
        column_names)
      (effective ds category_column categories).

End Keys.

Definition entries_under (k : string) (g : Grid) : Grid :=
  filter (fun r => String.eqb (key r) k) g.

(** How many of the visited combinations have the key [k]. *)
Definition visits (k : string) (cands : list candidate) : nat :=
  count_occ string_dec (map fst cands) k.

(** The grid holds the visited combinations: every combination with a
    non-empty subset has an entry with its key and its subset; every
    entry is a visited combination (with a non-empty subset when the
    builder is [guarded]); the entry of a combination is the only one
    under its key when no other visited combination has that key; and
    under no key are there more entries than visited combinations. *)
Definition grid_holds (guarded : bool) (cands : list candidate) (g : Grid)
  : Prop :=
  (forall k v, In (k, Some v) cands -> v <> [] ->
     In {| value := v; key := k |} g)
  /\ (forall r, In r g ->
        In (key r, Some (value r)) cands
        /\ (guarded = true -> value r <> []))
  /\ (forall k v, In (k, Some v) cands -> v <> [] ->
        visits k cands = 1%nat ->
        entries_under k g = [{| value := v; key := k |}])
  /\ (forall k, (List.length (entries_under k g) <= visits k cands)%nat).

(** The rows a visited combination contributes. *)
Definition candidate_entries (guarded : bool) (cand : candidate) : Grid :=
  match snd cand with
  | Some v =>
      if (guarded && Nat.eqb (List.length v) 0)%bool then []
      else [{| value := v; key := fst cand |}]
  | None => []
  end.

Definition expected_grid (guarded : bool) (cands : list candidate) : Grid :=
  flat_map (candidate_entries guarded) cands.

(* ================================================================= *)
(** ** Data for the examples *)

(** The decimal digits above the ASCII range in Unicode 14.0, the
    database of CPython 3.11: each run of digits by its first code point
    and its length; the digits of a run count up from zero, ten by
    ten. *)
Definition decimal_runs : list (Z * Z) :=
  [(1632, 10); (1776, 10); (1984, 10); (2406, 10); (2534, 10); (2662, 10);
   (2790, 10); (2918, 10); (3046, 10); (3174, 10); (3302, 10); (3430, 10);
   (3558, 10); (3664, 10); (3792, 10); (3872, 10); (4160, 10); (4240, 10);
   (6112, 10); (6160, 10); (6470, 10); (6608, 10); (6784, 10); (6800, 10);
   (6992, 10); (7088, 10); (7232, 10); (7248, 10); (42528, 10);
   (43216, 10); (43264, 10); (43472, 10); (43504, 10); (43600, 10);
   (44016, 10); (65296, 10); (66720, 10); (68912, 10); (69734, 10);
   (69872, 10); (69942, 10); (70096, 10); (70384, 10); (70736, 10);
   (70864, 10); (71248, 10); (71360, 10); (71472, 10); (71904, 10);
   (72016, 10); (72784, 10); (73040, 10); (73120, 10); (92768, 10);
   (92864, 10); (93008, 10); (120782, 50); (123200, 10); (123632, 10);
   (125264, 10); (130032, 10)].

Definition unicode14_decimal (cp : Z) : option Z :=
  match find (fun run => ((fst run <=? cp) && (cp <? fst run + snd run))%bool)
          decimal_runs with
  | Some run => Some ((cp - fst run) mod 10)
  | None => None
  end.

(** The logarithms of 1, 10, 100 and 1000, which are exact. *)
Definition log10_of_power (x : float) : float :=
  if (x =? 1)%float then 0%float
  else if (x =? 10)%float then 1%float
  else if (x =? 100)%float then 2%float
  else if (x =? 1000)%float then 3%float
  else x.

(** A runtime for the closed examples below: CPython 3.11 with its
    default digit limit and its Unicode database.  Where the examples
    take a logarithm of a positive number, it is one of a power of ten
    above; and they hold integers and text where [str] would be called on
    a float, so that its [float_repr] merely stands for Python's. *)
Definition example_runtime : PyRuntime :=
  {| float_repr := fun _ => "nan";
     log10_pos := log10_of_power;
     log10f_pos := log10_of_power;
     unicode_decimal := unicode14_decimal;
     int_max_str_digits := 4300;
     np_log10_other := fun _ => Raise TypeError |}.

Definition int_column (zs : list Z) : column :=
  {| dtype := "int64"; cells := map SInt zs |}.

Definition float_column (fs : list float) : column :=
  {| dtype := "float64"; cells := map SFloat fs |}.

Definition text_column (ss : list string) : column :=
  {| dtype := "object"; cells := map SStr ss |}.

(** The dataset of the specification's example. *)
Definition example_frame : DataFrame :=
  [("year", int_column [2000; 2000; 2001]);
   ("gdp", int_column [1; 2; 3]);
   ("pop", int_column [10; 20; 30]);
   ("country", text_column ["A"; "B"; "A"])].

(** A dataset in which every country has a row in every year. *)
Definition example_panel : DataFrame :=
  [("year", int_column [2000; 2000; 2001; 2001]);
   ("gdp", int_column [1; 2; 3; 4]);
   ("pop", int_column [10; 20; 30; 40]);
   ("country", text_column ["A"; "B"; "A"; "B"])].



(** A dataset with its columns and no row. *)
Definition empty_frame : DataFrame :=
  [("gdp", int_column []); ("pop", int_column []);
   ("country", text_column [])].

Definition example_args : bubble_args := default_args "gdp" "pop" "country".

Definition with_time (a : bubble_args) (t : option string) : bubble_args :=
  {| x_column := x_column a; y_column := y_column a;
     bubble_column := bubble_column a; z_column := z_column a;
     time_column := t; size_column := size_column a;
     color_column := color_column a;
     x_logscale := x_logscale a; y_logscale := y_logscale a;
     z_logscale := z_logscale a;
     x_range := x_range a; y_range := y_range a; z_range := z_range a;
     x_title := x_title a; y_title := y_title a; z_title := z_title a;
     title := title a; colorbar_title := colorbar_title a;
     scale_bubble := scale_bubble a; colorscale := colorscale a;
     marker_opacity := marker_opacity a;
     marker_border_width := marker_border_width a;
     show_slider := show_slider a; show_button := show_button a;
     show_colorbar := show_colorbar a; show_legend := show_legend a;
     width := width a; height := height a |}.


Definition with_color (a : bubble_args) (c : option string) : bubble_args :=
  {| x_column := x_column a; y_column := y_column a;
     bubble_column := bubble_column a; z_column := z_column a;
     time_column := time_column a; size_column := size_column a;
     color_column := c;
     x_logscale := x_logscale a; y_logscale := y_logscale a;
     z_logscale := z_logscale a;
     x_range := x_range a; y_range := y_range a; z_range := z_range a;
     x_title := x_title a; y_title := y_title a; z_title := z_title a;
     title := title a; colorbar_title := colorbar_title a;
     scale_bubble := scale_bubble a; colorscale := colorscale a;
     marker_opacity := marker_opacity a;
     marker_border_width := marker_border_width a;
     show_slider := show_slider a; show_button := show_button a;
     show_colorbar := show_colorbar a; show_legend := show_legend a;
     width := width a; height := height a |}.

(* ================================================================= *)
(** ** Reading a figure *)

(** The ['name'] of a frame. *)
Definition frame_name (f : pyval) : option string :=
  match f with
  | VDict d =>
      match dict_get d "name" with
      | Some (VScalar (SStr s)) => Some s
      | _ => None
      end
  | _ => None
  end.

(** The ['data'] list of a frame. *)
Definition frame_data (f : pyval) : option (list pyval) :=
  match f with
  | VDict d =>
      match dict_get d "data" with
      | Some (VList ts) => Some ts
      | _ => None
      end
  | _ => None
  end.

(** [trace['marker'][k]]. *)
Definition marker_field (trace : pyval) (k : string) : option pyval :=
  match trace with
  | VDict d =>
      match dict_get d "marker" with
      | Some (VDict m) => dict_get m k
      | _ => None
      end
  | _ => None
  end.

(** [trace[k]]. *)
Definition trace_field (trace : pyval) (k : string) : option pyval :=
  match trace with
  | VDict d => dict_get d k
  | _ => None
  end.

(** Every trace of the figure, those of ['data'] and those of the
    frames. *)
Definition all_traces (fig : Figure) : list pyval :=
  data fig
  ++ flat_map (fun f => match frame_data f with Some ts => ts | None => [] end)
       (frames fig).

(** The keys of the layout under which the axes live. *)
Definition axis_keys : list string := ["xaxis"; "yaxis"; "scene"].

Section TraceSpec.

Context `{PyRuntime}.

(** [v] is a trace that [getTrace] returned for the grid, size reference
    and color column given, with the type mark of a 3D plot. *)
Definition is_trace (a : bubble_args) (grid : Grid) (sizeref : pyval)
  (color : option string) (v : pyval) : Prop :=
  exists template colorscale show_colorbar colorbar_title category t,
    getTrace grid template (x_column a) (y_column a) (bubble_column a)
      (z_column a) (size_column a) sizeref (scale_bubble a)
      (marker_opacity a) (marker_border_width a)
      color colorscale show_colorbar colorbar_title category = Ok t
    /\ v = VDict (mark3d (z_column a) t).

End TraceSpec.


(** The test [if width:] written out. *)
Definition shown_size (o : option Z) : option pyval :=
  match o with
  | Some z => if z =? 0 then None else Some (vint z)
  | None => None
  end.

Definition with_width (a : bubble_args) (w : option Z) : bubble_args :=
  {| x_column := x_column a; y_column := y_column a;
     bubble_column := bubble_column a; z_column := z_column a;
     time_column := time_column a; size_column := size_column a;
     color_column := color_column a;
     x_logscale := x_logscale a; y_logscale := y_logscale a;
     z_logscale := z_logscale a;
     x_range := x_range a; y_range := y_range a; z_range := z_range a;
     x_title := x_title a; y_title := y_title a; z_title := z_title a;
     title := title a; colorbar_title := colorbar_title a;
     scale_bubble := scale_bubble a; colorscale := colorscale a;
     marker_opacity := marker_opacity a;
     marker_border_width := marker_border_width a;
     show_slider := show_slider a; show_button := show_button a;
     show_colorbar := show_colorbar a; show_legend := show_legend a;
     width := w; height := height a |}.

(** A cell that is a number with a binary64 value: a float, a [bool], or
    an [int] in the range of the floats. *)
Definition numeric_cell (x : scalar) : bool :=
  match x with
  | SInt z => negb (is_infinity (Z2float z))
  | SFloat _ | SBool _ => true
  | SNone | SStr _ => false
  end.

(** The float of a numeric cell. *)
Definition float_of_cell (x : scalar) : float :=
  match x with
  | SFloat f => f
  | SInt z => Z2float z
  | SBool b => if b then 1%float else 0%float
  | SNone | SStr _ => nan
  end.

(** The logarithms [np.log10] computes for a numeric column, in the
    precision of its dtype. *)
Definition log10_cells `{PyRuntime} (fmt : float_format) (xs : list scalar)
  : list scalar :=
  map (fun x => SFloat (np_log10 fmt (float_of_cell x))) xs.

(** The same logarithms as floats. *)
Definition log10_floats `{PyRuntime} (fmt : float_format) (xs : list scalar)
  : list float :=
  map (fun x => np_log10 fmt (float_of_cell x)) xs.

(** The least and the greatest of an integer and a list of integers. *)
Definition least_of (z : Z) (zs : list Z) : Z := fold_right Z.min z zs.

Definition greatest_of (z : Z) (zs : list Z) : Z := fold_right Z.max z zs.

(** Floats among which there is no NaN, and a least and a greatest one
    of them. *)
Definition no_nan (fs : list float) : Prop :=
  forall x, In x fs -> is_nan x = false.

Definition least (lo : float) (fs : list float) : Prop :=
  In lo fs /\ forall x, In x fs -> (lo <=? x)%float = true.

Definition greatest (hi : float) (fs : list float) : Prop :=
  In hi fs /\ forall x, In x fs -> (x <=? hi)%float = true.

(** What the loop over the columns adds to the grid. *)
Definition column_entries (subset : DataFrame)
  (key_of : string -> result string) (cols : list string) : result Grid :=
  rs <- map_result (fun col =>
          t <- key_of col ;; c <- get_column subset col ;;
          Ok (candidate_entries true (t, Some (cells c)))) cols ;;
  Ok (List.concat rs).

(* ================================================================= *)
(** ** Distinct values in first-seen order *)

(** The distinct values of a column in the order in which they first
    appear, as the specification words it: a cell is listed when no
    earlier cell of the column holds an equal value. *)
Fixpoint first_seen_from (earlier : list scalar) (xs : list scalar)
  : list scalar :=
  match xs with
  | [] => []
  | x :: r =>
      if existsb (hash_eq x) earlier then first_seen_from (x :: earlier) r
      else x :: first_seen_from (x :: earlier) r
  end.

Definition first_seen (xs : list scalar) : list scalar :=
  first_seen_from [] xs.

(** What a scalar is for the hash table: [bool] and [int] are integers. *)
Inductive hkey : Type :=
| HNone
| HStr (s : string)
| HInt (z : Z)
| HFloat (f : float).

Definition hval (x : scalar) : hkey :=
  match x with
  | SNone => HNone
  | SStr s => HStr s
  | SInt z => HInt z
  | SBool b => HInt (Z_of_bool b)
  | SFloat f => HFloat f
  end.

Definition hkey_eq (a b : hkey) : bool :=
  match a, b with
  | HNone, HNone => true
  | HStr s, HStr t => String.eqb s t
  | HInt x, HInt y => x =? y
  | HInt x, HFloat f | HFloat f, HInt x => is_Eq (Z_compare_float x f)
  | HFloat f, HFloat g => ((f =? g)%float || (is_nan f && is_nan g))%bool
  | _, _ => false
  end.

(* ================================================================= *)
(** ** Calls on which [bubbleplot] returns *)

(** A string with no brace. *)
Definition brace_free (s : string) : Prop :=
  forall c, In c (list_ascii_of_string s) -> c <> "{"%char /\ c <> "}"%char.

(** The column [name] is there when the argument is given. *)
Definition column_if_given (ds : DataFrame) (name : option string) : Prop :=
  given name = true -> exists c, get_column ds (name_of name) = Ok c.

(** The column an axis range is computed from allows it: a range was
    passed, or the column holds numbers, of a numeric dtype when the axis
    is logarithmic. *)
Definition range_computable (ds : DataFrame) (name : string)
  (range : option pyval) (logscale : bool) : Prop :=
  range = None ->
  exists c,
    get_column ds name = Ok c
    /\ forallb numeric_cell (cells c) = true
    /\ (logscale = true -> numeric_dtype (dtype c) = true).

(** A bubble scale by which the size reference can be divided. *)
Definition usable_scale (scale_bubble : num) : bool :=
  match num_mul scale_bubble (NInt (80 ^ 2)) with
  | Ok (NInt z) => (negb (z =? 0) && negb (is_infinity (Z2float z)))%bool
  | Ok (NFloat g) => negb (g =? 0)%float
  | Raise _ => false
  end.

(** Some row holds the time value and the category. *)
Definition pair_occurs (tcells ccells : list scalar) (year category : scalar)
  : bool :=
  existsb (fun row => (series_eq year (fst row)
                       && series_eq category (snd row))%bool)
    (combine tcells ccells).

(** The calls this development proves [bubbleplot] to return on: a
    dataset with at least one row whose columns have one length; the
    named columns present; integer time values; with a categorical color
    column, categories that are not missing values, each with a row in
    every year; numeric sizes and a usable scale; and axis columns from
    which the ranges can be computed. *)
Record well_formed_call (ds : DataFrame) (a : bubble_args) : Prop := {
  wf_rows : exists n, n <> 0%nat
            /\ forall name c, get_column ds name = Ok c ->
                              List.length (cells c) = n;
  wf_x : exists c, get_column ds (x_column a) = Ok c;
  wf_y : exists c, get_column ds (y_column a) = Ok c;
  wf_bubble : exists c, get_column ds (bubble_column a) = Ok c;
  wf_z : column_if_given ds (z_column a);
  wf_size : given (size_column a) = true ->
            exists c, get_column ds (name_of (size_column a)) = Ok c
                      /\ forallb numeric_cell (cells c) = true
                      /\ usable_scale (scale_bubble a) = true;
  wf_color : column_if_given ds (color_column a);
  wf_time : given (time_column a) = true ->
            exists c, get_column ds (name_of (time_column a)) = Ok c
                      /\ forallb is_int (cells c) = true;
  wf_categories :
    forall c, given (color_column a) = true ->
      get_column ds (name_of (color_column a)) = Ok c ->
      categorical_dtype (dtype c) = true ->
      forallb (fun x => negb (is_null x)) (cells c) = true
      /\ (forall tc year category,
            given (time_column a) = true ->
            get_column ds (name_of (time_column a)) = Ok tc ->
            In year (cells tc) -> In category (cells c) ->
            pair_occurs (cells tc) (cells c) year category = true);
  wf_x_range : range_computable ds (x_column a) (x_range a) (x_logscale a);
  wf_y_range : range_computable ds (y_column a) (y_range a) (y_logscale a);
  wf_z_range : given (z_column a) = true ->
               range_computable ds (name_of (z_column a)) (z_range a)
                 (z_logscale a)
}.

Definition is_dict (o : option pyval) : Prop := exists d, o = Some (VDict d).

(** The layout has the axis dictionaries of a 2D or of a 3D plot. *)
Definition has_axes (axes3D : bool) (l : dict) : Prop :=
  if axes3D then
    exists scene,
      dict_get l "scene" = Some (VDict scene)
      /\ is_dict (dict_get scene "xaxis")
      /\ is_dict (dict_get scene "yaxis")
      /\ is_dict (dict_get scene "zaxis")
  else is_dict (dict_get l "xaxis") /\ is_dict (dict_get l "yaxis").

(** The columns [getTrace] looks up with the category qualifier. *)
Definition trace_columns (a : bubble_args) : list string :=
  [x_column a; y_column a; bubble_column a]
  ++ (if given (z_column a) then [name_of (z_column a)] else [])
  ++ (if given (size_column a) then [name_of (size_column a)] else []).

Definition has_marker (t : dict) : Prop :=
  exists m, dict_get t "marker" = Some (VDict m).


Definition comparable_int (tc : column) (n : Z) : Prop :=
  float_dtype (dtype tc) <> None ->
  forallb is_float (cells tc) = true ->
  is_infinity (Z2float n) = false.

(** The categories a builder iterates can be compared with the category
    column: an [int] among them is in the range of the floats when the
    column is of a float dtype. *)
Definition categories_usable (ds : DataFrame) (category_column : string)
  (categories : option (list scalar)) : Prop :=
  forall cc n,
    get_column ds category_column = Ok cc ->
    In (SInt n) (effective ds category_column categories) ->
    comparable_int cc n.

Definition years_usable `{PyRuntime} (ds : DataFrame)
  (time_column : option string) (years : option (list scalar)) : Prop :=
  given time_column = true ->
  exists tc,
    get_column ds (name_of time_column) = Ok tc
    /\ forall year, In year (effective ds (name_of time_column) years) ->
         exists y, py_int year = Ok y /\ comparable_int tc y.

(** The example dataset with its rows in another order: 2001 comes
    first. *)
Definition example_unsorted : DataFrame :=
  [("year", int_column [2001; 2000; 2000]);
   ("gdp", int_column [3; 1; 2]);
   ("pop", int_column [30; 10; 20]);
   ("country", text_column ["A"; "A"; "B"])].

(* ================================================================= *)
(** ** Reading the controls and the axes of a figure *)

(** [figure['layout']['sliders'][0]], the slider of the finished
    figure. *)
Definition slider_of (fig : Figure) : option dict :=
  match dict_get (layout fig) "sliders" with
  | Some (VList [VDict sd]) => Some sd
  | _ => None
  end.

(** [slider['steps']]. *)
Definition steps_of (sd : dict) : option (list pyval) :=
  match dict_get sd "steps" with
  | Some (VList steps) => Some steps
  | _ => None
  end.

(** [step['label']]. *)
Definition step_label (step : pyval) : option string :=
  match trace_field step "label" with
  | Some (VScalar (SStr s)) => Some s
  | _ => None
  end.

(** [step['args'][0]], the frames the step animates to. *)
Definition step_target (step : pyval) : option pyval :=
  match trace_field step "args" with
  | Some (VList (target :: _)) => Some target
  | _ => None
  end.

(** An axis dictionary of the finished figure: title, fixed range, the
    log type when asked for, and the range. *)
Definition axis_entry (title : option string) (logscale : bool)
  (range : pyval) : pyval :=
  VDict ([("title", vopt_str title); ("autorange", vbool false)]
         ++ (if logscale then [("type", vstr "log")] else [])
         ++ [("range", range)]).

(** [figure['layout']['updatemenus'][0]['buttons']], the buttons of the
    finished figure; none when there is no menu. *)
Definition buttons_of (fig : Figure) : list pyval :=
  match dict_get (layout fig) "updatemenus" with
  | Some (VList [VDict menu]) =>
      match dict_get menu "buttons" with
      | Some (VList buttons) => buttons
      | _ => []
      end
  | _ => []
  end.

Section StepSpec.

Context `{PyRuntime}.

(** [step] is the slider step of the time value [year]: it is labelled
    [str(year)] and animates to the frame list [[year]]. *)
Definition step_for (year : scalar) (step : pyval) : Prop :=
  step_label step = Some (py_str year)
  /\ step_target step = Some (VList [VScalar year])
  /\ trace_field step "method" = Some (vstr "animate").

End StepSpec.

Section RangeSpec.

Context `{PyRuntime}.

(** [r] is the range of an axis: the one passed, or what [setRange]
    computes from the column of the axis. *)
Definition range_of (ds : DataFrame) (name : string) (range : option pyval)
  (logscale : bool) (r : pyval) : Prop :=
  match range with
  | Some passed => r = passed
  | None => exists c, get_column ds name = Ok c /\ setRange c logscale = Ok r
  end.

End RangeSpec.

(* ================================================================= *)
(** ** More example calls *)

(** The call with a z column. *)
Definition with_z (a : bubble_args) (z : option string) : bubble_args :=
  {| x_column := x_column a; y_column := y_column a;
     bubble_column := bubble_column a; z_column := z;
     time_column := time_column a; size_column := size_column a;
     color_column := color_column a; x_logscale := x_logscale a;
     y_logscale := y_logscale a; z_logscale := z_logscale a;
     x_range := x_range a; y_range := y_range a; z_range := z_range a;
     x_title := x_title a; y_title := y_title a; z_title := z_title a;
     title := title a; colorbar_title := colorbar_title a;
     scale_bubble := scale_bubble a; colorscale := colorscale a;
     marker_opacity := marker_opacity a;
     marker_border_width := marker_border_width a;
     show_slider := show_slider a; show_button := show_button a;
     show_colorbar := show_colorbar a; show_legend := show_legend a;
     width := width a; height := height a |}.

(** The call with explicit x and y ranges. *)
Definition with_ranges (a : bubble_args)
  (xr : option pyval) (yr : option pyval) : bubble_args :=
  {| x_column := x_column a; y_column := y_column a;
     bubble_column := bubble_column a; z_column := z_column a;
     time_column := time_column a; size_column := size_column a;
     color_column := color_column a; x_logscale := x_logscale a;
     y_logscale := y_logscale a; z_logscale := z_logscale a; x_range := xr;
     y_range := yr; z_range := z_range a; x_title := x_title a;
     y_title := y_title a; z_title := z_title a; title := title a;
     colorbar_title := colorbar_title a; scale_bubble := scale_bubble a;
     colorscale := colorscale a; marker_opacity := marker_opacity a;
     marker_border_width := marker_border_width a;
     show_slider := show_slider a; show_button := show_button a;
     show_colorbar := show_colorbar a; show_legend := show_legend a;
     width := width a; height := height a |}.



(** The call with [show_slider] and [show_button] flags. *)
Definition with_controls (a : bubble_args)
  (slider : bool) (button : bool) : bubble_args :=
  {| x_column := x_column a; y_column := y_column a;
     bubble_column := bubble_column a; z_column := z_column a;
     time_column := time_column a; size_column := size_column a;
     color_column := color_column a; x_logscale := x_logscale a;
     y_logscale := y_logscale a; z_logscale := z_logscale a;
     x_range := x_range a; y_range := y_range a; z_range := z_range a;
     x_title := x_title a; y_title := y_title a; z_title := z_title a;
     title := title a; colorbar_title := colorbar_title a;
     scale_bubble := scale_bubble a; colorscale := colorscale a;
     marker_opacity := marker_opacity a;
     marker_border_width := marker_border_width a; show_slider := slider;
     show_button := button; show_colorbar := show_colorbar a;
     show_legend := show_legend a; width := width a; height := height a |}.

(** The call with logarithmic x and y axes. *)
Definition with_logscale (a : bubble_args)
  (xl : bool) (yl : bool) : bubble_args :=
  {| x_column := x_column a; y_column := y_column a;
     bubble_column := bubble_column a; z_column := z_column a;
     time_column := time_column a; size_column := size_column a;
     color_column := color_column a; x_logscale := xl; y_logscale := yl;
     z_logscale := z_logscale a; x_range := x_range a;
     y_range := y_range a; z_range := z_range a; x_title := x_title a;
     y_title := y_title a; z_title := z_title a; title := title a;
     colorbar_title := colorbar_title a; scale_bubble := scale_bubble a;
     colorscale := colorscale a; marker_opacity := marker_opacity a;
     marker_border_width := marker_border_width a;
     show_slider := show_slider a; show_button := show_button a;
     show_colorbar := show_colorbar a; show_legend := show_legend a;
     width := width a; height := height a |}.

(* ================================================================= *)
(** ** The parts of a trace *)

(** The marker entry an optional number gives under the test
    [if marker_opacity:], which [None] and a zero fail. *)
Definition optional_entry (k : string) (o : option num) (wrap : pyval -> pyval)
  : dict :=
  match o with
  | Some n => if num_truthy n then [(k, wrap (VScalar (num_scalar n)))] else []
  | None => []
  end.

Definition opacity_entry (o : option num) : dict :=
  optional_entry "opacity" o (fun v => v).

Definition line_entry (w : option num) : dict :=
  optional_entry "line" w (fun v => VDict [("width", v)]).

Section TraceOf.

Context `{PyRuntime}.

(** [v] is the trace [bubbleplot] builds for the category [c] with the
    key template [tmpl]: the call of [getTrace] in the loops over the
    categories, and the type mark of a 3D plot. *)
Definition category_trace_of (a : bubble_args) (grid : Grid) (sizeref : pyval)
  (tmpl : string) (c : scalar) (v : pyval) : Prop :=
  exists t,
    getTrace grid tmpl (x_column a) (y_column a) (bubble_column a)
      (z_column a) (size_column a) sizeref (scale_bubble a)
      (marker_opacity a) (marker_border_width a)
      None None true None c = Ok t
    /\ v = VDict (mark3d (z_column a) t).

(** The key template of the base traces: that of the earliest time
    value, [min(years)], or the one without a time field. *)
Definition base_template (a : bubble_args) (years : option (list scalar))
  (with_time without_time : string) (holes : list string) : result string :=
  if given (time_column a) then
    year <- min_year years ;;
    str_format with_time (py_str year :: holes)
  else Ok without_time.

End TraceOf.

(** [trace] has the key [k]. *)
Definition trace_has (trace : pyval) (k : string) : bool :=
  match trace_field trace k with Some _ => true | None => false end.

(** The value under [k] that an optional number gives a marker. *)
Definition optional_value (o : option num) (wrap : pyval -> pyval)
  : option pyval :=
  match o with
  | Some n => if num_truthy n then Some (wrap (VScalar (num_scalar n)))
              else None
  | None => None
  end.

(* ================================================================= *)
(** ** The data a trace shows *)

(** A name without the separator [+] of the composite keys. *)
Definition plus_free (s : string) : Prop :=
  forall c, In c (list_ascii_of_string s) -> c <> "+"%char.

Definition is_text (x : scalar) : bool :=
  match x with SStr _ => true | _ => false end.

Section Shows.

Context `{PyRuntime}.

(** The trace [v] shows the rows that [subset] selects: its ['x'],
    ['y'] and ['text'] are the cells of the x, y and bubble columns at
    these rows, and so are its ['z'], the ['size'] of its marker and the
    ['color'] of its marker for the columns that are given. *)
Definition trace_shows (a : bubble_args) (color : option string)
  (subset : string -> option (list scalar)) (v : pyval) : Prop :=
  let shown (field : option pyval) (col : string) :=
    exists cells, subset col = Some cells /\ field = Some (vscalars cells) in
  shown (trace_field v "x") (x_column a)
  /\ shown (trace_field v "y") (y_column a)
  /\ shown (trace_field v "text") (bubble_column a)
  /\ (given (z_column a) = true ->
      shown (trace_field v "z") (name_of (z_column a)))
  /\ (given (size_column a) = true ->
      shown (marker_field v "size") (name_of (size_column a)))
  /\ (given color = true -> shown (marker_field v "color") (name_of color)).

End Shows.

(** The ['name'] a trace gets from its category under the test
    [if category:]. *)
Definition trace_name_of (category : scalar) : option pyval :=
  if py_truthy category then Some (VScalar category) else None.

(** The color column [bubbleplot] finds is not of a categorical dtype, so
    the call has no categorical grouping. *)
Definition no_grouping (ds : DataFrame) (a : bubble_args) : Prop :=
  forall c,
    given (color_column a) = true ->
    get_column ds (name_of (color_column a)) = Ok c ->
    categorical_dtype (dtype c) = false.

(* ================================================================= *)
(** ** The columns a call names *)


(** Every column of the dataset has a row. *)
Definition has_rows (ds : DataFrame) : Prop :=
  forall name c, get_column ds name = Ok c -> cells c <> [].


(* ================================================================= *)
(** * Properties *)

(** ** The error monad and the loops *)

Lemma bind_Ok {A B : Type} (c : result A) (k : A -> result B) (b : B) :
  bind c k = Ok b -> exists a, c = Ok a /\ k a = Ok b.
Proof.
  destruct c as [a|e]; simpl; intros Hk; [eauto | discriminate].
Qed.

(** Inversion of a successful chain of binds, one step at a time. *)
Ltac inv_bind H :=
  let a := fresh "a" in
  let Ha := fresh "Ha" in
  apply bind_Ok in H; destruct H as (a & Ha & H).

Ltac inv_bind_as H a Ha :=
  apply bind_Ok in H; destruct H as (a & Ha & H).

Ltac inv_Ok H := injection H as H; try subst.

(** A loop whose body only appends to its accumulator appends the
    concatenation of what the iterations add. *)
Lemma for_each_append {A R : Type} (f : A -> result (list R))
  (body : list R -> A -> result (list R)) (xs : list A) :
  (forall acc x, body acc x = (r <- f x ;; Ok (acc ++ r))) ->
  forall acc,
    for_each xs body acc = (rs <- map_result f xs ;; Ok (acc ++ List.concat rs)).
Proof.
  intros Hbody. induction xs as [|x xs IH]; intros acc; simpl.
  - now rewrite app_nil_r.
  - rewrite Hbody. destruct (f x) as [r|e]; simpl; [|reflexivity].
    rewrite IH. destruct (map_result f xs) as [rs|e]; simpl; [|reflexivity].
    now rewrite app_assoc.
Qed.

Lemma for_each_append_nil {A R : Type} (f : A -> result (list R))
  (body : list R -> A -> result (list R)) (xs : list A) :
  (forall acc x, body acc x = (r <- f x ;; Ok (acc ++ r))) ->
  forall acc,
    for_each xs body acc = (r <- for_each xs body [] ;; Ok (acc ++ r)).
Proof.
  intros Hbody acc. rewrite !(for_each_append f body xs Hbody).
  destruct (map_result f xs); reflexivity.
Qed.

Lemma map_result_Ok {A B : Type} (f : A -> result B) (xs : list A)
  (ys : list B) :
  map_result f xs = Ok ys -> Forall2 (fun x y => f x = Ok y) xs ys.
Proof.
  revert ys. induction xs as [|x xs IH]; simpl; intros ys Hm.
  - inv_Ok Hm. constructor.
  - inv_bind Hm. inv_bind Hm. inv_Ok Hm. constructor; auto.
Qed.

Lemma map_result_pure {A B : Type} (f : A -> result B) (g : A -> B)
  (xs : list A) (ys : list B) :
  (forall x y, In x xs -> f x = Ok y -> y = g x) ->
  map_result f xs = Ok ys -> ys = map g xs.
Proof.
  revert ys. induction xs as [|x xs IH]; simpl; intros ys Hf Hm.
  - now inv_Ok Hm.
  - inv_bind Hm. inv_bind Hm. inv_Ok Hm. f_equal.
    + apply Hf; auto.
    + apply IH; auto.
Qed.


(** ** Dictionaries *)

Lemma dict_get_set_same (d : dict) (k : string) (v : pyval) :
  dict_get (dict_set d k v) k = Some v.
Proof.
  induction d as [|[k' v'] d IH]; simpl.
  - now rewrite String.eqb_refl.
  - destruct (String.eqb k' k) eqn:E; simpl; now rewrite E.
Qed.

Lemma dict_get_set_other (d : dict) (k k' : string) (v : pyval) :
  k <> k' -> dict_get (dict_set d k v) k' = dict_get d k'.
Proof.
  intros Hne. induction d as [|[k0 v0] d IH]; simpl.
  - destruct (String.eqb k k') eqn:E; [|reflexivity].
    apply String.eqb_eq in E. contradiction.
  - destruct (String.eqb k0 k) eqn:E; simpl.
    + apply String.eqb_eq in E. subst k0.
      destruct (String.eqb k k') eqn:E'; [|reflexivity].
      apply String.eqb_eq in E'. contradiction.
    + now rewrite IH.
Qed.

Lemma dict_set_in_other (d d' : dict) (k1 k2 k' : string) (v : pyval) :
  dict_set_in d k1 k2 v = Ok d' -> k1 <> k' -> dict_get d' k' = dict_get d k'.
Proof.
  unfold dict_set_in. intros Hs Hne.
  destruct (dict_get d k1) as [[s|l|inner]|]; try discriminate.
  inv_Ok Hs. now apply dict_get_set_other.
Qed.

Lemma dict_set_in2_other (d d' : dict) (k1 k2 k3 k' : string) (v : pyval) :
  dict_set_in2 d k1 k2 k3 v = Ok d' -> k1 <> k' ->
  dict_get d' k' = dict_get d k'.
Proof.
  unfold dict_set_in2. intros Hs Hne.
  destruct (dict_get d k1) as [[s|l|inner]|]; try discriminate.
  inv_bind Hs. inv_Ok Hs. now apply dict_get_set_other.
Qed.

(** ** Row selection *)

Lemma get_column_select_rows (ds : DataFrame) (mask : list bool)
  (col : string) :
  get_column (select_rows ds mask) col =
  (c <- get_column ds col ;;
   Ok {| dtype := dtype c; cells := mask_filter mask (cells c) |}).
Proof.
  induction ds as [|[n c] ds IH]; simpl; [reflexivity|].
  destruct (String.eqb n col); [reflexivity | exact IH].
Qed.

Lemma mask_filter_map (p : scalar -> bool) (sel vals : list scalar) :
  mask_filter (map p sel) vals = values_where p sel vals.
Proof.
  unfold values_where. revert vals.
  induction sel as [|s sel IH]; intros [|v vals]; simpl; try reflexivity.
  destruct (p s); simpl; now rewrite IH.
Qed.

Lemma mask_filter_and (p q : scalar -> bool) (sel1 sel2 vals : list scalar) :
  mask_filter (mask_and (map p sel1) (map q sel2)) vals =
  values_where2 p q sel1 sel2 vals.
Proof.
  unfold values_where2. revert sel2 vals.
  induction sel1 as [|s sel1 IH]; intros [|t sel2] [|v vals]; simpl;
    try reflexivity.
  destruct (p s), (q t); simpl; now rewrite IH.
Qed.

(** ** The grid builders compute the expected grid *)

Lemma flat_map_flat_map {A B C : Type} (f : B -> list C) (g : A -> list B)
  (l : list A) :
  flat_map f (flat_map g l) = flat_map (fun x => flat_map f (g x)) l.
Proof.
  induction l as [|x l IH]; simpl; [reflexivity|].
  now rewrite flat_map_app, IH.
Qed.

Lemma flat_map_map {A B C : Type} (f : B -> list C) (g : A -> B)
  (l : list A) :
  flat_map f (map g l) = flat_map (fun x => f (g x)) l.
Proof.
  induction l as [|x l IH]; simpl; [reflexivity|]. now rewrite IH.
Qed.

Lemma add_columns_eq (subset : DataFrame) (key_of : string -> result string)
  (cols : list string) (g : Grid) :
  add_columns subset key_of cols g =
  (r <- column_entries subset key_of cols ;; Ok (g ++ r)).
Proof.
  unfold add_columns, column_entries. rewrite for_each_append with
    (f := fun col => t <- key_of col ;; c <- get_column subset col ;;
                     Ok (candidate_entries true (t, Some (cells c)))).
  - destruct (map_result _ cols); reflexivity.
  - intros acc col. unfold add_entry, candidate_entries. simpl.
    destruct (key_of col) as [t|e]; simpl; [|reflexivity].
    destruct (get_column subset col) as [c|e]; simpl; [|reflexivity].
    destruct (Nat.eqb (List.length (cells c)) 0); simpl; [|reflexivity].
    now rewrite app_nil_r.
Qed.

Lemma column_entries_Ok (subset : DataFrame)
  (key_of : string -> result string) (key_spec : string -> string)
  (sub_spec : string -> option (list scalar)) (cols : list string) (r : Grid) :
  (forall col t, key_of col = Ok t -> t = key_spec col) ->
  (forall col c, get_column subset col = Ok c -> sub_spec col = Some (cells c)) ->
  column_entries subset key_of cols = Ok r ->
  r = flat_map (candidate_entries true)
        (map (fun col => (key_spec col, sub_spec col)) cols).
Proof.
  intros Hkey Hsub Hr. unfold column_entries in Hr. inv_bind Hr. inv_Ok Hr.
  rewrite flat_map_map, flat_map_concat_map. f_equal.
  eapply map_result_pure; [|exact Ha]. simpl. intros col y _ Hy.
  inv_bind Hy. inv_bind Hy. inv_Ok Hy.
  now rewrite (Hkey _ _ Ha0), (Hsub _ _ Ha1).
Qed.

Lemma for_each_expected {A : Type} (f : A -> result Grid) (e : A -> Grid)
  (body : Grid -> A -> result Grid) (xs : list A) (g : Grid) :
  (forall acc x, body acc x = (r <- f x ;; Ok (acc ++ r))) ->
  (forall x r, f x = Ok r -> r = e x) ->
  for_each xs body [] = Ok g -> g = flat_map e xs.
Proof.
  intros Hbody He Hg. rewrite (for_each_append f body xs Hbody) in Hg.
  inv_bind Hg. inv_Ok Hg. simpl. rewrite flat_map_concat_map. f_equal.
  eapply map_result_pure; [|exact Ha]. intros x y _. apply He.
Qed.

Section GridBuilders.

Context `{PyRuntime}.

Lemma years_or_unique_effective (ds : DataFrame) (tcol : string)
  (years : option (list scalar)) (ys : list scalar) :
  years_or_unique ds tcol years = Ok ys -> ys = effective ds tcol years.
Proof.
  unfold years_or_unique, effective. destruct years as [l|].
  - intros E. now inv_Ok E.
  - destruct (get_column ds tcol); simpl; intros E; [now inv_Ok E|discriminate].
Qed.

Lemma makeGrid_expected (ds : DataFrame) (cols : list string)
  (tcol : option string) (years : option (list scalar)) (g : Grid) :
  makeGrid ds cols tcol years = Ok g ->
  g = expected_grid (given tcol) (makeGrid_candidates ds cols tcol years).
Proof.
  unfold makeGrid, makeGrid_candidates, expected_grid.
  destruct (given tcol) eqn:Hgiven; intros Hg.
  - inv_bind Hg. apply years_or_unique_effective in Ha. subst a.
    rewrite flat_map_flat_map.
    eapply for_each_expected with
      (f := fun year =>
         mask <- year_mask ds (name_of tcol) year ;;
         column_entries (select_rows ds mask)
           (fun col_name => str_format "{}+{}_grid" [py_str year; col_name])
           cols); cycle 2; [exact Hg| |].
    + intros acc year. simpl.
      destruct (year_mask ds (name_of tcol) year) as [mask|e]; simpl;
        [apply add_columns_eq | reflexivity].
    + intros year r Hr. inv_bind Hr.
      unfold year_mask in Ha. inv_bind Ha. inv_bind Ha.
      inv_bind_as Ha s Hs. inv_Ok Ha.
      eapply column_entries_Ok; cycle 2; [exact Hr| |].
      * intros col t Ht. simpl in Ht. inv_Ok Ht. reflexivity.
      * intros col c Hc. rewrite get_column_select_rows in Hc.
        inv_bind Hc. inv_Ok Hc. simpl.
        unfold time_subset. rewrite Ha0, Ha1, Ha. cbv iota. rewrite Hs.
        now rewrite mask_filter_map.
  - rewrite flat_map_map.
    eapply for_each_expected with
      (f := fun col => c <- get_column ds col ;;
                       Ok [{| value := cells c; key := plain_key col |}]);
      cycle 2; [exact Hg| |].
    + intros acc col. cbv beta. destruct (get_column ds col); reflexivity.
    + intros col r Hr. inv_bind Hr. inv_Ok Hr.
      unfold candidate_entries, whole_column. simpl. now rewrite Ha.
Qed.

Lemma makeGridWithCategories_expected (ds : DataFrame) (cols : list string)
  (tcol : option string) (ccol : string)
  (years categories : option (list scalar)) (g : Grid) :
  makeGridWithCategories ds cols tcol ccol years categories = Ok g ->
  g = expected_grid true
        (makeGridWithCategories_candidates ds cols tcol ccol years categories).
Proof.
  unfold makeGridWithCategories, makeGridWithCategories_candidates,
    expected_grid.
  intros Hg. inv_bind Hg.
  assert (a = effective ds ccol categories) as ->.
  { unfold effective. destruct categories as [cs|]; [now inv_Ok Ha|].
    inv_bind Ha. inv_Ok Ha. now rewrite Ha0. }
  clear Ha. destruct (given tcol) eqn:Hgiven.
  - inv_bind Hg. apply years_or_unique_effective in Ha. subst a.
    rewrite flat_map_flat_map.
    eapply for_each_expected with
      (f := fun year =>
         for_each (effective ds ccol categories) (fun grid category =>
           ymask <- year_mask ds (name_of tcol) year ;;
           cmask <- category_mask ds ccol category ;;
           add_columns (select_rows ds (mask_and ymask cmask))
             (fun col_name =>
                str_format "{}+{}+{}_grid"
                  [py_str year; col_name; py_str category])
             cols grid) []); cycle 2; [exact Hg| |].
    + intros acc year. cbv beta.
      eapply for_each_append_nil with
        (f := fun category =>
           ymask <- year_mask ds (name_of tcol) year ;;
           cmask <- category_mask ds ccol category ;;
           column_entries (select_rows ds (mask_and ymask cmask))
             (fun col_name =>
                str_format "{}+{}+{}_grid"
                  [py_str year; col_name; py_str category]) cols).
      intros acc0 category. cbv beta.
      destruct (year_mask ds (name_of tcol) year); simpl; [|reflexivity].
      destruct (category_mask ds ccol category); simpl; [|reflexivity].
      apply add_columns_eq.
    + intros year r Hr. rewrite flat_map_flat_map.
      eapply for_each_expected with
        (f := fun category =>
           ymask <- year_mask ds (name_of tcol) year ;;
           cmask <- category_mask ds ccol category ;;
           column_entries (select_rows ds (mask_and ymask cmask))
             (fun col_name =>
                str_format "{}+{}+{}_grid"
                  [py_str year; col_name; py_str category]) cols);
        cycle 2; [exact Hr| |].
      * intros acc category. cbv beta.
        destruct (year_mask ds (name_of tcol) year); simpl; [|reflexivity].
        destruct (category_mask ds ccol category); simpl; [|reflexivity].
        apply add_columns_eq.
      * intros category r' Hr'. inv_bind Hr'. inv_bind Hr'.
        unfold year_mask in Ha. inv_bind Ha. inv_bind Ha.
        inv_bind_as Ha s Hs. inv_Ok Ha.
        unfold category_mask in Ha0. inv_bind Ha0.
        inv_bind_as Ha0 same Hsame. inv_Ok Ha0.
        eapply column_entries_Ok; cycle 2; [exact Hr'| |].
        -- intros col t Ht. simpl in Ht. inv_Ok Ht. reflexivity.
        -- intros col c Hc. rewrite get_column_select_rows in Hc.
           inv_bind Hc. inv_Ok Hc. simpl.
           unfold time_category_subset. rewrite Ha1, Ha2, Ha, Ha0.
           cbv iota. rewrite Hs, Hsame.
           now rewrite mask_filter_and.
  - rewrite flat_map_flat_map.
    eapply for_each_expected with
      (f := fun category =>
         cmask <- category_mask ds ccol category ;;
         column_entries (select_rows ds cmask)
           (fun col_name =>
              str_format "{}+{}_grid" [col_name; py_str category]) cols);
      cycle 2; [exact Hg| |].
    + intros acc category. cbv beta.
      destruct (category_mask ds ccol category); simpl; [|reflexivity].
      apply add_columns_eq.
    + intros category r Hr. inv_bind Hr.
      unfold category_mask in Ha. inv_bind Ha.
      inv_bind_as Ha same Hsame. inv_Ok Ha.
      eapply column_entries_Ok; cycle 2; [exact Hr| |].
      * intros col t Ht. simpl in Ht. inv_Ok Ht. reflexivity.
      * intros col c Hc. rewrite get_column_select_rows in Hc.
        inv_bind Hc. inv_Ok Hc. simpl.
        unfold category_subset. rewrite Ha0, Ha. rewrite Hsame.
        now rewrite mask_filter_map.
Qed.

End GridBuilders.

(** ** The expected grid holds the visited combinations *)

Lemma length_zero_nil {A : Type} (l : list A) :
  Nat.eqb (List.length l) 0 = true <-> l = [].
Proof.
  destruct l; simpl; split; intros E; try reflexivity; discriminate.
Qed.

(** The entries under a key come from the combinations with that key. *)
Lemma entries_under_expected (guarded : bool) (k : string)
  (cands : list candidate) :
  entries_under k (expected_grid guarded cands)
  = expected_grid guarded
      (filter (fun cand => String.eqb (fst cand) k) cands).
Proof.
  unfold entries_under, expected_grid.
  induction cands as [|[k' o] cands IH]; [reflexivity|].
  cbn [flat_map filter fst]. rewrite filter_app, IH.
  assert (Hone : filter (fun r => String.eqb (key r) k)
                   (candidate_entries guarded (k', o))
                 = if String.eqb k' k then candidate_entries guarded (k', o)
                   else []).
  { unfold candidate_entries. cbn [fst snd]. destruct o as [v|].
    - destruct (guarded && Nat.eqb (List.length v) 0)%bool.
      + now destruct (String.eqb k' k).
      + cbn [filter key]. now destruct (String.eqb k' k).
    - now destruct (String.eqb k' k). }
  rewrite Hone. now destruct (String.eqb k' k).
Qed.

Lemma visits_filter (k : string) (cands : list candidate) :
  visits k cands
  = List.length (filter (fun cand => String.eqb (fst cand) k) cands).
Proof.
  unfold visits. induction cands as [|[k' o] cands IH]; [reflexivity|].
  cbn [map count_occ filter fst].
  destruct (string_dec k' k) as [->|Hne].
  - rewrite String.eqb_refl. cbn [List.length]. now rewrite IH.
  - apply String.eqb_neq in Hne. now rewrite Hne.
Qed.

Lemma expected_grid_length (guarded : bool) (cands : list candidate) :
  (List.length (expected_grid guarded cands) <= List.length cands)%nat.
Proof.
  unfold expected_grid. induction cands as [|[k o] cands IH]; [apply le_n|].
  cbn [flat_map]. rewrite length_app. cbn [List.length].
  assert (List.length (candidate_entries guarded (k, o)) <= 1)%nat.
  { unfold candidate_entries. cbn [snd fst]. destruct o as [v|]; [|simpl; lia].
    destruct (guarded && Nat.eqb (List.length v) 0)%bool; simpl; lia. }
  lia.
Qed.

Lemma expected_grid_holds (guarded : bool) (cands : list candidate) :
  grid_holds guarded cands (expected_grid guarded cands).
Proof.
  unfold grid_holds. repeat apply conj.
  - intros k v Hin Hv. apply in_flat_map. exists (k, Some v). split; [exact Hin|].
    unfold candidate_entries. simpl.
    destruct (Nat.eqb (List.length v) 0) eqn:E.
    + apply length_zero_nil in E. contradiction.
    + rewrite andb_false_r. now left.
  - intros r Hr. apply in_flat_map in Hr. destruct Hr as ([k o] & Hin & Hr).
    unfold candidate_entries in Hr. simpl in Hr. destruct o as [v|]; [|easy].
    destruct (guarded && Nat.eqb (List.length v) 0)%bool eqn:E; [easy|].
    destruct Hr as [<-|[]]. split; [exact Hin|].
    intros ->. simpl in E. simpl. intros ->. discriminate.
  - intros k v Hin Hv Hone.
    rewrite entries_under_expected. rewrite visits_filter in Hone.
    assert (Hf : In (k, Some v)
                   (filter (fun cand => String.eqb (fst cand) k) cands)).
    { apply filter_In. split; [exact Hin|]. apply String.eqb_refl. }
    destruct (filter (fun cand => String.eqb (fst cand) k) cands)
      as [|c [|c' l]]; try discriminate.
    destruct Hf as [->|[]].
    unfold expected_grid, candidate_entries. cbn [flat_map snd fst].
    destruct (Nat.eqb (List.length v) 0) eqn:E.
    + apply length_zero_nil in E. contradiction.
    + now rewrite andb_false_r.
  - intros k. rewrite entries_under_expected, visits_filter.
    apply expected_grid_length.
Qed.



(* ================================================================= *)
(** * The layout *)

Ltac dict_get_simpl :=
  repeat first
    [ rewrite dict_get_set_same
    | rewrite dict_get_set_other by discriminate ].

Lemma set2Daxes_spec (fig fig' : Figure) (xt yt : option string)
  (xl yl : bool) :
  set2Daxes fig xt yt xl yl = Ok fig' ->
  data fig' = data fig /\ frames fig' = frames fig
  /\ forall k, ~ In k axis_keys ->
       dict_get (layout fig') k = dict_get (layout fig) k.
Proof.
  unfold set2Daxes. intros Hs. inv_bind Hs. inv_bind Hs. inv_Ok Hs. simpl.
  repeat split. intros k Hk.
  assert ("xaxis" <> k /\ "yaxis" <> k) as [Hx Hy].
  { split; intros <-; apply Hk; simpl; auto. }
  assert (dict_get a0 k = dict_get a k) as ->.
  { destruct yl; [|now inv_Ok Ha0].
    eapply dict_set_in_other; eauto. }
  assert (dict_get a k
          = dict_get (dict_set (dict_set (layout fig) "xaxis" (axis xt))
                        "yaxis" (axis yt)) k) as ->.
  { destruct xl; [|now inv_Ok Ha].
    eapply dict_set_in_other; eauto. }
  now rewrite !dict_get_set_other.
Qed.

Lemma set3Daxes_spec (fig fig' : Figure) (xt yt zt : option string)
  (xl yl zl : bool) :
  set3Daxes fig xt yt zt xl yl zl = Ok fig' ->
  data fig' = data fig /\ frames fig' = frames fig
  /\ forall k, ~ In k axis_keys ->
       dict_get (layout fig') k = dict_get (layout fig) k.
Proof.
  unfold set3Daxes. intros Hs. do 6 inv_bind Hs. inv_Ok Hs. simpl.
  repeat split. intros k Hk.
  assert ("scene" <> k) as Hx.
  { intros <-; apply Hk; simpl; auto. }
  assert (dict_get a4 k = dict_get a3 k) as ->.
  { destruct zl; [|now inv_Ok Ha4]. eapply dict_set_in2_other; eauto. }
  assert (dict_get a3 k = dict_get a2 k) as ->.
  { destruct yl; [|now inv_Ok Ha3]. eapply dict_set_in2_other; eauto. }
  assert (dict_get a2 k = dict_get a1 k) as ->.
  { destruct xl; [|now inv_Ok Ha2]. eapply dict_set_in2_other; eauto. }
  rewrite (dict_set_in_other _ _ _ _ _ _ Ha1 Hx).
  rewrite (dict_set_in_other _ _ _ _ _ _ Ha0 Hx).
  rewrite (dict_set_in_other _ _ _ _ _ _ Ha Hx).
  now rewrite dict_get_set_other.
Qed.

(** What [setLayout] returns: no trace and no frame yet, the legend flag
    as passed, ['width'] and ['height'] under the test [if width:], the
    buttons and the slider entry under their flags. *)
Lemma setLayout_spec (xt yt zt t : option string) (xl yl zl axes3D ss : bool)
  (scale : option (list scalar)) (sb legend : bool) (w h : option Z)
  (fig : Figure) (sd : dict) :
  setLayout xt yt zt t xl yl zl axes3D ss scale sb legend w h = Ok (fig, sd) ->
  data fig = [] /\ frames fig = []
  /\ dict_get (layout fig) "showlegend" = Some (vbool legend)
  /\ dict_get (layout fig) "width"
     = (if given_int w then Some (vint (int_of w)) else None)
  /\ dict_get (layout fig) "height"
     = (if given_int h then Some (vint (int_of h)) else None)
  /\ dict_has (layout fig) "updatemenus" = sb
  /\ dict_has (layout fig) "sliders" = ss
  /\ (if ss then dict_get sd "steps" = Some (VList []) else sd = []).
Proof.
  unfold setLayout. intros Hs. inv_bind Hs. inv_bind Hs.
  destruct a0 as [fig1 sd1]. inv_Ok Hs.
  assert (data a = [] /\ frames a = []
          /\ forall k, ~ In k axis_keys -> dict_get (layout a) k = None)
    as (Hd & Hf & Hl).
  { destruct axes3D.
    - apply set3Daxes_spec in Ha. simpl in Ha. tauto.
    - apply set2Daxes_spec in Ha. simpl in Ha. tauto. }
  clear Ha.
  set (l4 := dict_set (dict_set (dict_set (dict_set (layout a) "title"
               (vopt_str t)) "hovermode" (vstr "closest")) "showlegend"
               (vbool legend)) "margin"
               (VDict [("b", vint 50); ("t", vint 50); ("pad", vint 5)]))
    in *.
  set (l5 := if given_int w then dict_set l4 "width" (vint (int_of w)) else l4)
    in *.
  set (l6 := if given_int h then dict_set l5 "height" (vint (int_of h)) else l5)
    in *.
  assert (Hkeys : dict_get l6 "showlegend" = Some (vbool legend)
          /\ dict_get l6 "width"
             = (if given_int w then Some (vint (int_of w)) else None)
          /\ dict_get l6 "height"
             = (if given_int h then Some (vint (int_of h)) else None)
          /\ dict_get l6 "updatemenus" = None
          /\ dict_get l6 "sliders" = None).
  { unfold l6, l5, l4.
    destruct (given_int w), (given_int h); dict_get_simpl;
      rewrite ?Hl by (unfold axis_keys; simpl; intuition discriminate);
      auto. }
  destruct Hkeys as (K1 & K2 & K3 & K4 & K5).
  assert (data fig1 = [] /\ frames fig1 = []
          /\ dict_get (layout fig1) "showlegend" = Some (vbool legend)
          /\ dict_get (layout fig1) "width"
             = (if given_int w then Some (vint (int_of w)) else None)
          /\ dict_get (layout fig1) "height"
             = (if given_int h then Some (vint (int_of h)) else None)
          /\ dict_get (layout fig1) "updatemenus" = None
          /\ dict_has (layout fig1) "sliders" = ss
          /\ (if ss then dict_get sd "steps" = Some (VList []) else sd = []))
    as (F1 & F2 & F3 & F4 & F5 & F6 & F7 & F8).
  { destruct ss.
    - unfold addSlider in Ha0. inv_bind Ha0. inv_bind Ha0. inv_Ok Ha0.
      simpl. unfold dict_has. dict_get_simpl. auto 10.
    - inv_Ok Ha0. simpl. unfold dict_has. rewrite K5. auto 10. }
  destruct sb; simpl; unfold dict_has; dict_get_simpl; rewrite ?F6; auto 10.
Qed.

(* ================================================================= *)
(** * Traces *)


Section Traces.

Context `{PyRuntime}.




(** The loop over the categories appends one trace per category. *)
Lemma category_traces_spec (a : bubble_args) (grid : Grid) (sizeref : pyval)
  (template : result string) (categories : list scalar)
  (acc ts : list pyval) :
  category_traces a grid sizeref template categories acc = Ok ts ->
  exists new,
    ts = acc ++ new
    /\ List.length new = List.length categories
    /\ Forall (is_trace a grid sizeref None) new.
Proof.
  unfold category_traces. revert acc.
  induction categories as [|c cs IH]; simpl; intros acc Hl.
  - inv_Ok Hl. exists []. now rewrite app_nil_r.
  - inv_bind Hl. inv_bind Ha. inv_bind Ha. inv_Ok Ha.
    apply IH in Hl. destruct Hl as (new & -> & Hlen & HF).
    exists (VDict (mark3d (z_column a) a2) :: new).
    rewrite <- app_assoc. simpl. repeat split; auto.
    constructor; [|exact HF]. unfold is_trace. eauto 10.
Qed.

Lemma plain_trace_spec (a : bubble_args) (grid : Grid) (sizeref : pyval)
  (color : option string) (template : string) (v : pyval) :
  plain_trace a grid sizeref color template = Ok v ->
  is_trace a grid sizeref color v.
Proof.
  unfold plain_trace. intros Hp. inv_bind Hp. inv_Ok Hp.
  unfold is_trace. eauto 10.
Qed.

(** The loop over the years appends one frame per year, named after the
    year, and leaves the traces and the layout alone. *)
Lemma add_frames_spec (traces_of : scalar -> result (list pyval))
  (ss : bool) (years : list scalar) (fig fig' : Figure) (sd sd' : dict) :
  add_frames traces_of ss years (fig, sd) = Ok (fig', sd') ->
  data fig' = data fig /\ layout fig' = layout fig
  /\ exists fs,
       frames fig' = frames fig ++ fs
       /\ Forall2 (fun year f =>
            exists ts, traces_of year = Ok ts /\ f = frame ts year) years fs.
Proof.
  unfold add_frames. revert fig sd.
  induction years as [|y ys IH]; simpl; intros fig sd Hl.
  - inv_Ok Hl. repeat split. exists []. now rewrite app_nil_r.
  - inv_bind Hl. inv_bind Ha. inv_bind Ha. inv_Ok Ha.
    apply IH in Hl. destruct Hl as (Hd & Hlay & fs & Hf & HF).
    simpl in *. repeat split; auto.
    exists (frame a0 y :: fs). rewrite Hf, <- app_assoc. split; [reflexivity|].
    constructor; eauto.
Qed.

End Traces.

(* ================================================================= *)
(** * Equality of scalars and the order of [unique] *)

(** ** Floats that compare equal *)

Lemma SFcompare_Eq (x y : spec_float) :
  SFcompare x y = Some Eq ->
  (exists s s', x = S754_zero s /\ y = S754_zero s')
  \/ (x = y /\ x <> S754_nan).
Proof.
  destruct x as [s|s| |s m e], y as [s'|s'| |s' m' e']; simpl; intros E;
    try discriminate; try (left; eauto; fail).
  - destruct s'; discriminate.
  - destruct s'; discriminate.
  - destruct s; discriminate.
  - destruct s, s'; try discriminate; right; split; (reflexivity || discriminate).
  - destruct s; discriminate.
  - destruct s; discriminate.
  - destruct s'; discriminate.
  - right. split; [|discriminate].
    destruct s, s'; try discriminate;
      destruct (e ?= e') eqn:Ee; try discriminate;
      apply Z.compare_eq in Ee; subst e'; f_equal.
    + destruct (PosDef.Pos.compare_cont Eq m m') eqn:Em; try discriminate.
      now apply Pos.compare_eq.
    + injection E as E. now apply Pos.compare_eq.
Qed.

Lemma SFcompare_refl (x : spec_float) :
  x <> S754_nan -> SFcompare x x = Some Eq.
Proof.
  destruct x as [s|s| |s m e]; simpl; intros Hn; try congruence.
  - destruct s; reflexivity.
  - rewrite Z.compare_refl.
    change (PosDef.Pos.compare_cont Eq m m) with (Pos.compare m m).
    rewrite Pos.compare_refl. destruct s; reflexivity.
Qed.

Lemma digits2_pos_shift (k : nat) :
  forall n m : positive,
    Z.pos n = Z.pos m * 2 ^ Z.of_nat k ->
    Z.pos (digits2_pos n) = Z.pos (digits2_pos m) + Z.of_nat k.
Proof.
  induction k as [|k IH]; intros n m E.
  - change (Z.of_nat 0) with 0 in E. rewrite Z.pow_0_r, Z.mul_1_r in E.
    injection E as ->. lia.
  - rewrite Nat2Z.inj_succ, Z.pow_succ_r in E by lia.
    destruct n as [p|p|].
    + exfalso. rewrite Pos2Z.inj_xI in E. lia.
    + rewrite Pos2Z.inj_xO in E.
      assert (Z.pos p = Z.pos m * 2 ^ Z.of_nat k) as E' by lia.
      apply IH in E'. simpl digits2_pos. lia.
    + exfalso. lia.
Qed.

(** Two canonical mantissa-exponent pairs of one value are the same. *)
Lemma canonical_unique (m1 m2 : positive) (e1 e2 a b : Z) :
  canonical_mantissa prec emax m1 e1 = true ->
  canonical_mantissa prec emax m2 e2 = true ->
  0 <= a -> 0 <= b -> a - b = e1 - e2 ->
  Z.pos m1 * 2 ^ a = Z.pos m2 * 2 ^ b ->
  m1 = m2 /\ e1 = e2.
Proof.
  unfold canonical_mantissa. intros C1 C2 Ha Hb Hd E.
  apply Z.eqb_eq in C1, C2.
  assert (Hdig : Z.pos (digits2_pos m1) + a = Z.pos (digits2_pos m2) + b).
  { assert (0 < Z.pos m1 * 2 ^ a) as Hpos.
    { apply Z.mul_pos_pos; [lia|]. apply Z.pow_pos_nonneg; lia. }
    destruct (Z.pos m1 * 2 ^ a) as [|n|n] eqn:En; try lia.
    rewrite <- (Z2Nat.id a) in En by lia.
    rewrite <- (Z2Nat.id b) in E by lia.
    symmetry in En. apply digits2_pos_shift in En.
    apply digits2_pos_shift in E. rewrite !Z2Nat.id in * by lia. lia. }
  assert (e1 = e2) as ->.
  { rewrite <- C1, <- C2. f_equal. lia. }
  split; [|reflexivity].
  assert (a = b) as -> by lia.
  apply Z.mul_cancel_r in E; [now injection E|].
  apply Z.pow_nonzero; lia.
Qed.

Lemma eqb_SFcompare (f g : float) :
  (f =? g)%float = true <-> SFcompare (Prim2SF f) (Prim2SF g) = Some Eq.
Proof.
  rewrite eqb_spec. unfold SFeqb.
  destruct (SFcompare (Prim2SF f) (Prim2SF g)) as [[]|]; split;
    congruence.
Qed.

Lemma is_nan_Prim2SF (f : float) :
  is_nan f = true -> Prim2SF f = S754_nan.
Proof.
  unfold is_nan. intros Hn. apply negb_true_iff in Hn.
  destruct (Prim2SF f) eqn:E; try reflexivity; exfalso;
    (assert ((f =? f)%float = true) as Hr;
     [apply eqb_SFcompare; rewrite E; apply SFcompare_refl; discriminate
     |congruence]).
Qed.

Lemma eqb_nan_l (f g : float) : is_nan f = true -> (f =? g)%float = false.
Proof.
  intros Hn. rewrite eqb_spec, (is_nan_Prim2SF f Hn). reflexivity.
Qed.

Lemma eqb_nan_r (f g : float) : is_nan g = true -> (f =? g)%float = false.
Proof.
  intros Hn. rewrite eqb_spec, (is_nan_Prim2SF g Hn). unfold SFeqb.
  destruct (Prim2SF f); reflexivity.
Qed.

Lemma Z_compare_float_nan (z : Z) (f : float) :
  is_nan f = true -> Z_compare_float z f = None.
Proof.
  intros Hn. unfold Z_compare_float. now rewrite (is_nan_Prim2SF f Hn).
Qed.

Lemma eqb_float_trans (f g h : float) :
  (f =? g)%float = true -> (g =? h)%float = true -> (f =? h)%float = true.
Proof.
  rewrite !eqb_SFcompare. intros Hfg Hgh.
  destruct (SFcompare_Eq _ _ Hfg) as [(s & s' & Ef & Eg)|[Ef _]].
  - rewrite Ef. rewrite Eg in Hgh. exact Hgh.
  - now rewrite Ef.
Qed.

(** Comparing with an integer sees a float through its value only. *)
Lemma Z_compare_float_eqb (z : Z) (f g : float) :
  (f =? g)%float = true -> Z_compare_float z f = Z_compare_float z g.
Proof.
  rewrite eqb_SFcompare. intros Hfg. unfold Z_compare_float.
  destruct (SFcompare_Eq _ _ Hfg) as [(s & s' & -> & ->)|[-> _]];
    reflexivity.
Qed.

Lemma Z_compare_float_inj (z1 z2 : Z) (f : float) :
  Z_compare_float z1 f = Some Eq -> Z_compare_float z2 f = Some Eq ->
  z1 = z2.
Proof.
  unfold Z_compare_float. destruct (Prim2SF f) as [s|s| |s m e];
    try discriminate.
  - intros E1 E2. inv_Ok E1. inv_Ok E2.
    apply Z.compare_eq in E1, E2. congruence.
  - destruct s; discriminate.
  - destruct (0 <=? e) eqn:He; intros E1 E2; inv_Ok E1; inv_Ok E2;
      apply Z.compare_eq in E1, E2.
    + congruence.
    + apply Z.leb_gt in He. rewrite <- E2 in E1.
      apply Z.mul_cancel_r in E1; [exact E1|]. apply Z.pow_nonzero; lia.
Qed.

(** The equation an integer equal to a finite float satisfies. *)
Lemma Z_compare_float_finite (z : Z) (f : float) (s : bool) (m : positive)
  (e : Z) :
  Prim2SF f = S754_finite s m e ->
  Z_compare_float z f = Some Eq ->
  z * 2 ^ Z.max 0 (- e)
  = (if s then Z.neg m else Z.pos m) * 2 ^ Z.max 0 e.
Proof.
  unfold Z_compare_float. intros ->.
  destruct (0 <=? e) eqn:He; intros E; inv_Ok E; apply Z.compare_eq in E.
  - apply Z.leb_le in He. rewrite (Z.max_l 0 (- e)), (Z.max_r 0 e) by lia.
    rewrite Z.pow_0_r. lia.
  - apply Z.leb_gt in He. rewrite (Z.max_r 0 (- e)), (Z.max_l 0 e) by lia.
    rewrite Z.pow_0_r. lia.
Qed.

Lemma valid_finite (f : float) (s : bool) (m : positive) (e : Z) :
  Prim2SF f = S754_finite s m e -> canonical_mantissa prec emax m e = true.
Proof.
  intros E. pose proof (Prim2SF_valid f) as V. rewrite E in V.
  unfold valid_binary, bounded in V. apply andb_prop in V. tauto.
Qed.

(** Two floats equal to one integer are equal. *)
Lemma Z_compare_float_both (z : Z) (f g : float) :
  Z_compare_float z f = Some Eq -> Z_compare_float z g = Some Eq ->
  (f =? g)%float = true.
Proof.
  intros Hf Hg. apply eqb_SFcompare.
  destruct (Prim2SF f) as [s|s| |s m e] eqn:Ef;
    try (unfold Z_compare_float in Hf; rewrite Ef in Hf;
         try destruct s; discriminate).
  - (* f is a zero, so z = 0 *)
    assert (z = 0) as ->.
    { unfold Z_compare_float in Hf. rewrite Ef in Hf. inv_Ok Hf.
      now apply Z.compare_eq in Hf. }
    destruct (Prim2SF g) as [s'|s'| |s' m' e'] eqn:Eg;
      try (unfold Z_compare_float in Hg; rewrite Eg in Hg;
           try destruct s'; discriminate).
    + reflexivity.
    + exfalso. pose proof (Z_compare_float_finite _ _ _ _ _ Eg Hg) as E.
      rewrite Z.mul_0_l in E. symmetry in E. apply Z.mul_eq_0 in E.
      destruct E as [E|E]; [destruct s'; discriminate|].
      revert E. apply Z.pow_nonzero; lia.
  - pose proof (Z_compare_float_finite _ _ _ _ _ Ef Hf) as E1.
    destruct (Prim2SF g) as [s'|s'| |s' m' e'] eqn:Eg;
      try (unfold Z_compare_float in Hg; rewrite Eg in Hg;
           try destruct s'; discriminate).
    + exfalso.
      assert (z = 0) as ->.
      { unfold Z_compare_float in Hg. rewrite Eg in Hg. inv_Ok Hg.
        now apply Z.compare_eq in Hg. }
      rewrite Z.mul_0_l in E1. symmetry in E1. apply Z.mul_eq_0 in E1.
      destruct E1 as [E1|E1]; [destruct s; discriminate|].
      revert E1. apply Z.pow_nonzero; lia.
    + pose proof (Z_compare_float_finite _ _ _ _ _ Eg Hg) as E2.
      pose proof (valid_finite _ _ _ _ Ef) as C1.
      pose proof (valid_finite _ _ _ _ Eg) as C2.
      set (p1 := Z.max 0 (- e)) in *. set (q1 := Z.max 0 e) in *.
      set (p2 := Z.max 0 (- e')) in *. set (q2 := Z.max 0 e') in *.
      assert (Hp1 : 0 < 2 ^ p1) by (apply Z.pow_pos_nonneg; lia).
      assert (Hq1 : 0 < 2 ^ q1) by (apply Z.pow_pos_nonneg; lia).
      assert (Hp2 : 0 < 2 ^ p2) by (apply Z.pow_pos_nonneg; lia).
      assert (Hq2 : 0 < 2 ^ q2) by (apply Z.pow_pos_nonneg; lia).
      (* the signs agree with the sign of z *)
      assert (s = s') as <-.
      { destruct s, s'; try reflexivity; exfalso; nia. }
      assert (Hmag : Z.pos m * 2 ^ (q1 + p2) = Z.pos m' * 2 ^ (q2 + p1)).
      { rewrite !Z.pow_add_r by lia. destruct s; nia. }
      destruct (canonical_unique m m' e e' (q1 + p2) (q2 + p1)) as [-> ->];
        auto; try lia.
      apply SFcompare_refl. discriminate.
Qed.

(** ** The hash table's equality is transitive *)

Lemma hash_eq_hkey (a b : scalar) : hash_eq a b = hkey_eq (hval a) (hval b).
Proof.
  unfold hash_eq.
  destruct a as [|c|x|f|s], b as [|d|y|g|t]; simpl;
    rewrite ?andb_false_r, ?orb_false_r; try reflexivity.
  - destruct c, d; reflexivity.
  - destruct c; apply Z.eqb_sym.
Qed.

Lemma hkey_eq_trans (a b c : hkey) :
  hkey_eq a b = true -> hkey_eq b c = true -> hkey_eq a c = true.
Proof.
  destruct a as [|s|x|f], b as [|t|y|g], c as [|u|z|h]; simpl;
    try discriminate; try (intros; assumption).
  - (* strings *)
    intros E1 E2. apply String.eqb_eq in E1, E2. subst. apply String.eqb_refl.
  - (* int, int, int *)
    intros E1 E2. apply Z.eqb_eq in E1, E2. subst. apply Z.eqb_refl.
  - (* int, int, float *)
    intros E1 E2. apply Z.eqb_eq in E1. now subst.
  - (* int, float, int *)
    intros E1 E2. apply Z.eqb_eq.
    destruct (Z_compare_float x g) as [[]|] eqn:C1; try discriminate.
    destruct (Z_compare_float z g) as [[]|] eqn:C2; try discriminate.
    eapply Z_compare_float_inj; eauto.
  - (* int, float, float *)
    intros E1 E2. apply orb_prop in E2. destruct E2 as [E2|E2].
    + now rewrite <- (Z_compare_float_eqb x g h E2).
    + apply andb_prop in E2. destruct E2 as [E2 _].
      now rewrite (Z_compare_float_nan x g E2) in E1.
  - (* float, int, int *)
    intros E1 E2. apply Z.eqb_eq in E2. now subst.
  - (* float, int, float *)
    intros E1 E2.
    destruct (Z_compare_float y f) as [[]|] eqn:C1; try discriminate.
    destruct (Z_compare_float y h) as [[]|] eqn:C2; try discriminate.
    now rewrite (Z_compare_float_both y f h C1 C2).
  - (* float, float, int *)
    intros E1 E2. apply orb_prop in E1. destruct E1 as [E1|E1].
    + now rewrite (Z_compare_float_eqb z f g E1).
    + apply andb_prop in E1. destruct E1 as [_ E1].
      now rewrite (Z_compare_float_nan z g E1) in E2.
  - (* float, float, float *)
    intros E1 E2. apply orb_prop in E1, E2.
    destruct E1 as [E1|E1], E2 as [E2|E2].
    + now rewrite (eqb_float_trans f g h E1 E2).
    + apply andb_prop in E2. destruct E2 as [E2 _].
      now rewrite (eqb_nan_r f g E2) in E1.
    + apply andb_prop in E1. destruct E1 as [_ E1].
      now rewrite (eqb_nan_l g h E1) in E2.
    + apply andb_prop in E1, E2. destruct E1 as [E1 _], E2 as [_ E2].
      rewrite E1, E2. apply orb_true_r.
Qed.

Lemma hash_eq_trans (a b c : scalar) :
  hash_eq a b = true -> hash_eq b c = true -> hash_eq a c = true.
Proof. rewrite !hash_eq_hkey. apply hkey_eq_trans. Qed.

(** ** [unique] lists the values in first-seen order *)

Lemma unique_from_first_seen (xs seen earlier : list scalar) :
  (forall x, existsb (hash_eq x) seen = existsb (hash_eq x) earlier) ->
  unique_from seen xs = first_seen_from earlier xs.
Proof.
  revert seen earlier. induction xs as [|x xs IH]; simpl; intros seen earlier
    Hse; [reflexivity|].
  rewrite <- Hse. destruct (existsb (hash_eq x) seen) eqn:Hx.
  - apply IH. intros y. simpl.
    destruct (hash_eq y x) eqn:Hyx; simpl; [|apply Hse].
    apply existsb_exists in Hx. destruct Hx as (s & Hs & Hxs).
    apply existsb_exists. exists s. split; [exact Hs|].
    eapply hash_eq_trans; eauto.
  - f_equal. apply IH. intros y. simpl. now rewrite Hse.
Qed.

(** [Series.unique] gives the distinct values in first-seen order. *)
Lemma unique_first_seen (xs : list scalar) : unique xs = first_seen xs.
Proof. apply unique_from_first_seen. reflexivity. Qed.

(* ================================================================= *)
(** * The orchestrator *)

Section Orchestrator.

Context `{PyRuntime}.

Lemma bubbleplot_inv (ds : DataFrame) (a : bubble_args) (fig : Figure) :
  bubbleplot ds a = Ok fig ->
  exists category color years categories ss sb scale grid sizeref fig0 sd0,
    classify_color ds (color_column a) = Ok (category, color)
    /\ (if given (time_column a)
        then exists tc,
               get_column ds (name_of (time_column a)) = Ok tc
               /\ years = unique (cells tc)
               /\ ss = show_slider a /\ sb = show_button a
        else years = [] /\ ss = false /\ sb = false)
    /\ (if given category
        then exists cc,
               get_column ds (name_of category) = Ok cc
               /\ categories = unique (cells cc)
        else categories = [])
    /\ setLayout (x_title a) (y_title a) (z_title a) (title a)
         (x_logscale a) (y_logscale a) (z_logscale a) (given (z_column a))
         ss scale sb
         (match show_legend a with None => given category | Some b => b end)
         (width a) (height a) = Ok (fig0, sd0)
    /\ compute_sizeref ds (size_column a) (scale_bubble a) = Ok sizeref
    /\ (let traces_ok ts :=
          List.length ts
            = (if given category then List.length categories else 1%nat)
          /\ Forall (is_trace a grid sizeref
                       (if given category then None else color)) ts in
        traces_ok (data fig)
        /\ (if given (time_column a)
            then Forall2 (fun year f =>
                   exists ts, f = frame ts year /\ traces_ok ts)
                   years (frames fig)
            else frames fig = []))
    /\ (forall k, ~ In k axis_keys -> k <> "sliders" ->
          dict_get (layout fig) k = dict_get (layout fig0) k)
    /\ dict_has (layout fig) "sliders" = ss.
Proof.
  unfold bubbleplot. intros Hb.
  inv_bind_as Hb cls Hcls. destruct cls as [category color].
  inv_bind_as Hb tm Htm. destruct tm as [[years ss] sb].
  inv_bind_as Hb gr Hgr. destruct gr as [[[categories template] grid] legend].
  inv_bind_as Hb lay Hlay. destruct lay as [fig0 sd0].
  inv_bind_as Hb sizeref Hsz.
  inv_bind_as Hb tr Htr. destruct tr as [fig1 sd1].
  inv_bind_as Hb xr Hxr. inv_bind_as Hb yr Hyr. inv_bind_as Hb l Hl.
  inv_Ok Hb.
  apply setLayout_spec in Hlay as Hlay0.
  destruct Hlay0 as (D0 & F0 & _ & _ & _ & _ & S0 & _).
  set (yl := match years with Some ys => ys | None => [] end).
  exists category, color, yl, categories, ss, sb,
    (if ss then years else None), grid, sizeref, fig0, sd0.
  (* the time column *)
  assert (Htime : if given (time_column a)
                  then exists tc,
                         get_column ds (name_of (time_column a)) = Ok tc
                         /\ yl = unique (cells tc)
                         /\ ss = show_slider a /\ sb = show_button a
                  else yl = [] /\ ss = false /\ sb = false).
  { destruct (given (time_column a)).
    - inv_bind_as Htm tc Htc. inv_Ok Htm. exists tc. auto.
    - inv_Ok Htm. auto. }
  (* the categories and the legend *)
  assert (Hcat : (if given category
                  then exists cc,
                         get_column ds (name_of category) = Ok cc
                         /\ categories = unique (cells cc)
                  else categories = [])
                 /\ legend = match show_legend a with
                             | None => given category
                             | Some b => b
                             end).
  { destruct (given category).
    - inv_bind_as Hgr cc Hcc. inv_bind_as Hgr g Hg. inv_Ok Hgr. eauto.
    - inv_bind_as Hgr g Hg. inv_Ok Hgr. auto. }
  destruct Hcat as [Hcat ->].
  (* the traces and the frames *)
  assert (Htraces :
    layout fig1 = layout fig0
    /\ (List.length (data fig1)
          = (if given category then List.length categories else 1%nat)
        /\ Forall (is_trace a grid sizeref
                     (if given category then None else color)) (data fig1))
    /\ (if given (time_column a)
        then Forall2 (fun year f =>
               exists ts, f = frame ts year
                 /\ List.length ts
                    = (if given category then List.length categories
                       else 1%nat)
                 /\ Forall (is_trace a grid sizeref
                              (if given category then None else color)) ts)
               yl (frames fig1)
        else frames fig1 = [])).
  { clear Hxr Hyr Hl Htime Hcat Hgr Hlay S0. unfold add_traces in Htr.
    destruct (given category).
    - inv_bind_as Htr traces Htraces.
      apply category_traces_spec in Htraces.
      destruct Htraces as (new & -> & Hlen & Hnew). rewrite D0 in *.
      simpl in *.
      destruct (given (time_column a)).
      + inv_bind_as Htr ys Hys. destruct years as [ys'|]; [|discriminate].
        inv_Ok Hys. apply add_frames_spec in Htr.
        destruct Htr as (-> & -> & fs & Hfs & HF). simpl in *.
        rewrite F0 in Hfs. simpl in Hfs. rewrite Hfs.
        repeat split; auto.
        eapply Forall2_impl; [|exact HF]. simpl.
        intros y f (ts & Hts & ->). apply category_traces_spec in Hts.
        destruct Hts as (new' & -> & Hlen' & Hnew'). simpl. eauto.
      + inv_Ok Htr. simpl. auto.
    - inv_bind_as Htr tmpl Htmpl. inv_bind_as Htr trace Htrace.
      apply plain_trace_spec in Htrace. rewrite D0 in *. simpl in *.
      destruct (given (time_column a)).
      + inv_bind_as Htr ys Hys. destruct years as [ys'|]; [|discriminate].
        inv_Ok Hys. apply add_frames_spec in Htr.
        destruct Htr as (-> & -> & fs & Hfs & HF). simpl in *.
        rewrite F0 in Hfs. simpl in Hfs. rewrite Hfs.
        repeat split; auto.
        eapply Forall2_impl; [|exact HF]. simpl.
        intros y f (ts & Hts & ->). inv_bind_as Hts tmpl' Htmpl'.
        inv_bind_as Hts trace' Htrace'. inv_Ok Hts.
        apply plain_trace_spec in Htrace'. eauto.
      + inv_Ok Htr. simpl. auto. }
  destruct Htraces as (L1 & T1 & Fr1).
  (* the ranges leave the other keys of the layout alone *)
  assert (Hrange : forall k, ~ In k axis_keys ->
                     dict_get l k = dict_get (layout fig0) k).
  { intros k Hk. rewrite <- L1.
    assert ("xaxis" <> k /\ "yaxis" <> k /\ "scene" <> k) as (Kx & Ky & Ks).
    { repeat split; intros <-; apply Hk; simpl; auto. }
    unfold store_ranges in Hl. destruct (given (z_column a)).
    - inv_bind_as Hl zr Hzr. inv_bind_as Hl l1 Hl1. inv_bind_as Hl l2 Hl2.
      rewrite (dict_set_in2_other _ _ _ _ _ _ _ Hl Ks).
      rewrite (dict_set_in2_other _ _ _ _ _ _ _ Hl2 Ks).
      now rewrite (dict_set_in2_other _ _ _ _ _ _ _ Hl1 Ks).
    - inv_bind_as Hl l1 Hl1.
      rewrite (dict_set_in_other _ _ _ _ _ _ Hl Ky).
      now rewrite (dict_set_in_other _ _ _ _ _ _ Hl1 Kx). }
  split; [exact Hcls|]. split; [exact Htime|]. split; [exact Hcat|].
  split; [exact Hlay|]. split; [exact Hsz|].
  assert (Hdata : data (if ss
                        then with_layout (with_layout fig1 l)
                               (dict_set l "sliders" (VList [VDict sd1]))
                        else with_layout fig1 l) = data fig1)
    by (destruct ss; reflexivity).
  assert (Hframes : frames (if ss
                            then with_layout (with_layout fig1 l)
                                   (dict_set l "sliders" (VList [VDict sd1]))
                            else with_layout fig1 l) = frames fig1)
    by (destruct ss; reflexivity).
  rewrite Hdata, Hframes. split; [split; [exact T1 | exact Fr1]|].
  split.
  - intros k Hk Hs. destruct ss; simpl.
    + rewrite dict_get_set_other by congruence. now apply Hrange.
    + now apply Hrange.
  - destruct ss; simpl; unfold dict_has.
    + now rewrite dict_get_set_same.
    + rewrite Hrange by (unfold axis_keys; simpl; intuition discriminate).
      exact S0.
Qed.

End Orchestrator.

Section OrchestratorFacts.

Context `{PyRuntime}.

Lemma frame_name_frame (ts : list pyval) (year : scalar) :
  frame_name (frame ts year) = Some (py_str year).
Proof. reflexivity. Qed.

Lemma frame_data_frame (ts : list pyval) (year : scalar) :
  frame_data (frame ts year) = Some ts.
Proof. reflexivity. Qed.

(** Every trace of a returned figure is a trace [getTrace] built from the
    grid of the call, with the size reference of the call, and with a
    color column only when there is no categorical grouping. *)
Lemma bubbleplot_traces (ds : DataFrame) (a : bubble_args) (fig : Figure) :
  bubbleplot ds a = Ok fig ->
  exists category color grid sizeref,
    classify_color ds (color_column a) = Ok (category, color)
    /\ compute_sizeref ds (size_column a) (scale_bubble a) = Ok sizeref
    /\ Forall (is_trace a grid sizeref
                 (if given category then None else color)) (all_traces fig).
Proof.
  intros Hb. apply bubbleplot_inv in Hb.
  destruct Hb as (category & color & years & categories & ss & sb & scale
                  & grid & sizeref & fig0 & sd0 & Hcls & _ & _ & _ & Hsz
                  & ((_ & Hd) & Hf) & _).
  exists category, color, grid, sizeref. repeat split; auto.
  unfold all_traces. apply Forall_app. split; [exact Hd|].
  destruct (given (time_column a)); [|rewrite Hf; constructor].
  clear -Hf. induction Hf as [|y f ys fs (ts & -> & _ & Hts) _ IH]; simpl.
  - constructor.
  - apply Forall_app. split; [exact Hts | exact IH].
Qed.

Lemma classify_color_cases (ds : DataFrame) (color_arg category color : option string) :
  classify_color ds color_arg = Ok (category, color) ->
  (category = None /\ color = color_arg)
  \/ (category = color_arg /\ color = None /\ given color_arg = true
      /\ exists c, get_column ds (name_of color_arg) = Ok c
                   /\ categorical_dtype (dtype c) = true).
Proof.
  unfold classify_color. destruct (given color_arg) eqn:G.
  - intros Hc. inv_bind_as Hc c Hcol.
    destruct (categorical_dtype (dtype c)) eqn:D; inv_Ok Hc; eauto 10.
  - intros Hc. inv_Ok Hc. auto.
Qed.

Lemma classify_color_categorical (ds : DataFrame) (color_arg : option string)
  (c : column) :
  given color_arg = true ->
  get_column ds (name_of color_arg) = Ok c ->
  categorical_dtype (dtype c) = true ->
  classify_color ds color_arg = Ok (color_arg, None).
Proof.
  unfold classify_color. intros -> -> Hd. simpl. now rewrite Hd.
Qed.

End OrchestratorFacts.


(* ================================================================= *)
(** * Axis ranges *)

Lemma as_float_numeric (x : scalar) :
  numeric_cell x = true -> as_float x = Ok (float_of_cell x).
Proof.
  destruct x as [|b|z|f|s]; simpl; try discriminate; try reflexivity.
  unfold float_of_int. destruct (is_infinity (Z2float z)); [discriminate|].
  reflexivity.
Qed.

Lemma py_lt_numeric (x y : scalar) :
  numeric_cell x = true -> numeric_cell y = true ->
  exists b, py_lt x y = Ok b.
Proof.
  destruct x as [|b|z|f|s], y as [|b'|z'|f'|s']; simpl; try discriminate;
    eauto.
Qed.

Lemma min_from_numeric (xs : list scalar) (cur : scalar) :
  numeric_cell cur = true -> forallb numeric_cell xs = true ->
  exists m, min_from cur xs = Ok m /\ In m (cur :: xs)
            /\ numeric_cell m = true.
Proof.
  revert cur. induction xs as [|x xs IH]; simpl; intros cur Hc Hxs.
  - eauto.
  - apply andb_prop in Hxs. destruct Hxs as [Hx Hxs].
    destruct (py_lt_numeric x cur Hx Hc) as [b ->]. simpl.
    destruct (IH (if b then x else cur)) as (m & Hm & Hin & Hn); auto.
    { destruct b; assumption. }
    exists m. split; [exact Hm|]. split; [|exact Hn].
    destruct Hin as [<-|Hin]; [destruct b|]; auto.
Qed.

Lemma max_from_numeric (xs : list scalar) (cur : scalar) :
  numeric_cell cur = true -> forallb numeric_cell xs = true ->
  exists m, max_from cur xs = Ok m /\ In m (cur :: xs)
            /\ numeric_cell m = true.
Proof.
  revert cur. induction xs as [|x xs IH]; simpl; intros cur Hc Hxs.
  - eauto.
  - apply andb_prop in Hxs. destruct Hxs as [Hx Hxs].
    destruct (py_lt_numeric cur x Hc Hx) as [b ->]. simpl.
    destruct (IH (if b then x else cur)) as (m & Hm & Hin & Hn); auto.
    { destruct b; assumption. }
    exists m. split; [exact Hm|]. split; [|exact Hn].
    destruct Hin as [<-|Hin]; [destruct b|]; auto.
Qed.

Lemma py_min_numeric (xs : list scalar) :
  xs <> [] -> forallb numeric_cell xs = true ->
  exists m, py_min xs = Ok m /\ In m xs /\ numeric_cell m = true.
Proof.
  destruct xs as [|x xs]; [congruence|]. simpl. intros _ Hxs.
  apply andb_prop in Hxs. destruct Hxs. now apply min_from_numeric.
Qed.

Lemma py_max_numeric (xs : list scalar) :
  xs <> [] -> forallb numeric_cell xs = true ->
  exists m, py_max xs = Ok m /\ In m xs /\ numeric_cell m = true.
Proof.
  destruct xs as [|x xs]; [congruence|]. simpl. intros _ Hxs.
  apply andb_prop in Hxs. destruct Hxs. now apply max_from_numeric.
Qed.

Lemma map_result_as_float (xs : list scalar) :
  forallb numeric_cell xs = true ->
  map_result as_float xs = Ok (map float_of_cell xs).
Proof.
  induction xs as [|x xs IH]; simpl; [reflexivity|]. intros Hxs.
  apply andb_prop in Hxs. destruct Hxs as [Hx Hxs].
  now rewrite (as_float_numeric x Hx), (IH Hxs).
Qed.

Section Ranges.

Context `{PyRuntime}.

Lemma numeric_dtype_format (name : string) :
  numeric_dtype name = true -> exists fmt, log10_format name = Some fmt.
Proof.
  unfold numeric_dtype. destruct (log10_format name) as [fmt|]; [eauto|].
  discriminate.
Qed.

Lemma np_log10_series_numeric (values : column) (fmt : float_format) :
  forallb numeric_cell (cells values) = true ->
  log10_format (dtype values) = Some fmt ->
  np_log10_series values = Ok (log10_cells fmt (cells values)).
Proof.
  intros Hn Hd. unfold np_log10_series, log10_cells. rewrite Hd.
  rewrite (map_result_as_float _ Hn). simpl. now rewrite map_map.
Qed.

Lemma log10_cells_numeric (fmt : float_format) (xs : list scalar) :
  forallb numeric_cell (log10_cells fmt xs) = true.
Proof. induction xs; simpl; auto. Qed.

Lemma log10_cells_float (fmt : float_format) (xs : list scalar) (m : scalar) :
  In m (log10_cells fmt xs) -> exists f, m = SFloat f.
Proof.
  unfold log10_cells. intros Hin. apply in_map_iff in Hin.
  destruct Hin as (x & <- & _). eauto.
Qed.

Lemma setRange_linear (values : column) :
  cells values <> [] ->
  forallb numeric_cell (cells values) = true ->
  exists lo hi,
    py_min (cells values) = Ok lo /\ py_max (cells values) = Ok hi
    /\ In lo (cells values) /\ In hi (cells values)
    /\ setRange values false
       = Ok (VList [vfloat (float_of_cell lo * 0.7);
                    vfloat (float_of_cell hi * 1.4)]).
Proof.
  intros Hne Hnum.
  destruct (py_min_numeric _ Hne Hnum) as (lo & Hlo & Ilo & Nlo).
  destruct (py_max_numeric _ Hne Hnum) as (hi & Hhi & Ihi & Nhi).
  exists lo, hi. repeat split; auto.
  unfold setRange, mul_float. rewrite Hlo, Hhi. simpl.
  rewrite (as_float_numeric lo Nlo). simpl.
  now rewrite (as_float_numeric hi Nhi).
Qed.

Lemma setRange_log (values : column) (fmt : float_format) :
  cells values <> [] ->
  forallb numeric_cell (cells values) = true ->
  log10_format (dtype values) = Some fmt ->
  exists lo hi,
    py_min (log10_cells fmt (cells values)) = Ok (SFloat lo)
    /\ py_max (log10_cells fmt (cells values)) = Ok (SFloat hi)
    /\ setRange values true
       = Ok (VList [vfloat (lo * 0.97); vfloat (hi * 1.04)]).
Proof.
  intros Hne Hnum Hd.
  assert (Hne' : log10_cells fmt (cells values) <> []).
  { unfold log10_cells. destruct (cells values); [congruence|discriminate]. }
  pose proof (log10_cells_numeric fmt (cells values)) as Hnum'.
  destruct (py_min_numeric _ Hne' Hnum') as (lo & Hlo & Ilo & _).
  destruct (py_max_numeric _ Hne' Hnum') as (hi & Hhi & Ihi & _).
  apply log10_cells_float in Ilo, Ihi.
  destruct Ilo as [flo ->]. destruct Ihi as [fhi ->].
  exists flo, fhi. repeat split; auto.
  unfold setRange. rewrite (np_log10_series_numeric _ _ Hnum Hd). simpl.
  rewrite Hlo, Hhi. reflexivity.
Qed.

End Ranges.

(** ** The order of the floats *)

Lemma compare_cont_Eq (m n : positive) :
  PosDef.Pos.compare_cont Eq m n = Pos.compare m n.
Proof. reflexivity. Qed.

Ltac order_step :=
  match goal with
  | H : context [Z.compare ?a ?b] |- _ =>
      destruct (Z.compare_spec a b); try discriminate
  | |- context [Z.compare ?a ?b] =>
      destruct (Z.compare_spec a b); try discriminate
  | H : context [Pos.compare ?a ?b] |- _ =>
      destruct (Pos.compare_spec a b); try discriminate
  | |- context [Pos.compare ?a ?b] =>
      destruct (Pos.compare_spec a b); try discriminate
  end.

Ltac order_cases :=
  rewrite ?compare_cont_Eq in *;
  repeat (order_step; subst; cbn [CompOpp] in *);
  try reflexivity; try discriminate; try lia.

Lemma SFltb_trans (x y z : spec_float) :
  SFltb x y = true -> SFltb y z = true -> SFltb x z = true.
Proof.
  unfold SFltb.
  destruct x as [s1|s1| |s1 m1 e1], y as [s2|s2| |s2 m2 e2],
    z as [s3|s3| |s3 m3 e3]; simpl;
    try destruct s1; try destruct s2; try destruct s3; simpl;
    try discriminate; try reflexivity;
    intros H1 H2; order_cases.
Qed.

Lemma SFltb_irrefl (x : spec_float) : SFltb x x = false.
Proof.
  unfold SFltb. destruct x as [s|s| |s m e]; simpl; try reflexivity.
  - now destruct s.
  - rewrite Z.compare_refl, compare_cont_Eq, Pos.compare_refl. now destruct s.
Qed.

Lemma SFltb_total (x y : spec_float) :
  x <> S754_nan -> y <> S754_nan -> SFltb x y = false -> SFleb y x = true.
Proof.
  unfold SFltb, SFleb.
  destruct x as [s1|s1| |s1 m1 e1], y as [s2|s2| |s2 m2 e2]; simpl;
    try destruct s1; try destruct s2; simpl;
    try discriminate; try reflexivity; try congruence;
    intros _ _ H1; order_cases.
Qed.

Lemma nan_Prim2SF (f : float) : is_nan f = false -> Prim2SF f <> S754_nan.
Proof.
  intros Hn E. unfold is_nan in Hn. rewrite eqb_spec, E in Hn. discriminate.
Qed.

Lemma ltb_trans (x y z : float) :
  (x <? y)%float = true -> (y <? z)%float = true -> (x <? z)%float = true.
Proof. rewrite !ltb_spec. apply SFltb_trans. Qed.

Lemma ltb_irrefl (x : float) : (x <? x)%float = false.
Proof. rewrite ltb_spec. apply SFltb_irrefl. Qed.

Lemma ltb_false_leb (x y : float) :
  is_nan x = false -> is_nan y = false ->
  (x <? y)%float = false -> (y <=? x)%float = true.
Proof.
  rewrite ltb_spec, leb_spec. intros Hx Hy.
  apply SFltb_total; now apply nan_Prim2SF.
Qed.

(** ** [min] and [max] on floats *)

Lemma min_from_floats (fs : list float) (c : float) :
  exists lo,
    min_from (SFloat c) (map SFloat fs) = Ok (SFloat lo)
    /\ In lo (c :: fs)
    /\ (lo = c \/ (lo <? c)%float = true)
    /\ forall x, In x (c :: fs) -> (x <? lo)%float = false.
Proof.
  revert c. induction fs as [|f fs IH]; intros c.
  - exists c. split; [reflexivity|]. split; [now left|]. split; [now left|].
    intros x [<-|[]]. apply ltb_irrefl.
  - cbn [map min_from py_lt bind].
    destruct (f <? c)%float eqn:E.
    + destruct (IH f) as (lo & Hm & Hin & Hlo & Hle). exists lo.
      split; [exact Hm|]. split; [now right|].
      assert (Hc : (lo <? c)%float = true).
      { destruct Hlo as [->|Hlo]; [exact E|]. eapply ltb_trans; eauto. }
      split; [now right|].
      intros x [<-|Hx]; [|now apply Hle].
      destruct (c <? lo)%float eqn:E'; [|reflexivity].
      pose proof (ltb_trans _ _ _ E' Hc) as Hxx.
      rewrite ltb_irrefl in Hxx. discriminate.
    + destruct (IH c) as (lo & Hm & Hin & Hlo & Hle). exists lo.
      split; [exact Hm|]. split.
      { destruct Hin as [<-|Hin]; [now left|now right; right]. }
      split; [exact Hlo|].
      intros x [<-|[<-|Hx]].
      * apply Hle. now left.
      * destruct (f <? lo)%float eqn:E'; [|reflexivity].
        destruct Hlo as [->|Hlo]; [congruence|].
        rewrite (ltb_trans _ _ _ E' Hlo) in E. discriminate.
      * apply Hle. now right.
Qed.

Lemma max_from_floats (fs : list float) (c : float) :
  exists hi,
    max_from (SFloat c) (map SFloat fs) = Ok (SFloat hi)
    /\ In hi (c :: fs)
    /\ (hi = c \/ (c <? hi)%float = true)
    /\ forall x, In x (c :: fs) -> (hi <? x)%float = false.
Proof.
  revert c. induction fs as [|f fs IH]; intros c.
  - exists c. split; [reflexivity|]. split; [now left|]. split; [now left|].
    intros x [<-|[]]. apply ltb_irrefl.
  - cbn [map max_from py_lt bind].
    destruct (c <? f)%float eqn:E.
    + destruct (IH f) as (hi & Hm & Hin & Hhi & Hle). exists hi.
      split; [exact Hm|]. split; [now right|].
      assert (Hc : (c <? hi)%float = true).
      { destruct Hhi as [->|Hhi]; [exact E|]. eapply ltb_trans; eauto. }
      split; [now right|].
      intros x [<-|Hx]; [|now apply Hle].
      destruct (hi <? c)%float eqn:E'; [|reflexivity].
      pose proof (ltb_trans _ _ _ Hc E') as Hxx.
      rewrite ltb_irrefl in Hxx. discriminate.
    + destruct (IH c) as (hi & Hm & Hin & Hhi & Hle). exists hi.
      split; [exact Hm|]. split.
      { destruct Hin as [<-|Hin]; [now left|now right; right]. }
      split; [exact Hhi|].
      intros x [<-|[<-|Hx]].
      * apply Hle. now left.
      * destruct (hi <? f)%float eqn:E'; [|reflexivity].
        destruct Hhi as [->|Hhi]; [congruence|].
        rewrite (ltb_trans _ _ _ Hhi E') in E. discriminate.
      * apply Hle. now right.
Qed.

(** ** [min] and [max] on integers *)

Lemma fold_min_out (z c : Z) (zs : list Z) :
  fold_right Z.min (Z.min z c) zs = Z.min z (fold_right Z.min c zs).
Proof. induction zs as [|y zs IH]; simpl; [reflexivity|]. rewrite IH. lia. Qed.

Lemma fold_max_out (z c : Z) (zs : list Z) :
  fold_right Z.max (Z.max z c) zs = Z.max z (fold_right Z.max c zs).
Proof. induction zs as [|y zs IH]; simpl; [reflexivity|]. rewrite IH. lia. Qed.

Lemma min_from_Z (zs : list Z) (c : Z) :
  min_from (SInt c) (map SInt zs) = Ok (SInt (least_of c zs)).
Proof.
  unfold least_of. revert c. induction zs as [|z zs IH]; intros c.
  - reflexivity.
  - cbn [map min_from py_lt bind fold_right].
    destruct (Z.ltb_spec z c).
    + rewrite IH. rewrite <- fold_min_out. do 3 f_equal. lia.
    + rewrite IH. rewrite <- fold_min_out. do 3 f_equal. lia.
Qed.

Lemma max_from_Z (zs : list Z) (c : Z) :
  max_from (SInt c) (map SInt zs) = Ok (SInt (greatest_of c zs)).
Proof.
  unfold greatest_of. revert c. induction zs as [|z zs IH]; intros c.
  - reflexivity.
  - cbn [map max_from py_lt bind fold_right].
    destruct (Z.ltb_spec c z).
    + rewrite IH. rewrite <- fold_max_out. do 3 f_equal. lia.
    + rewrite IH. rewrite <- fold_max_out. do 3 f_equal. lia.
Qed.

Lemma least_of_in (z : Z) (zs : list Z) : In (least_of z zs) (z :: zs).
Proof.
  unfold least_of. induction zs as [|y zs IH]; simpl; [now left|].
  destruct (Z.min_spec y (fold_right Z.min z zs)) as [[_ ->]|[_ ->]].
  - right. now left.
  - destruct IH as [E|Hin]; [now left|now right; right].
Qed.

Lemma greatest_of_in (z : Z) (zs : list Z) : In (greatest_of z zs) (z :: zs).
Proof.
  unfold greatest_of. induction zs as [|y zs IH]; simpl; [now left|].
  destruct (Z.max_spec y (fold_right Z.max z zs)) as [[_ ->]|[_ ->]].
  - destruct IH as [E|Hin]; [now left|now right; right].
  - right. now left.
Qed.

(** ** Least and greatest floats *)

Lemma py_min_least (f : float) (fs : list float) :
  exists lo,
    py_min (map SFloat (f :: fs)) = Ok (SFloat lo)
    /\ In lo (f :: fs)
    /\ (no_nan (f :: fs) -> least lo (f :: fs)).
Proof.
  destruct (min_from_floats fs f) as (lo & Hm & Hin & _ & Hle).
  exists lo. split; [exact Hm|]. split; [exact Hin|].
  intros Hn. split; [exact Hin|]. intros x Hx.
  apply ltb_false_leb; auto.
Qed.

Lemma py_max_greatest (f : float) (fs : list float) :
  exists hi,
    py_max (map SFloat (f :: fs)) = Ok (SFloat hi)
    /\ In hi (f :: fs)
    /\ (no_nan (f :: fs) -> greatest hi (f :: fs)).
Proof.
  destruct (max_from_floats fs f) as (hi & Hm & Hin & _ & Hle).
  exists hi. split; [exact Hm|]. split; [exact Hin|].
  intros Hn. split; [exact Hin|]. intros x Hx.
  apply ltb_false_leb; auto.
Qed.

Section RangeValues.

Context `{PyRuntime}.

Lemma log10_cells_floats (fmt : float_format) (xs : list scalar) :
  log10_cells fmt xs = map SFloat (log10_floats fmt xs).
Proof. unfold log10_cells, log10_floats. now rewrite map_map. Qed.

Lemma setRange_ints (d : string) (z : Z) (zs : list Z) :
  forallb numeric_cell (map SInt (z :: zs)) = true ->
  setRange {| dtype := d; cells := map SInt (z :: zs) |} false
  = Ok (VList [vfloat (Z2float (least_of z zs) * 0.7);
               vfloat (Z2float (greatest_of z zs) * 1.4)]).
Proof.
  intros Hnum. unfold setRange. cbn [cells map py_min py_max].
  rewrite min_from_Z, max_from_Z. cbn [bind].
  assert (Hin : forall y, In y (z :: zs) ->
                  mul_float (SInt y) 0.7 = Ok (Z2float y * 0.7)%float
                  /\ mul_float (SInt y) 1.4 = Ok (Z2float y * 1.4)%float).
  { intros y Hy. rewrite forallb_forall in Hnum.
    assert (Hn : numeric_cell (SInt y) = true)
      by (apply Hnum; apply in_map; exact Hy).
    unfold mul_float. now rewrite (as_float_numeric _ Hn). }
  rewrite (proj1 (Hin _ (least_of_in z zs))). cbn [bind].
  rewrite (proj2 (Hin _ (greatest_of_in z zs))). reflexivity.
Qed.

Lemma setRange_floats (d : string) (f : float) (fs : list float) :
  exists lo hi,
    In lo (f :: fs) /\ In hi (f :: fs)
    /\ (no_nan (f :: fs) -> least lo (f :: fs) /\ greatest hi (f :: fs))
    /\ setRange {| dtype := d; cells := map SFloat (f :: fs) |} false
       = Ok (VList [vfloat (lo * 0.7); vfloat (hi * 1.4)]).
Proof.
  destruct (py_min_least f fs) as (lo & Hlo & Ilo & Llo).
  destruct (py_max_greatest f fs) as (hi & Hhi & Ihi & Lhi).
  exists lo, hi. repeat split; auto; try (now apply Llo); try (now apply Lhi).
  unfold setRange. cbn [cells]. rewrite Hlo, Hhi. reflexivity.
Qed.

Lemma setRange_log_floats (values : column) (fmt : float_format) :
  cells values <> [] ->
  forallb numeric_cell (cells values) = true ->
  log10_format (dtype values) = Some fmt ->
  let logs := log10_floats fmt (cells values) in
  exists lo hi,
    py_min (map SFloat logs) = Ok (SFloat lo)
    /\ py_max (map SFloat logs) = Ok (SFloat hi)
    /\ In lo logs /\ In hi logs
    /\ (no_nan logs -> least lo logs /\ greatest hi logs)
    /\ setRange values true
       = Ok (VList [vfloat (lo * 0.97); vfloat (hi * 1.04)]).
Proof.
  intros Hne Hnum Hd logs.
  unfold setRange. rewrite (np_log10_series_numeric _ _ Hnum Hd).
  rewrite log10_cells_floats. fold logs. cbn [bind].
  assert (Hl : logs <> []).
  { subst logs. unfold log10_floats.
    destruct (cells values); [congruence|discriminate]. }
  destruct logs as [|l ls]; [congruence|].
  destruct (py_min_least l ls) as (lo & Hlo & Ilo & Llo).
  destruct (py_max_greatest l ls) as (hi & Hhi & Ihi & Lhi).
  exists lo, hi. rewrite Hlo, Hhi.
  repeat split; auto; try (now apply Llo); try (now apply Lhi).
Qed.

End RangeValues.

(** ** Logarithms of zero and of negative numbers *)

Lemma eqb_not_ltb (x y : float) :
  (x =? y)%float = true -> (x <? y)%float = false.
Proof.
  rewrite eqb_spec, ltb_spec. unfold SFeqb, SFltb.
  destruct (SFcompare (Prim2SF x) (Prim2SF y)) as [[]|]; auto; discriminate.
Qed.

Lemma ltb_nan_r (x : float) : (x <? nan)%float = false.
Proof.
  rewrite ltb_spec. change (Prim2SF nan) with S754_nan. unfold SFltb.
  now destruct (Prim2SF x).
Qed.

Lemma ltb_nan_l (x : float) : (nan <? x)%float = false.
Proof. rewrite ltb_spec. reflexivity. Qed.

Lemma leb_neg_infinity (x : float) :
  (x <=? neg_infinity)%float = true -> x = neg_infinity.
Proof.
  rewrite leb_spec. change (Prim2SF neg_infinity) with (S754_infinity true).
  intros Hle. apply Prim2SF_inj.
  change (Prim2SF neg_infinity) with (S754_infinity true).
  unfold SFleb in Hle.
  destruct (Prim2SF x) as [s|s| |s m e]; simpl in Hle; try discriminate.
  destruct s; [reflexivity|discriminate].
Qed.

Lemma min_from_nan (fs : list float) :
  min_from (SFloat nan) (map SFloat fs) = Ok (SFloat nan).
Proof.
  induction fs as [|f fs IH]; [reflexivity|].
  cbn [map min_from py_lt bind]. now rewrite ltb_nan_r.
Qed.

Lemma max_from_nan (fs : list float) :
  max_from (SFloat nan) (map SFloat fs) = Ok (SFloat nan).
Proof.
  induction fs as [|f fs IH]; [reflexivity|].
  cbn [map max_from py_lt bind]. now rewrite ltb_nan_l.
Qed.

Section LogRange.

Context `{PyRuntime}.

Lemma np_log10_zero (fmt : float_format) (x : float) :
  (x =? 0)%float = true -> np_log10 fmt x = neg_infinity.
Proof.
  intros E. unfold np_log10.
  destruct (is_nan x) eqn:Hn; [now rewrite (eqb_nan_l x 0 Hn) in E|].
  now rewrite (eqb_not_ltb _ _ E), E.
Qed.

Lemma np_log10_negative (fmt : float_format) (x : float) :
  (x <? 0)%float = true -> np_log10 fmt x = nan.
Proof.
  intros E. unfold np_log10. destruct (is_nan x); [reflexivity|].
  now rewrite E.
Qed.

(** With a zero and no NaN among the logarithms, the least of them is
    minus infinity. *)
Lemma setRange_log_zero (values : column) (fmt : float_format) (x : scalar) :
  forallb numeric_cell (cells values) = true ->
  log10_format (dtype values) = Some fmt ->
  In x (cells values) -> (float_of_cell x =? 0)%float = true ->
  no_nan (log10_floats fmt (cells values)) ->
  exists hi,
    greatest hi (log10_floats fmt (cells values))
    /\ setRange values true
       = Ok (VList [vfloat neg_infinity; vfloat (hi * 1.04)]).
Proof.
  intros Hnum Hd Hin Hx Hn.
  assert (Hne : cells values <> []) by (intros E; rewrite E in Hin; exact Hin).
  destruct (setRange_log_floats values fmt Hne Hnum Hd)
    as (lo & hi & _ & _ & _ & _ & Hl & Hr).
  destruct (Hl Hn) as [[_ Hlo] Hhi].
  assert (lo = neg_infinity) as ->.
  { apply leb_neg_infinity. apply Hlo. unfold log10_floats.
    apply in_map_iff. exists x. split; [|exact Hin].
    now apply np_log10_zero. }
  exists hi. split; [exact Hhi|]. exact Hr.
Qed.

(** When the first value is negative, its logarithm is a NaN, which
    [min] and [max] keep. *)
Lemma setRange_log_negative (values : column) (fmt : float_format)
  (x : scalar) (rest : list scalar) :
  cells values = x :: rest ->
  forallb numeric_cell (cells values) = true ->
  log10_format (dtype values) = Some fmt ->
  (float_of_cell x <? 0)%float = true ->
  setRange values true = Ok (VList [vfloat nan; vfloat nan]).
Proof.
  intros Hc Hnum Hd Hx. unfold setRange.
  rewrite (np_log10_series_numeric _ _ Hnum Hd), log10_cells_floats.
  rewrite Hc. unfold log10_floats. cbn [map bind py_min py_max].
  rewrite (np_log10_negative fmt _ Hx).
  rewrite min_from_nan, max_from_nan. reflexivity.
Qed.

End LogRange.




(* ================================================================= *)
(** * Calls on which [bubbleplot] returns *)

(** ** Text without braces *)

Lemma str_format_plain_char (c : ascii) (r : string) (args : list string) :
  c <> "{"%char -> c <> "}"%char ->
  str_format (String c r) args = (r' <- str_format r args ;; Ok (String c r')).
Proof.
  intros Ho Hc.
  destruct c as [[] [] [] [] [] [] [] []]; try reflexivity;
    exfalso; (now apply Ho) || (now apply Hc).
Qed.

Lemma str_format_prefix (s t : string) (args : list string) :
  brace_free s ->
  str_format (s ++ t) args = (r <- str_format t args ;; Ok (s ++ r)%string).
Proof.
  induction s as [|c s IH]; intros Hs.
  - simpl. destruct (str_format t args); reflexivity.
  - change ((String c s ++ t)%string) with (String c (s ++ t)).
    rewrite str_format_plain_char.
    + rewrite IH.
      * destruct (str_format t args); reflexivity.
      * intros c' Hc'. apply Hs. simpl. auto.
    + apply (Hs c). simpl. auto.
    + apply (Hs c). simpl. auto.
Qed.

Lemma string_of_uint_brace_free (d : Decimal.uint) :
  brace_free (NilZero.string_of_uint d).
Proof.
  assert (H : brace_free (NilEmpty.string_of_uint d)).
  { induction d; intros c Hc; simpl in Hc;
      try contradiction;
      (destruct Hc as [<-|Hc]; [split; discriminate | now apply IHd]). }
  destruct d; try exact H.
  intros c [<-|[]]. split; discriminate.
Qed.

Lemma string_of_Z_brace_free (z : Z) : brace_free (string_of_Z z).
Proof.
  unfold string_of_Z, NilZero.string_of_int.
  destruct (Z.to_int z) as [d|d].
  - apply string_of_uint_brace_free.
  - intros c [<-|Hc]; [split; discriminate|].
    now apply string_of_uint_brace_free in Hc.
Qed.

(** ** The grid builders return *)

Lemma map_result_returns {A B : Type} (f : A -> result B) (xs : list A) :
  (forall x, In x xs -> exists y, f x = Ok y) ->
  exists ys, map_result f xs = Ok ys.
Proof.
  induction xs as [|x xs IH]; simpl; intros Hf; [eauto|].
  destruct (Hf x) as [y ->]; [auto|].
  destruct IH as [ys ->]; [auto|]. simpl. eauto.
Qed.

Lemma column_entries_returns (subset : DataFrame)
  (key_of : string -> result string) (cols : list string) :
  (forall col, In col cols -> exists t, key_of col = Ok t) ->
  (forall col, In col cols -> exists c, get_column subset col = Ok c) ->
  exists r, column_entries subset key_of cols = Ok r.
Proof.
  intros Hk Hc. unfold column_entries.
  destruct (map_result_returns
              (fun col => t <- key_of col ;; c <- get_column subset col ;;
                          Ok (candidate_entries true (t, Some (cells c))))
              cols) as [rs ->].
  - intros col Hin. destruct (Hk col Hin) as [t ->].
    destruct (Hc col Hin) as [c ->]. simpl. eauto.
  - simpl. eauto.
Qed.

Lemma select_rows_column (ds : DataFrame) (mask : list bool) (col : string) :
  (exists c, get_column ds col = Ok c) ->
  exists c, get_column (select_rows ds mask) col = Ok c.
Proof.
  intros [c Hc]. rewrite get_column_select_rows, Hc. simpl. eauto.
Qed.

Lemma for_each_returns {A R : Type} (f : A -> result (list R))
  (body : list R -> A -> result (list R)) (xs : list A) (acc : list R) :
  (forall acc x, body acc x = (r <- f x ;; Ok (acc ++ r))) ->
  (forall x, In x xs -> exists r, f x = Ok r) ->
  exists g, for_each xs body acc = Ok g.
Proof.
  intros Hbody Hf. rewrite (for_each_append f body xs Hbody).
  destruct (map_result_returns f xs Hf) as [rs ->]. simpl. eauto.
Qed.

Lemma compared_int_returns (tc : column) (n : Z) :
  comparable_int tc n -> exists s, compared_int tc n = Ok s.
Proof.
  unfold comparable_int, compared_int. intros Hc.
  destruct (forallb is_float (cells tc)); [|eauto].
  destruct (float_dtype (dtype tc)) as [fmt|].
  - unfold float_of_int. rewrite Hc; [simpl; eauto|discriminate|reflexivity].
  - destruct (String.eqb (dtype tc) "category"); [|eauto].
    destruct (float_of_int n); eauto.
Qed.

(** A column that holds an [int] compares with an [int] exactly. *)
Lemma compared_int_exact (tc : column) (n : Z) (x : scalar) :
  In x (cells tc) -> is_float x = false -> compared_int tc n = Ok (SInt n).
Proof.
  intros Hin Hx. unfold compared_int.
  destruct (forallb is_float (cells tc)) eqn:E; [|reflexivity].
  rewrite forallb_forall in E. rewrite (E x Hin) in Hx. discriminate.
Qed.

Lemma compared_returns (cc : column) (s : scalar) :
  (forall n, s = SInt n -> comparable_int cc n) ->
  exists same, compared cc s = Ok same.
Proof.
  intros Hs. destruct s as [|b|n|f|t]; cbn [compared]; eauto.
  - destruct (compared_int_returns cc n (Hs n eq_refl)) as [c ->].
    cbn [bind]. eauto.
  - destruct (forallb is_float (cells cc)).
    + destruct (float_dtype (dtype cc)); eauto.
    + destruct (integer_dtype (dtype cc) && forallb is_int (cells cc))%bool;
        eauto.
Qed.

(** A value of a column of a categorical dtype compares with the cells
    of the column as Python objects do. *)
Lemma compared_own (cc : column) (s : scalar) :
  categorical_dtype (dtype cc) = true -> In s (cells cc) ->
  compared cc s = Ok (series_eq s).
Proof.
  intros Hd Hin. unfold categorical_dtype in Hd.
  assert (Hf : float_dtype (dtype cc) = None).
  { apply orb_prop in Hd. destruct Hd as [Hd|Hd];
      [apply orb_prop in Hd; destruct Hd as [Hd|Hd]|];
      apply String.eqb_eq in Hd; rewrite Hd; reflexivity. }
  assert (Hi : integer_dtype (dtype cc) = false).
  { apply orb_prop in Hd. destruct Hd as [Hd|Hd];
      [apply orb_prop in Hd; destruct Hd as [Hd|Hd]|];
      apply String.eqb_eq in Hd; rewrite Hd; reflexivity. }
  destruct s as [|b|n|f|t]; cbn [compared]; try reflexivity.
  - now rewrite (compared_int_exact cc n (SInt n) Hin eq_refl).
  - rewrite Hf, Hi. cbn [andb]. now destruct (forallb is_float (cells cc)).
Qed.

Section GridReturns.

Context `{PyRuntime}.

Lemma makeGrid_returns (ds : DataFrame) (cols : list string)
  (tcol : option string) (years : option (list scalar)) :
  (forall col, In col cols -> exists c, get_column ds col = Ok c) ->
  years_usable ds tcol years ->
  exists g, makeGrid ds cols tcol years = Ok g.
Proof.
  intros Hcols Htime. unfold years_usable in Htime. unfold makeGrid.
  destruct (given tcol).
  - destruct Htime as (tc & Htc & Hyears); [reflexivity|].
    assert (years_or_unique ds (name_of tcol) years
            = Ok (effective ds (name_of tcol) years)) as ->.
    { unfold years_or_unique, effective. destruct years; [reflexivity|].
      now rewrite Htc. }
    simpl.
    eapply for_each_returns with
      (f := fun year =>
         mask <- year_mask ds (name_of tcol) year ;;
         column_entries (select_rows ds mask)
           (fun col_name => str_format "{}+{}_grid" [py_str year; col_name])
           cols).
    + intros acc year. cbv beta.
      destruct (year_mask ds (name_of tcol) year) as [mask|e]; simpl;
        [apply add_columns_eq | reflexivity].
    + intros year Hin. unfold year_mask. rewrite Htc. simpl.
      destruct (Hyears year Hin) as (y & -> & Hcmp). simpl.
      destruct (compared_int_returns tc y Hcmp) as [s ->]. simpl.
      apply column_entries_returns.
      * intros col _. simpl. eauto.
      * intros col Hc. apply select_rows_column. auto.
  - eapply for_each_returns with
      (f := fun col => c <- get_column ds col ;;
                       Ok [{| value := cells c; key := plain_key col |}]).
    + intros acc col. cbv beta. destruct (get_column ds col); reflexivity.
    + intros col Hin. destruct (Hcols col Hin) as [c ->]. simpl. eauto.
Qed.

Lemma makeGridWithCategories_returns (ds : DataFrame) (cols : list string)
  (tcol : option string) (ccol : string)
  (years categories : option (list scalar)) :
  (forall col, In col cols -> exists c, get_column ds col = Ok c) ->
  (exists cc, get_column ds ccol = Ok cc) ->
  categories_usable ds ccol categories ->
  years_usable ds tcol years ->
  exists g, makeGridWithCategories ds cols tcol ccol years categories = Ok g.
Proof.
  intros Hcols [cc Hcc] Hcats Htime. unfold years_usable in Htime.
  assert (Hsame : forall category,
            In category (effective ds ccol categories) ->
            exists same, compared cc category = Ok same).
  { intros category Hin. apply compared_returns. intros n ->.
    exact (Hcats cc n Hcc Hin). }
  unfold makeGridWithCategories.
  assert (match categories with
          | Some cs => Ok cs
          | None => c <- get_column ds ccol ;; Ok (unique (cells c))
          end = Ok (effective ds ccol categories)) as ->.
  { unfold effective. destruct categories; [reflexivity|]. now rewrite Hcc. }
  simpl. destruct (given tcol).
  - destruct Htime as (tc & Htc & Hyears); [reflexivity|].
    assert (years_or_unique ds (name_of tcol) years
            = Ok (effective ds (name_of tcol) years)) as ->.
    { unfold years_or_unique, effective. destruct years; [reflexivity|].
      now rewrite Htc. }
    simpl.
    assert (Hbody : forall year acc0 category,
      (ymask <- year_mask ds (name_of tcol) year ;;
       cmask <- category_mask ds ccol category ;;
       add_columns (select_rows ds (mask_and ymask cmask))
         (fun col_name =>
            str_format "{}+{}+{}_grid"
              [py_str year; col_name; py_str category]) cols acc0)
      = (r <- (ymask <- year_mask ds (name_of tcol) year ;;
               cmask <- category_mask ds ccol category ;;
               column_entries (select_rows ds (mask_and ymask cmask))
                 (fun col_name =>
                    str_format "{}+{}+{}_grid"
                      [py_str year; col_name; py_str category]) cols) ;;
         Ok (acc0 ++ r))).
    { intros year acc0 category.
      destruct (year_mask ds (name_of tcol) year); simpl; [|reflexivity].
      destruct (category_mask ds ccol category); simpl; [|reflexivity].
      apply add_columns_eq. }
    eapply for_each_returns with
      (f := fun year =>
         for_each (effective ds ccol categories) (fun grid category =>
           ymask <- year_mask ds (name_of tcol) year ;;
           cmask <- category_mask ds ccol category ;;
           add_columns (select_rows ds (mask_and ymask cmask))
             (fun col_name =>
                str_format "{}+{}+{}_grid"
                  [py_str year; col_name; py_str category])
             cols grid) []).
    + intros acc year. cbv beta.
      eapply for_each_append_nil. intros acc0 category. apply Hbody.
    + intros year Hin.
      eapply for_each_returns; [intros acc0 category; apply Hbody|].
      intros category Hcat. unfold year_mask, category_mask.
      rewrite Htc, Hcc. simpl.
      destruct (Hyears year Hin) as (y & -> & Hcmp). simpl.
      destruct (compared_int_returns tc y Hcmp) as [s ->]. simpl.
      destruct (Hsame category Hcat) as [same ->]. cbn [bind].
      apply column_entries_returns.
      * intros col _. simpl. eauto.
      * intros col Hc. apply select_rows_column. auto.
  - eapply for_each_returns with
      (f := fun category =>
         cmask <- category_mask ds ccol category ;;
         column_entries (select_rows ds cmask)
           (fun col_name =>
              str_format "{}+{}_grid" [col_name; py_str category]) cols).
    + intros acc category. cbv beta.
      destruct (category_mask ds ccol category); simpl; [|reflexivity].
      apply add_columns_eq.
    + intros category Hcat. unfold category_mask. rewrite Hcc. simpl.
      destruct (Hsame category Hcat) as [same ->]. cbn [bind].
      apply column_entries_returns.
      * intros col _. simpl. eauto.
      * intros col Hc. apply select_rows_column. auto.
Qed.

End GridReturns.

(** ** The layout is built, with its axes *)

Lemma dict_set_in_returns (d inner : dict) (k1 k2 : string) (v : pyval) :
  dict_get d k1 = Some (VDict inner) ->
  dict_set_in d k1 k2 v = Ok (dict_set d k1 (VDict (dict_set inner k2 v))).
Proof. unfold dict_set_in. now intros ->. Qed.

Lemma dict_set_in2_returns (d inner in2 : dict) (k1 k2 k3 : string)
  (v : pyval) :
  dict_get d k1 = Some (VDict inner) ->
  dict_get inner k2 = Some (VDict in2) ->
  dict_set_in2 d k1 k2 k3 v
  = Ok (dict_set d k1 (VDict (dict_set inner k2 (VDict (dict_set in2 k3 v))))).
Proof.
  unfold dict_set_in2. intros -> Hin.
  now rewrite (dict_set_in_returns _ _ _ _ _ Hin).
Qed.

Lemma has_axes_set_other (b : bool) (l : dict) (k : string) (v : pyval) :
  ~ In k axis_keys -> has_axes b l -> has_axes b (dict_set l k v).
Proof.
  intros Hk. unfold has_axes, axis_keys in *. simpl in Hk.
  destruct b.
  - intros (scene & Hs & Hax). exists scene. split; [|exact Hax].
    rewrite dict_get_set_other; [exact Hs|]. intros ->. tauto.
  - intros [Hx Hy]. rewrite !dict_get_set_other; [tauto| |];
      intros ->; tauto.
Qed.

Lemma set2Daxes_returns (fig : Figure) (xt yt : option string) (xl yl : bool) :
  exists fig', set2Daxes fig xt yt xl yl = Ok fig'
               /\ has_axes false (layout fig').
Proof.
  unfold set2Daxes.
  set (l0 := dict_set (dict_set (layout fig) "xaxis" (axis xt)) "yaxis"
               (axis yt)).
  assert (X0 : dict_get l0 "xaxis" = Some (axis xt)).
  { unfold l0. now dict_get_simpl. }
  assert (Y0 : dict_get l0 "yaxis" = Some (axis yt)).
  { unfold l0. now dict_get_simpl. }
  clearbody l0. unfold axis in *.
  assert (exists l1, (if xl then dict_set_in l0 "xaxis" "type" (vstr "log")
                      else Ok l0) = Ok l1
                     /\ is_dict (dict_get l1 "xaxis")
                     /\ is_dict (dict_get l1 "yaxis"))
    as (l1 & -> & X1 & Y1).
  { destruct xl.
    - rewrite (dict_set_in_returns _ _ _ _ _ X0). eexists. split; [reflexivity|].
      unfold is_dict. dict_get_simpl. rewrite Y0. eauto.
    - exists l0. unfold is_dict. rewrite X0, Y0. eauto. }
  simpl.
  assert (exists l2, (if yl then dict_set_in l1 "yaxis" "type" (vstr "log")
                      else Ok l1) = Ok l2
                     /\ is_dict (dict_get l2 "xaxis")
                     /\ is_dict (dict_get l2 "yaxis"))
    as (l2 & -> & X2 & Y2).
  { destruct yl; [|eauto].
    destruct Y1 as [dy Y1].
    rewrite (dict_set_in_returns _ _ _ _ _ Y1). eexists. split; [reflexivity|].
    unfold is_dict. dict_get_simpl. split; [exact X1|eauto]. }
  simpl. eexists. split; [reflexivity|]. simpl. auto.
Qed.

Lemma set3Daxes_returns (fig : Figure) (xt yt zt : option string)
  (xl yl zl : bool) :
  exists fig', set3Daxes fig xt yt zt xl yl zl = Ok fig'
               /\ has_axes true (layout fig').
Proof.
  unfold set3Daxes.
  set (l0 := dict_set (layout fig) "scene" (VDict [])).
  assert (S0 : dict_get l0 "scene" = Some (VDict []))
    by apply dict_get_set_same.
  clearbody l0.
  rewrite (dict_set_in_returns _ _ _ _ _ S0). simpl.
  set (l1 := dict_set l0 "scene" (VDict [("xaxis", axis xt)])).
  assert (S1 : dict_get l1 "scene" = Some (VDict [("xaxis", axis xt)]))
    by apply dict_get_set_same.
  clearbody l1.
  rewrite (dict_set_in_returns _ _ _ _ _ S1). simpl.
  set (l2 := dict_set l1 "scene"
               (VDict [("xaxis", axis xt); ("yaxis", axis yt)])).
  assert (S2 : dict_get l2 "scene"
               = Some (VDict [("xaxis", axis xt); ("yaxis", axis yt)]))
    by apply dict_get_set_same.
  clearbody l2.
  rewrite (dict_set_in_returns _ _ _ _ _ S2). simpl.
  set (l3 := dict_set l2 "scene"
               (VDict [("xaxis", axis xt); ("yaxis", axis yt);
                       ("zaxis", axis zt)])).
  assert (S3 : has_axes true l3).
  { unfold has_axes, l3. eexists. split; [apply dict_get_set_same|].
    unfold is_dict, axis. simpl. repeat split; eexists; reflexivity. }
  clearbody l3. clear S0 S1 S2 l0 l1 l2.
  assert (Hstep : forall l k, has_axes true l ->
            In k ["xaxis"; "yaxis"; "zaxis"] ->
            exists l', dict_set_in2 l "scene" k "type" (vstr "log") = Ok l'
                       /\ has_axes true l').
  { intros l k (scene & Hs & Hx & Hy & Hz) Hk.
    assert (is_dict (dict_get scene k)) as [dk Hdk].
    { simpl in Hk. destruct Hk as [<-|[<-|[<-|[]]]]; assumption. }
    rewrite (dict_set_in2_returns _ _ _ _ _ _ _ Hs Hdk).
    eexists. split; [reflexivity|]. unfold has_axes.
    eexists. split; [apply dict_get_set_same|].
    unfold is_dict in *. simpl in Hk.
    destruct Hk as [<-|[<-|[<-|[]]]]; dict_get_simpl; eauto. }
  assert (exists l4, (if xl then dict_set_in2 l3 "scene" "xaxis" "type"
                                  (vstr "log") else Ok l3) = Ok l4
                     /\ has_axes true l4) as (l4 & -> & S4).
  { destruct xl; [apply Hstep; simpl; auto | eauto]. }
  simpl.
  assert (exists l5, (if yl then dict_set_in2 l4 "scene" "yaxis" "type"
                                  (vstr "log") else Ok l4) = Ok l5
                     /\ has_axes true l5) as (l5 & -> & S5).
  { destruct yl; [apply Hstep; simpl; auto | eauto]. }
  simpl.
  assert (exists l6, (if zl then dict_set_in2 l5 "scene" "zaxis" "type"
                                  (vstr "log") else Ok l5) = Ok l6
                     /\ has_axes true l6) as (l6 & -> & S6).
  { destruct zl; [apply Hstep; simpl; auto | eauto]. }
  simpl. eauto.
Qed.

(** [setLayout] returns, unless the slider is to be shown and the
    minimum of its scale cannot be taken. *)
Lemma setLayout_returns (xt yt zt t : option string)
  (xl yl zl axes3D ss : bool) (scale : option (list scalar))
  (sb legend : bool) (w h : option Z) :
  (ss = true -> exists ys m, scale = Some ys /\ py_min ys = Ok m) ->
  exists fig sd,
    setLayout xt yt zt t xl yl zl axes3D ss scale sb legend w h = Ok (fig, sd)
    /\ has_axes axes3D (layout fig).
Proof.
  intros Hss. unfold setLayout.
  assert (exists fig1,
            (if axes3D
             then set3Daxes {| data := []; layout := []; frames := [] |}
                    xt yt zt xl yl zl
             else set2Daxes {| data := []; layout := []; frames := [] |}
                    xt yt xl yl) = Ok fig1
            /\ has_axes axes3D (layout fig1)) as (fig1 & -> & A1).
  { destruct axes3D; [apply set3Daxes_returns | apply set2Daxes_returns]. }
  simpl.
  set (l6 := if given_int h then _ else _).
  assert (A6 : has_axes axes3D l6).
  { unfold l6. unfold axis_keys in *.
    destruct (given_int w), (given_int h);
      repeat (apply has_axes_set_other;
              [unfold axis_keys; simpl; intuition discriminate|]);
      exact A1. }
  clearbody l6.
  assert (exists fig2 sd,
            (if ss then addSlider (with_layout fig1 l6) scale
             else Ok (with_layout fig1 l6, [])) = Ok (fig2, sd)
            /\ has_axes axes3D (layout fig2)) as (fig2 & sd & -> & A7).
  { destruct ss.
    - destruct Hss as (ys & m & -> & Hm); [reflexivity|].
      unfold addSlider. simpl. rewrite Hm. simpl.
      eexists _, _. split; [reflexivity|]. simpl.
      apply has_axes_set_other;
        [unfold axis_keys; simpl; intuition discriminate | exact A6].
    - eexists _, _. split; [reflexivity|]. exact A6. }
  simpl. eexists _, _. split; [reflexivity|].
  destruct sb; [|exact A7]. simpl.
  apply has_axes_set_other;
    [unfold axis_keys; simpl; intuition discriminate | exact A7].
Qed.

(** The ranges can be stored in a layout that has its axes. *)
Lemma store_ranges_returns (axes3D : bool) (l : dict) (xr yr : pyval)
  (zr : result pyval) :
  has_axes axes3D l ->
  (axes3D = true -> exists v, zr = Ok v) ->
  exists l', store_ranges axes3D l xr yr zr = Ok l'.
Proof.
  unfold store_ranges.
  intros Hax Hz. destruct axes3D.
  - destruct Hz as [v ->]; [reflexivity|]. simpl.
    destruct Hax as (scene & Hs & [dx Hx] & [dy Hy] & [dz Hz]).
    rewrite (dict_set_in2_returns _ _ _ _ _ _ _ Hs Hx). simpl.
    erewrite dict_set_in2_returns;
      [|apply dict_get_set_same
       |rewrite dict_get_set_other by discriminate; exact Hy].
    simpl.
    erewrite dict_set_in2_returns;
      [|apply dict_get_set_same
       |rewrite !dict_get_set_other by discriminate; exact Hz].
    eauto.
  - destruct Hax as [[dx Hx] [dy Hy]].
    rewrite (dict_set_in_returns _ _ _ _ _ Hx). simpl.
    erewrite dict_set_in_returns;
      [|rewrite dict_get_set_other by discriminate; exact Hy].
    eauto.
Qed.

(** ** The traces are built *)

Lemma find_returns {A : Type} (f : A -> bool) (l : list A) (x : A) :
  In x l -> f x = true -> exists y, find f l = Some y.
Proof.
  intros Hin Hf. destruct (find f l) as [y|] eqn:E; [eauto|].
  rewrite (find_none f l E x Hin) in Hf. discriminate.
Qed.

Lemma grid_value_returns (grid : Grid) (template : string)
  (args : list string) (k : string) :
  str_format template args = Ok k ->
  (exists r, In r grid /\ key r = k) ->
  exists v, grid_value grid template args = Ok v.
Proof.
  intros Hk (r & Hin & Hr). unfold grid_value.
  destruct grid as [|r0 grid]; [contradiction|]. rewrite Hk. cbn [bind].
  destruct (find_returns (fun r => String.eqb (key r) k) (r0 :: grid) r Hin)
    as [y ->]; [rewrite Hr; apply String.eqb_refl|]. eauto.
Qed.

Lemma has_marker_set_in (t : dict) (k : string) (v : pyval) :
  has_marker t ->
  exists t', dict_set_in t "marker" k v = Ok t' /\ has_marker t'.
Proof.
  intros [m Hm]. rewrite (dict_set_in_returns _ _ _ _ _ Hm).
  eexists. split; [reflexivity|]. eexists. apply dict_get_set_same.
Qed.

Section TracesReturn.

Context `{PyRuntime}.

Lemma getTrace_returns (a : bubble_args) (grid : Grid) (template : string)
  (sizeref : pyval) (color colorscale : option string) (sc : bool)
  (cbt : option string) (category : scalar) :
  (forall col, In col (trace_columns a) ->
     exists v, grid_value grid template [col; py_str category] = Ok v) ->
  (given color = true ->
     exists v, grid_value grid template [name_of color] = Ok v) ->
  exists t,
    getTrace grid template (x_column a) (y_column a) (bubble_column a)
      (z_column a) (size_column a) sizeref (scale_bubble a)
      (marker_opacity a) (marker_border_width a)
      color colorscale sc cbt category = Ok t.
Proof.
  intros Hcols Hcolor. unfold getTrace, trace_columns in *.
  destruct (Hcols (x_column a)) as [vx ->]; [simpl; auto|].
  destruct (Hcols (y_column a)) as [vy ->]; [simpl; auto|].
  destruct (Hcols (bubble_column a)) as [vb ->]; [simpl; auto|].
  cbn [bind].
  (* z *)
  match goal with
  | |- exists t, bind ?c _ = _ =>
      assert (exists tz, c = Ok tz) as [tz ->]
  end.
  { destruct (given (z_column a)); [|eauto].
    destruct (Hcols (name_of (z_column a))) as [vz ->]; [simpl; auto 10|].
    simpl. eauto. }
  cbn [bind].
  (* the marker *)
  match goal with
  | |- exists t, bind ?c _ = _ =>
      assert (exists m, c = Ok m) as [m ->]
  end.
  { destruct (given (size_column a)).
    - destruct (Hcols (name_of (size_column a))) as [vs ->].
      + simpl. destruct (given (z_column a)); simpl; auto 10.
      + simpl. eauto.
    - destruct (scale_bubble a) as [z|f]; simpl; eauto. }
  cbn [bind].
  set (t0 := dict_set tz "marker" (VDict m)).
  assert (M0 : has_marker t0) by (eexists; apply dict_get_set_same).
  clearbody t0.
  (* opacity *)
  match goal with
  | |- exists t, bind ?c _ = _ =>
      assert (exists t1, c = Ok t1 /\ has_marker t1) as (t1 & -> & M1)
  end.
  { destruct (marker_opacity a) as [o|]; [|eauto].
    destruct (num_truthy o); [|eauto]. now apply has_marker_set_in. }
  cbn [bind].
  (* border *)
  match goal with
  | |- exists t, bind ?c _ = _ =>
      assert (exists t2, c = Ok t2 /\ has_marker t2) as (t2 & -> & M2)
  end.
  { destruct (marker_border_width a) as [w|]; [|eauto].
    destruct (num_truthy w); [|eauto]. now apply has_marker_set_in. }
  cbn [bind].
  (* color *)
  match goal with
  | |- exists t, bind ?c _ = _ =>
      assert (exists t3, c = Ok t3) as (t3 & ->)
  end.
  { destruct (given color); [|eauto].
    destruct Hcolor as [vc ->]; [reflexivity|]. cbn [bind].
    destruct (has_marker_set_in t2 "color" vc M2) as (u1 & -> & N1).
    cbn [bind].
    destruct (has_marker_set_in u1 "colorbar"
                (VDict [("title", vopt_str cbt)]) N1) as (u2 & -> & N2).
    cbn [bind].
    destruct (has_marker_set_in u2 "colorscale" (vopt_str colorscale) N2)
      as (u3 & -> & N3).
    eauto. }
  cbn [bind]. eauto.
Qed.

Lemma category_traces_returns (a : bubble_args) (grid : Grid)
  (sizeref : pyval) (template : result string) (categories : list scalar)
  (acc : list pyval) :
  (forall category, In category categories ->
     exists tmpl,
       template = Ok tmpl
       /\ forall col, In col (trace_columns a) ->
            exists v, grid_value grid tmpl [col; py_str category] = Ok v) ->
  exists ts, category_traces a grid sizeref template categories acc = Ok ts.
Proof.
  unfold category_traces. revert acc.
  induction categories as [|c cs IH]; simpl; intros acc Hc; [eauto|].
  destruct (Hc c) as (tmpl & -> & Hcols); [auto|]. cbn [bind].
  destruct (getTrace_returns a grid tmpl sizeref None None true None c Hcols)
    as [t ->]; [discriminate|].
  cbn [bind]. apply IH. auto.
Qed.

Lemma plain_trace_returns (a : bubble_args) (grid : Grid) (sizeref : pyval)
  (color : option string) (template : string) :
  (forall col, In col (trace_columns a) ->
     exists v, grid_value grid template [col; py_str SNone] = Ok v) ->
  (given color = true ->
     exists v, grid_value grid template [name_of color] = Ok v) ->
  exists v, plain_trace a grid sizeref color template = Ok v.
Proof.
  intros Hcols Hcolor. unfold plain_trace.
  destruct (getTrace_returns a grid template sizeref color (colorscale a)
              (show_colorbar a) (colorbar_title a) SNone Hcols Hcolor)
    as [t ->].
  simpl. eauto.
Qed.

Lemma add_frames_returns (traces_of : scalar -> result (list pyval))
  (ss : bool) (years : list scalar) (fig : Figure) (sd : dict) :
  (forall year, In year years -> exists ts, traces_of year = Ok ts) ->
  (ss = true -> exists steps, dict_get sd "steps" = Some (VList steps)) ->
  exists fig' sd', add_frames traces_of ss years (fig, sd) = Ok (fig', sd').
Proof.
  unfold add_frames. revert fig sd.
  induction years as [|y ys IH]; simpl; intros fig sd Hy Hsd; [eauto|].
  destruct (Hy y) as [ts ->]; [auto|]. cbn [bind].
  assert (exists sd1,
            (if ss then addSliderSteps sd y else Ok sd) = Ok sd1
            /\ (ss = true ->
                exists steps, dict_get sd1 "steps" = Some (VList steps)))
    as (sd1 & -> & Hsd1).
  { destruct ss; [|eauto].
    destruct Hsd as [steps Hs]; [reflexivity|].
    unfold addSliderSteps. rewrite Hs. eexists. split; [reflexivity|].
    intros _. eexists. apply dict_get_set_same. }
  cbn [bind]. apply IH; auto.
Qed.

End TracesReturn.

(** ** The keys the traces look up are in the grid *)

Lemma expected_grid_in (guarded : bool) (cands : list candidate)
  (k : string) (v : list scalar) :
  In (k, Some v) cands -> (guarded = true -> v <> []) ->
  In {| value := v; key := k |} (expected_grid guarded cands).
Proof.
  intros Hin Hv. unfold expected_grid. apply in_flat_map.
  exists (k, Some v). split; [exact Hin|]. unfold candidate_entries. simpl.
  destruct guarded; simpl; [|now left].
  destruct (Nat.eqb (List.length v) 0) eqn:E; [|now left].
  apply length_zero_nil in E. now destruct Hv.
Qed.

Lemma values_where_nonempty (p : scalar -> bool) (sel vals : list scalar)
  (t : scalar) :
  In t sel -> p t = true -> List.length sel = List.length vals ->
  values_where p sel vals <> [].
Proof.
  unfold values_where. revert vals.
  induction sel as [|s sel IH]; intros [|v vals] Hin Hp Hlen;
    simpl in *; try contradiction; try discriminate.
  destruct (p s) eqn:Hs; [discriminate|].
  destruct Hin as [->|Hin]; [congruence|]. apply IH; auto.
Qed.

Lemma values_where2_nonempty (p q : scalar -> bool)
  (sel1 sel2 vals : list scalar) :
  existsb (fun row => (p (fst row) && q (snd row))%bool) (combine sel1 sel2)
    = true ->
  List.length sel1 = List.length vals ->
  List.length sel2 = List.length vals ->
  values_where2 p q sel1 sel2 vals <> [].
Proof.
  unfold values_where2. revert sel2 vals.
  induction sel1 as [|s sel1 IH]; intros [|t sel2] [|v vals] Hex H1 H2;
    simpl in *; try discriminate.
  destruct (p s && q t)%bool; [discriminate|]. simpl in Hex.
  apply IH; auto.
Qed.

Lemma series_eq_refl (x : scalar) : is_null x = false -> series_eq x x = true.
Proof.
  unfold series_eq. intros Hn. rewrite Hn. simpl.
  destruct x as [|b|z|f|s]; simpl in *; try discriminate.
  - apply Bool.eqb_reflx.
  - apply Z.eqb_refl.
  - unfold is_nan in Hn. now apply negb_false_iff in Hn.
  - apply String.eqb_refl.
Qed.

Lemma unique_from_incl (xs seen : list scalar) (x : scalar) :
  In x (unique_from seen xs) -> In x xs.
Proof.
  revert seen. induction xs as [|y xs IH]; simpl; intros seen Hin; [auto|].
  destruct (existsb (hash_eq y) seen).
  - right. eapply IH; eauto.
  - destruct Hin as [->|Hin]; [auto|]. right. eapply IH; eauto.
Qed.

Lemma unique_incl (xs : list scalar) (x : scalar) :
  In x (unique xs) -> In x xs.
Proof. apply unique_from_incl. Qed.

Lemma unique_nonempty (xs : list scalar) : xs <> [] -> unique xs <> [].
Proof. destruct xs; [congruence|]. discriminate. Qed.

Lemma min_from_ints (xs : list scalar) (cur : scalar) :
  is_int cur = true -> forallb is_int xs = true ->
  exists m, min_from cur xs = Ok m /\ In m (cur :: xs).
Proof.
  revert cur. induction xs as [|x xs IH]; simpl; intros cur Hc Hxs; [eauto|].
  apply andb_prop in Hxs. destruct Hxs as [Hx Hxs].
  destruct x as [| | z | |]; try discriminate.
  destruct cur as [| | c | |]; try discriminate. simpl.
  destruct (IH (if z <? c then SInt z else SInt c)) as (m & Hm & Hin); auto.
  { destruct (z <? c); reflexivity. }
  exists m. split; [exact Hm|].
  destruct Hin as [<-|Hin]; [destruct (z <? c)|]; auto.
Qed.

Lemma py_min_ints (xs : list scalar) :
  xs <> [] -> forallb is_int xs = true ->
  exists m, py_min xs = Ok m /\ In m xs.
Proof.
  destruct xs as [|x xs]; [congruence|]. simpl. intros _ Hxs.
  apply andb_prop in Hxs. destruct Hxs. now apply min_from_ints.
Qed.

Lemma forallb_In {A : Type} (f : A -> bool) (l : list A) (x : A) :
  forallb f l = true -> In x l -> f x = true.
Proof. intros Hf Hin. rewrite forallb_forall in Hf. auto. Qed.

Lemma trace_columns_incl (a : bubble_args) (color : option string)
  (col : string) :
  In col (trace_columns a) -> In col (column_names_of a color).
Proof.
  unfold trace_columns, column_names_of.
  destruct (given (z_column a)), (given (size_column a)), (given color);
    simpl; intuition.
Qed.

Lemma color_in_column_names (a : bubble_args) (color : option string) :
  given color = true -> In (name_of color) (column_names_of a color).
Proof.
  unfold column_names_of. intros ->.
  apply in_or_app. right. simpl. auto.
Qed.

Section Lookups.

Context `{PyRuntime}.

Lemma lookup_plain (ds : DataFrame) (cols : list string)
  (tcol : option string) (years : option (list scalar)) (col : string)
  (tail : list string) :
  given tcol = false ->
  In col cols -> (exists c, get_column ds col = Ok c) ->
  exists v,
    grid_value (expected_grid false (makeGrid_candidates ds cols tcol years))
      "{}_grid" (col :: tail) = Ok v.
Proof.
  intros Ht Hin [c Hc].
  apply grid_value_returns with (k := plain_key col).
  - simpl. reflexivity.
  - exists {| value := cells c; key := plain_key col |}.
    split; [|reflexivity]. apply expected_grid_in; [|discriminate].
    unfold makeGrid_candidates. rewrite Ht. apply in_map_iff.
    exists col. unfold whole_column. now rewrite Hc.
Qed.

Lemma lookup_time (ds : DataFrame) (cols : list string) (tcol : option string)
  (tc : column) (n : nat) (y : Z) (col : string) (tail : list string) :
  given tcol = true ->
  get_column ds (name_of tcol) = Ok tc ->
  (forall name c, get_column ds name = Ok c -> List.length (cells c) = n) ->
  In (SInt y) (unique (cells tc)) ->
  In col cols -> (exists c, get_column ds col = Ok c) ->
  exists tmpl,
    str_format "{}+{}_grid" [py_str (SInt y); "{}"] = Ok tmpl
    /\ exists v,
         grid_value
           (expected_grid true
              (makeGrid_candidates ds cols tcol (Some (unique (cells tc)))))
           tmpl (col :: tail) = Ok v.
Proof.
  intros Ht Htc Hlen Hy Hin [c Hc].
  eexists. split; [reflexivity|].
  apply grid_value_returns with (k := time_key (SInt y) col).
  - change (py_str (SInt y) ++ String "+" ("{}" ++ "_grid"))%string
      with (py_str (SInt y) ++ "+{}_grid")%string.
    rewrite str_format_prefix by apply string_of_Z_brace_free.
    reflexivity.
  - exists {| value := values_where (series_eq (SInt y)) (cells tc) (cells c);
              key := time_key (SInt y) col |}.
    split; [|reflexivity]. apply expected_grid_in.
    + unfold makeGrid_candidates. rewrite Ht. apply in_flat_map.
      exists (SInt y). split; [exact Hy|]. apply in_map_iff.
      exists col. split; [|exact Hin].
      unfold time_subset. rewrite Htc, Hc. cbn [py_int].
      rewrite (compared_int_exact tc y (SInt y) (unique_incl _ _ Hy) eq_refl).
      reflexivity.
    + intros _. apply values_where_nonempty with (t := SInt y).
      * now apply unique_incl.
      * unfold series_eq. simpl. apply Z.eqb_refl.
      * rewrite (Hlen _ _ Htc), (Hlen _ _ Hc). reflexivity.
Qed.

Lemma lookup_category (ds : DataFrame) (cols : list string)
  (tcol : option string) (ccol : string) (cc : column) (n : nat)
  (years : option (list scalar)) (category : scalar) (col : string) :
  given tcol = false ->
  get_column ds ccol = Ok cc ->
  categorical_dtype (dtype cc) = true ->
  (forall name c, get_column ds name = Ok c -> List.length (cells c) = n) ->
  In category (unique (cells cc)) -> is_null category = false ->
  In col cols -> (exists c, get_column ds col = Ok c) ->
  exists v,
    grid_value
      (expected_grid true
         (makeGridWithCategories_candidates ds cols tcol ccol years
            (Some (unique (cells cc)))))
      "{}+{}_grid" [col; py_str category] = Ok v.
Proof.
  intros Ht Hcc Hdt Hlen Hcat Hnull Hin [c Hc].
  apply grid_value_returns with (k := category_key col category).
  - reflexivity.
  - exists {| value := values_where (series_eq category) (cells cc) (cells c);
              key := category_key col category |}.
    split; [|reflexivity]. apply expected_grid_in.
    + unfold makeGridWithCategories_candidates. rewrite Ht. apply in_flat_map.
      exists category. split; [exact Hcat|]. apply in_map_iff.
      exists col. split; [|exact Hin].
      unfold category_subset. rewrite Hcc, Hc.
      rewrite (compared_own cc category Hdt (unique_incl _ _ Hcat)).
      reflexivity.
    + intros _. apply values_where_nonempty with (t := category).
      * now apply unique_incl.
      * now apply series_eq_refl.
      * rewrite (Hlen _ _ Hcc), (Hlen _ _ Hc). reflexivity.
Qed.

Lemma lookup_time_category (ds : DataFrame) (cols : list string)
  (tcol : option string) (ccol : string) (tc cc : column) (n : nat) (y : Z)
  (category : scalar) (col : string) :
  given tcol = true ->
  get_column ds (name_of tcol) = Ok tc ->
  get_column ds ccol = Ok cc ->
  categorical_dtype (dtype cc) = true ->
  (forall name c, get_column ds name = Ok c -> List.length (cells c) = n) ->
  In (SInt y) (unique (cells tc)) -> In category (unique (cells cc)) ->
  pair_occurs (cells tc) (cells cc) (SInt y) category = true ->
  In col cols -> (exists c, get_column ds col = Ok c) ->
  exists tmpl,
    str_format "{}+{}+{}_grid" [py_str (SInt y); "{}"; "{}"] = Ok tmpl
    /\ exists v,
         grid_value
           (expected_grid true
              (makeGridWithCategories_candidates ds cols tcol ccol
                 (Some (unique (cells tc))) (Some (unique (cells cc)))))
           tmpl [col; py_str category] = Ok v.
Proof.
  intros Ht Htc Hcc Hdt Hlen Hy Hcat Hpair Hin [c Hc].
  eexists. split; [reflexivity|].
  apply grid_value_returns with (k := time_category_key (SInt y) col category).
  - change (py_str (SInt y) ++ String "+" ("{}" ++ String "+" ("{}" ++ "_grid")))%string
      with (py_str (SInt y) ++ "+{}+{}_grid")%string.
    rewrite str_format_prefix by apply string_of_Z_brace_free.
    reflexivity.
  - exists {| value := values_where2 (series_eq (SInt y)) (series_eq category)
                         (cells tc) (cells cc) (cells c);
              key := time_category_key (SInt y) col category |}.
    split; [|reflexivity]. apply expected_grid_in.
    + unfold makeGridWithCategories_candidates. rewrite Ht. apply in_flat_map.
      exists (SInt y). split; [exact Hy|]. apply in_flat_map.
      exists category. split; [exact Hcat|]. apply in_map_iff.
      exists col. split; [|exact Hin].
      unfold time_category_subset. rewrite Htc, Hcc, Hc. cbn [py_int].
      rewrite (compared_int_exact tc y (SInt y) (unique_incl _ _ Hy) eq_refl).
      rewrite (compared_own cc category Hdt (unique_incl _ _ Hcat)).
      reflexivity.
    + intros _. apply values_where2_nonempty.
      * exact Hpair.
      * rewrite (Hlen _ _ Htc), (Hlen _ _ Hc). reflexivity.
      * rewrite (Hlen _ _ Hcc), (Hlen _ _ Hc). reflexivity.
Qed.

End Lookups.

(** ** The size reference and the ranges are computed *)

Section Returns.

Context `{PyRuntime}.

Lemma compute_sizeref_returns (ds : DataFrame) (size : option string)
  (scale : num) (n : nat) :
  n <> 0%nat ->
  (forall name c, get_column ds name = Ok c -> List.length (cells c) = n) ->
  (given size = true ->
   exists c, get_column ds (name_of size) = Ok c
             /\ forallb numeric_cell (cells c) = true
             /\ usable_scale scale = true) ->
  exists s, compute_sizeref ds size scale = Ok s.
Proof.
  intros Hn Hlen Hsize. unfold compute_sizeref.
  destruct (given size); [|eauto].
  destruct Hsize as (c & Hc & Hnum & Hscale); [reflexivity|].
  rewrite Hc. cbn [bind].
  assert (cells c <> []) as Hne.
  { intros E. apply Hn. rewrite <- (Hlen _ _ Hc), E. reflexivity. }
  destruct (py_max_numeric _ Hne Hnum) as (m & -> & _ & Hm). cbn [bind].
  unfold mul_float. rewrite (as_float_numeric m Hm). cbn [bind].
  unfold usable_scale in Hscale.
  destruct (num_mul scale (NInt (80 ^ 2))) as [[z|g]|e]; [| |discriminate];
    cbn [bind]; unfold float_truediv.
  - apply andb_prop in Hscale. destruct Hscale as [Hz Hfin].
    apply negb_true_iff in Hz, Hfin. rewrite Hz.
    unfold float_of_int. rewrite Hfin. cbn [bind]. eauto.
  - apply negb_true_iff in Hscale. rewrite Hscale. cbn [bind]. eauto.
Qed.

Lemma range_returns (ds : DataFrame) (name : string) (range : option pyval)
  (logscale : bool) (n : nat) :
  n <> 0%nat ->
  (forall name c, get_column ds name = Ok c -> List.length (cells c) = n) ->
  range_computable ds name range logscale ->
  exists v, axis_range ds name range logscale = Ok v.
Proof.
  intros Hn Hlen Hr. unfold axis_range. destruct range as [r|]; [eauto|].
  destruct Hr as (c & Hc & Hnum & Hlog); [reflexivity|].
  rewrite Hc. cbn [bind].
  assert (cells c <> []) as Hne.
  { intros E. apply Hn. rewrite <- (Hlen _ _ Hc), E. reflexivity. }
  destruct logscale.
  - destruct (numeric_dtype_format _ (Hlog eq_refl)) as [fmt Hfmt].
    destruct (setRange_log c fmt Hne Hnum Hfmt)
      as (lo & hi & _ & _ & ->). eauto.
  - destruct (setRange_linear c Hne Hnum) as (lo & hi & _ & _ & _ & _ & ->).
    eauto.
Qed.

End Returns.

(** ** The traces and frames are added *)

Section AddTraces.

Context `{PyRuntime}.

Lemma add_traces_layout (a : bubble_args) (category color : option string)
  (years : option (list scalar)) (categories : list scalar)
  (template : string) (grid : Grid) (sizeref : pyval) (ss : bool)
  (fig fig' : Figure) (sd sd' : dict) :
  add_traces a category color years categories template grid sizeref ss
    fig sd = Ok (fig', sd') ->
  layout fig' = layout fig.
Proof.
  unfold add_traces. intros Ht.
  destruct (given category).
  - inv_bind_as Ht traces Htraces.
    destruct (given (time_column a)).
    + inv_bind_as Ht ys Hys. apply add_frames_spec in Ht.
      destruct Ht as (_ & -> & _). reflexivity.
    + now inv_Ok Ht.
  - inv_bind_as Ht tmpl Htmpl. inv_bind_as Ht trace Htrace.
    destruct (given (time_column a)).
    + inv_bind_as Ht ys Hys. apply add_frames_spec in Ht.
      destruct Ht as (_ & -> & _). reflexivity.
    + now inv_Ok Ht.
Qed.

Lemma add_traces_returns (a : bubble_args) (category color : option string)
  (years : option (list scalar)) (categories : list scalar)
  (template : string) (grid : Grid) (sizeref : pyval) (ss : bool)
  (fig : Figure) (sd : dict) :
  (given category = true -> given (time_column a) = false ->
   forall cat, In cat categories ->
   forall col, In col (trace_columns a) ->
     exists v, grid_value grid "{}+{}_grid" [col; py_str cat] = Ok v) ->
  (given category = true -> given (time_column a) = true ->
   exists yl,
     years = Some yl
     /\ (exists m, py_min yl = Ok m /\ In m yl)
     /\ forall year, In year yl ->
          exists t,
            str_format template [py_str year; "{}"; "{}"] = Ok t
            /\ forall cat, In cat categories ->
               forall col, In col (trace_columns a) ->
                 exists v, grid_value grid t [col; py_str cat] = Ok v) ->
  (given category = false -> given (time_column a) = false ->
   (forall col, In col (trace_columns a) ->
      exists v, grid_value grid "{}_grid" [col; py_str SNone] = Ok v)
   /\ (given color = true ->
       exists v, grid_value grid "{}_grid" [name_of color] = Ok v)) ->
  (given category = false -> given (time_column a) = true ->
   exists yl,
     years = Some yl
     /\ (exists m, py_min yl = Ok m /\ In m yl)
     /\ forall year, In year yl ->
          exists t,
            str_format template [py_str year; "{}"] = Ok t
            /\ (forall col, In col (trace_columns a) ->
                  exists v, grid_value grid t [col; py_str SNone] = Ok v)
            /\ (given color = true ->
                exists v, grid_value grid t [name_of color] = Ok v)) ->
  (ss = true -> exists steps, dict_get sd "steps" = Some (VList steps)) ->
  exists fig' sd',
    add_traces a category color years categories template grid sizeref ss
      fig sd = Ok (fig', sd').
Proof.
  intros H1 H2 H3 H4 Hsd. unfold add_traces.
  destruct (given category) eqn:Gc, (given (time_column a)) eqn:Gt.
  - (* categories and time *)
    destruct (H2 eq_refl eq_refl) as (yl & -> & (m & Hm & Hin) & Hy).
    destruct (category_traces_returns a grid sizeref
                (year <- min_year (Some yl) ;;
                 str_format template [py_str year; "{}"; "{}"])
                categories (data fig)) as [ts ->].
    { intros cat Hcat. unfold min_year. simpl. rewrite Hm. cbn [bind].
      destruct (Hy m Hin) as (t & -> & Ht). eauto. }
    cbn [bind iter_years].
    apply add_frames_returns; [|exact Hsd].
    intros year Hyear. destruct (Hy year Hyear) as (t & Ht & Hcols).
    apply category_traces_returns. intros cat Hcat. eauto.
  - (* categories, no time *)
    destruct (category_traces_returns a grid sizeref (Ok "{}+{}_grid")
                categories (data fig)) as [ts ->].
    { intros cat Hcat. eauto. }
    cbn [bind]. eauto.
  - (* time, no categories *)
    destruct (H4 eq_refl eq_refl) as (yl & -> & (m & Hm & Hin) & Hy).
    unfold min_year. simpl. rewrite Hm. cbn [bind].
    destruct (Hy m Hin) as (t & -> & Hcols & Hcolor). cbn [bind].
    destruct (plain_trace_returns a grid sizeref color t Hcols Hcolor)
      as [v ->].
    cbn [bind]. apply add_frames_returns; [|exact Hsd].
    intros year Hyear. destruct (Hy year Hyear) as (t' & -> & Hcols' & Hcolor').
    cbn [bind].
    destruct (plain_trace_returns a grid sizeref color t' Hcols' Hcolor')
      as [v' ->].
    cbn [bind]. eauto.
  - (* neither *)
    destruct (H3 eq_refl eq_refl) as [Hcols Hcolor]. cbn [bind].
    destruct (plain_trace_returns a grid sizeref color "{}_grid" Hcols Hcolor)
      as [v ->].
    cbn [bind]. eauto.
Qed.

End AddTraces.

Section Totality.

Context `{PyRuntime}.

Ltac step r E :=
  match goal with
  | |- exists fig, bind ?c _ = Ok fig => destruct c as [r|?e] eqn:E
  end; cbn [bind].

Lemma wf_column_names (ds : DataFrame) (a : bubble_args)
  (color : option string) :
  well_formed_call ds a ->
  color = color_column a \/ color = None ->
  forall col, In col (column_names_of a color) ->
    exists c, get_column ds col = Ok c.
Proof.
  intros [_ Hx Hy Hb Hz Hsize Hcolor _ _ _ _ _] Hc col.
  unfold column_names_of, column_if_given in *.
  assert (Hcolor' : given color = true ->
                    exists c, get_column ds (name_of color) = Ok c).
  { destruct Hc as [->| ->]; [exact Hcolor|discriminate]. }
  destruct (given (z_column a)), (given (size_column a)), (given color);
    simpl; intros Hin;
    repeat (destruct Hin as [<-|Hin]; [auto|]); try contradiction;
    try (destruct (Hsize eq_refl) as (c & Hc' & _); eauto).
Qed.

(** On a well-formed call [bubbleplot] returns a figure. *)
Theorem bubbleplot_returns (ds : DataFrame) (a : bubble_args) :
  well_formed_call ds a -> exists fig, bubbleplot ds a = Ok fig.
Proof.
  intros Hwf. pose proof Hwf as Hwf'.
  destruct Hwf' as [(n & Hn & Hlen) Hx Hy Hb Hz Hsize Hcolor Htime Hcats
                    Hxr Hyr Hzr].
  unfold column_if_given in *. unfold bubbleplot.
  (* the color column *)
  step cls Ecls.
  2:{ exfalso. unfold classify_color in Ecls.
      destruct (given (color_column a)) eqn:G; [|discriminate].
      destruct (Hcolor eq_refl) as [c Hc]. rewrite Hc in Ecls.
      cbn [bind] in Ecls. destruct (categorical_dtype (dtype c)); discriminate. }
  destruct cls as [category color].
  apply classify_color_cases in Ecls.
  assert (Hcolor_or : color = color_column a \/ color = None)
    by (destruct Ecls as [[_ ->]|(_ & -> & _)]; auto).
  pose proof (wf_column_names ds a color Hwf Hcolor_or) as Hcols.
  (* the time column *)
  assert (Htm : exists yl tc_cells,
            (if given (time_column a)
             then tc <- get_column ds (name_of (time_column a)) ;;
                  Ok (Some (unique (cells tc)), show_slider a, show_button a)
             else Ok (None, false, false))
            = Ok (if given (time_column a) then Some yl else None,
                  if given (time_column a) then show_slider a else false,
                  if given (time_column a) then show_button a else false)
            /\ (given (time_column a) = true ->
                exists tc, get_column ds (name_of (time_column a)) = Ok tc
                           /\ cells tc = tc_cells
                           /\ yl = unique tc_cells
                           /\ forallb is_int tc_cells = true)).
  { destruct (given (time_column a)) eqn:G.
    - destruct (Htime eq_refl) as (tc & Htc & Hint). rewrite Htc.
      exists (unique (cells tc)), (cells tc). split; [reflexivity|].
      intros _. eauto 10.
    - exists [], []. split; [reflexivity|]. discriminate. }
  destruct Htm as (yl & tcells & -> & Hyl). cbn [bind].
  (* facts on the time values *)
  assert (Hyears_int : forall year, In year yl ->
            given (time_column a) = true -> exists y, year = SInt y).
  { intros year Hin Gt. destruct (Hyl Gt) as (tc & _ & _ & -> & Hint).
    apply unique_incl in Hin. pose proof (forallb_In _ _ _ Hint Hin) as Hi.
    destruct year; try discriminate. eauto. }
  assert (Hmin : given (time_column a) = true ->
            exists m, py_min yl = Ok m /\ In m yl).
  { intros Gt. destruct (Hyl Gt) as (tc & Htc & Hcells & -> & Hint).
    apply py_min_ints.
    - apply unique_nonempty. intros E. apply Hn.
      rewrite <- (Hlen _ _ Htc), Hcells, E. reflexivity.
    - apply forallb_forall. intros x Hx'. apply unique_incl in Hx'.
      exact (forallb_In _ _ _ Hint Hx'). }
  assert (Hgrid_time :
            years_usable ds (time_column a)
              (if given (time_column a) then Some yl else None)).
  { intros Gt. destruct (Hyl Gt) as (tc & Htc & Hcells & Hu & _).
    exists tc. split; [exact Htc|].
    rewrite Gt. simpl. intros year Hin.
    destruct (Hyears_int year Hin Gt) as [y ->]. exists y.
    split; [reflexivity|]. intros _ Hfl.
    rewrite Hu, <- Hcells in Hin. apply unique_incl in Hin.
    rewrite forallb_forall in Hfl. specialize (Hfl _ Hin). discriminate. }
  (* the layout, for either kind of grid *)
  assert (Hlayout : forall legend,
            exists fig0 sd0,
              setLayout (x_title a) (y_title a) (z_title a) (title a)
                (x_logscale a) (y_logscale a) (z_logscale a)
                (given (z_column a))
                (if given (time_column a) then show_slider a else false)
                (if (if given (time_column a) then show_slider a else false)
                 then (if given (time_column a) then Some yl else None)
                 else None)
                (if given (time_column a) then show_button a else false)
                legend (width a) (height a) = Ok (fig0, sd0)
              /\ has_axes (given (z_column a)) (layout fig0)
              /\ ((if given (time_column a) then show_slider a else false)
                    = true ->
                  exists steps, dict_get sd0 "steps" = Some (VList steps))).
  { intros legend.
    destruct (setLayout_returns (x_title a) (y_title a) (z_title a) (title a)
                (x_logscale a) (y_logscale a) (z_logscale a)
                (given (z_column a))
                (if given (time_column a) then show_slider a else false)
                (if (if given (time_column a) then show_slider a else false)
                 then (if given (time_column a) then Some yl else None)
                 else None)
                (if given (time_column a) then show_button a else false)
                legend (width a) (height a)) as (fig0 & sd0 & El & Hax).
    { intros Hss. rewrite Hss.
      destruct (given (time_column a)) eqn:Gt; [|discriminate].
      destruct (Hmin eq_refl) as (m & Hm & _). eauto. }
    exists fig0, sd0. split; [exact El|]. split; [exact Hax|].
    intros Hss. apply setLayout_spec in El.
    destruct El as (_ & _ & _ & _ & _ & _ & _ & Hsd). rewrite Hss in Hsd.
    eauto. }
  (* the ranges, for any layout with the axes *)
  assert (Hfinish : forall (fig1 : Figure) (sd1 : dict) (ss : bool),
            has_axes (given (z_column a)) (layout fig1) ->
            exists fig,
              (x_range0 <- axis_range ds (x_column a) (x_range a)
                             (x_logscale a) ;;
               y_range0 <- axis_range ds (y_column a) (y_range a)
                             (y_logscale a) ;;
               l <- store_ranges (given (z_column a)) (layout fig1)
                      x_range0 y_range0
                      (axis_range ds (name_of (z_column a)) (z_range a)
                         (z_logscale a)) ;;
               Ok (if ss
                   then with_layout (with_layout fig1 l)
                          (dict_set (layout (with_layout fig1 l)) "sliders"
                             (VList [VDict sd1]))
                   else with_layout fig1 l)) = Ok fig).
  { intros fig1 sd1 ss Hax.
    destruct (range_returns ds _ _ _ n Hn Hlen Hxr) as [xr ->].
    destruct (range_returns ds _ _ _ n Hn Hlen Hyr) as [yr ->].
    cbn [bind].
    destruct (store_ranges_returns (given (z_column a)) (layout fig1) xr yr
                (axis_range ds (name_of (z_column a)) (z_range a)
                   (z_logscale a)) Hax) as [l ->].
    { intros Gz. apply (range_returns ds _ _ _ n Hn Hlen). auto. }
    cbn [bind]. eauto. }
  destruct (compute_sizeref_returns ds (size_column a) (scale_bubble a) n
              Hn Hlen Hsize) as [sizeref Hsz].
  destruct Ecls as [[-> ->]|(-> & -> & Gc & cc & Hcc & Hdt)].
  - (* no category column *)
    cbn [given].
    destruct (makeGrid_returns ds (column_names_of a (color_column a))
                (time_column a)
                (if given (time_column a) then Some yl else None)
                Hcols Hgrid_time) as [g Hg].
    rewrite Hg. cbn [bind].
    apply makeGrid_expected in Hg.
    destruct (Hlayout (match show_legend a with
                       | Some b => b
                       | None => false
                       end)) as (fig0 & sd0 & -> & Hax & Hsd).
    cbn [bind]. rewrite Hsz. cbn [bind].
    destruct (add_traces_returns a None (color_column a)
                (if given (time_column a) then Some yl else None) []
                "{}+{}_grid" g sizeref
                (if given (time_column a) then show_slider a else false)
                fig0 sd0) as (fig1 & sd1 & Etr); try discriminate.
    + (* no time *)
      intros _ Gt. rewrite Gt in Hg. subst g. split.
      * intros col Hin.
        pose proof (trace_columns_incl a (color_column a) col Hin) as Hin'.
        exact (lookup_plain ds _ _ _ col _ Gt Hin' (Hcols col Hin')).
      * intros Gcol.
        pose proof (color_in_column_names a (color_column a) Gcol) as Hin'.
        exact (lookup_plain ds _ _ _ _ _ Gt Hin' (Hcols _ Hin')).
    + (* time *)
      intros _ Gt. rewrite Gt in Hg. rewrite Gt.
      destruct (Hyl Gt) as (tc & Htc & Hcells & Hu & Hint).
      exists yl. split; [reflexivity|]. split; [now apply Hmin|].
      intros year Hyear. destruct (Hyears_int year Hyear Gt) as [y ->].
      subst g yl tcells.
      destruct (lookup_time ds (column_names_of a (color_column a))
                  (time_column a) tc n y (x_column a) [] Gt Htc Hlen Hyear)
        as (t & Ht & _).
      { eapply trace_columns_incl. unfold trace_columns. simpl. auto. }
      { exact Hx. }
      exists t. split; [exact Ht|]. split.
      * intros col Hin.
        destruct (lookup_time ds (column_names_of a (color_column a))
                    (time_column a) tc n y col [py_str SNone] Gt Htc Hlen
                    Hyear) as (t' & Ht' & Hv).
        { eapply trace_columns_incl; eauto. }
        { apply Hcols. eapply trace_columns_incl; eauto. }
        rewrite Ht in Ht'. inv_Ok Ht'. exact Hv.
      * intros Gcol.
        destruct (lookup_time ds (column_names_of a (color_column a))
                    (time_column a) tc n y (name_of (color_column a)) []
                    Gt Htc Hlen Hyear) as (t' & Ht' & Hv).
        { now apply color_in_column_names. }
        { apply Hcols. now apply color_in_column_names. }
        rewrite Ht in Ht'. inv_Ok Ht'. exact Hv.
    + exact Hsd.
    + rewrite Etr. cbn [bind]. apply Hfinish.
      rewrite (add_traces_layout _ _ _ _ _ _ _ _ _ _ _ _ _ Etr). exact Hax.
  - (* the color column is the category column *)
    rewrite Gc. rewrite Hcc. cbn [bind].
    destruct (Hcats cc Gc Hcc Hdt) as [Hnull Hpairs].
    assert (Hcu : categories_usable ds (name_of (color_column a))
                    (Some (unique (cells cc)))).
    { intros cc' k Hcc' Hin _ Hfl. rewrite Hcc in Hcc'. inv_Ok Hcc'.
      cbn [effective] in Hin. apply unique_incl in Hin.
      rewrite forallb_forall in Hfl. specialize (Hfl _ Hin). discriminate. }
    destruct (makeGridWithCategories_returns ds (column_names_of a None)
                (time_column a) (name_of (color_column a))
                (if given (time_column a) then Some yl else None)
                (Some (unique (cells cc))) Hcols (ex_intro _ cc Hcc)
                Hcu Hgrid_time) as [g Hg].
    rewrite Hg. cbn [bind].
    apply makeGridWithCategories_expected in Hg.
    destruct (Hlayout (match show_legend a with
                       | Some b => b
                       | None => true
                       end)) as (fig0 & sd0 & -> & Hax & Hsd).
    cbn [bind]. rewrite Hsz. cbn [bind].
    destruct (add_traces_returns a (color_column a) None
                (if given (time_column a) then Some yl else None)
                (unique (cells cc))
                "{}+{}+{}_grid" g sizeref
                (if given (time_column a) then show_slider a else false)
                fig0 sd0) as (fig1 & sd1 & Etr); try congruence.
    + (* no time *)
      intros _ Gt cat Hcat col Hin. subst g.
      pose proof (trace_columns_incl a None col Hin) as Hin'.
      assert (is_null cat = false) as Hnn.
      { pose proof (forallb_In _ _ _ Hnull (unique_incl _ _ Hcat)) as Hn'.
        now apply negb_true_iff in Hn'. }
      exact (lookup_category ds _ _ _ cc n _ cat col Gt Hcc Hdt Hlen Hcat
               Hnn Hin' (Hcols col Hin')).
    + (* time *)
      intros _ Gt. rewrite Gt in Hg. rewrite Gt.
      destruct (Hyl Gt) as (tc & Htc & Hcells & Hu & Hint).
      exists yl. split; [reflexivity|]. split; [now apply Hmin|].
      intros year Hyear. destruct (Hyears_int year Hyear Gt) as [y ->].
      subst g yl tcells.
      eexists. split; [reflexivity|].
      intros cat Hcat col Hin.
      destruct (lookup_time_category ds (column_names_of a None)
                  (time_column a) (name_of (color_column a)) tc cc n y cat col
                  Gt Htc Hcc Hdt Hlen Hyear Hcat) as (t' & Ht' & Hv).
      { apply Hpairs; auto; now apply unique_incl. }
      { eapply trace_columns_incl; eauto. }
      { apply Hcols. eapply trace_columns_incl; eauto. }
      inv_Ok Ht'. exact Hv.
    + exact Hsd.
    + rewrite Etr. cbn [bind]. apply Hfinish.
      rewrite (add_traces_layout _ _ _ _ _ _ _ _ _ _ _ _ _ Etr). exact Hax.
Qed.

End Totality.


(* ================================================================= *)
(** * The figure in detail *)

(** ** The steps of [bubbleplot] *)

Section Steps.

Context `{PyRuntime}.

(** The successive results behind a returned figure. *)
Lemma bubbleplot_steps (ds : DataFrame) (a : bubble_args) (fig : Figure) :
  bubbleplot ds a = Ok fig ->
  exists category color years ss sb categories template grid legend
         fig0 sd0 sizeref fig1 sd1 xr yr l,
    classify_color ds (color_column a) = Ok (category, color)
    /\ (if given (time_column a)
        then exists tc,
               get_column ds (name_of (time_column a)) = Ok tc
               /\ years = Some (unique (cells tc))
               /\ ss = show_slider a /\ sb = show_button a
        else years = None /\ ss = false /\ sb = false)
    /\ (if given category
        then exists cc,
               get_column ds (name_of category) = Ok cc
               /\ categories = unique (cells cc)
               /\ template = "{}+{}+{}_grid"
               /\ makeGridWithCategories ds (column_names_of a color)
                    (time_column a) (name_of category) years
                    (Some categories) = Ok grid
               /\ legend = match show_legend a with
                           | None => true | Some b => b end
        else categories = [] /\ template = "{}+{}_grid"
             /\ makeGrid ds (column_names_of a color) (time_column a) years
                = Ok grid
             /\ legend = match show_legend a with
                         | None => false | Some b => b end)
    /\ setLayout (x_title a) (y_title a) (z_title a) (title a)
         (x_logscale a) (y_logscale a) (z_logscale a) (given (z_column a))
         ss (if ss then years else None) sb legend (width a) (height a)
       = Ok (fig0, sd0)
    /\ compute_sizeref ds (size_column a) (scale_bubble a) = Ok sizeref
    /\ add_traces a category color years categories template grid sizeref
         ss fig0 sd0 = Ok (fig1, sd1)
    /\ axis_range ds (x_column a) (x_range a) (x_logscale a) = Ok xr
    /\ axis_range ds (y_column a) (y_range a) (y_logscale a) = Ok yr
    /\ store_ranges (given (z_column a)) (layout fig1) xr yr
         (axis_range ds (name_of (z_column a)) (z_range a) (z_logscale a))
       = Ok l
    /\ fig = (if ss
              then with_layout (with_layout fig1 l)
                     (dict_set l "sliders" (VList [VDict sd1]))
              else with_layout fig1 l).
Proof.
  unfold bubbleplot. intros Hb.
  inv_bind_as Hb cls Hcls. destruct cls as [category color].
  inv_bind_as Hb tm Htm. destruct tm as [[years ss] sb].
  inv_bind_as Hb gr Hgr. destruct gr as [[[categories template] grid] legend].
  inv_bind_as Hb lay Hlay. destruct lay as [fig0 sd0].
  inv_bind_as Hb sizeref Hsz.
  inv_bind_as Hb tr Htr. destruct tr as [fig1 sd1].
  inv_bind_as Hb xr Hxr. inv_bind_as Hb yr Hyr. inv_bind_as Hb l Hl.
  inv_Ok Hb.
  exists category, color, years, ss, sb, categories, template, grid, legend,
    fig0, sd0, sizeref, fig1, sd1, xr, yr, l.
  split; [exact Hcls|]. split.
  { destruct (given (time_column a)).
    - inv_bind_as Htm tc Htc. inv_Ok Htm. eauto.
    - inv_Ok Htm. auto. }
  split.
  { destruct (given category).
    - inv_bind_as Hgr cc Hcc. inv_bind_as Hgr g Hg. inv_Ok Hgr.
      exists cc. auto.
    - inv_bind_as Hgr g Hg. inv_Ok Hgr. auto. }
  split; [exact Hlay|]. split; [exact Hsz|]. split; [exact Htr|].
  split; [exact Hxr|]. split; [exact Hyr|]. split; [exact Hl|].
  destruct ss; reflexivity.
Qed.

End Steps.

(* ================================================================= *)
(** ** The slider and the buttons *)

Section Controls.

Context `{PyRuntime}.

Lemma addSliderSteps_spec (sd sd' : dict) (year : scalar) (s0 : list pyval) :
  steps_of sd = Some s0 ->
  addSliderSteps sd year = Ok sd' ->
  exists step,
    step_for year step
    /\ steps_of sd' = Some (s0 ++ [step])
    /\ forall k, k <> "steps" -> dict_get sd' k = dict_get sd k.
Proof.
  unfold steps_of, addSliderSteps. intros Hs Ha.
  destruct (dict_get sd "steps") as [[s|steps|d]|]; try discriminate.
  inv_Ok Hs. inv_Ok Ha. eexists. split; [|split]; cycle 1.
  - rewrite dict_get_set_same. reflexivity.
  - intros k Hk. now apply dict_get_set_other.
  - unfold step_for. repeat split; reflexivity.
Qed.

(** The loop over the years adds one step per year to a shown slider,
    and leaves the dictionary of a hidden one alone. *)
Lemma add_frames_steps (traces_of : scalar -> result (list pyval))
  (ss : bool) (years : list scalar) (fig fig' : Figure) (sd sd' : dict) :
  add_frames traces_of ss years (fig, sd) = Ok (fig', sd') ->
  if ss then
    forall s0, steps_of sd = Some s0 ->
      exists new,
        steps_of sd' = Some (s0 ++ new)
        /\ Forall2 step_for years new
        /\ forall k, k <> "steps" -> dict_get sd' k = dict_get sd k
  else sd' = sd.
Proof.
  unfold add_frames. destruct ss.
  - revert fig sd. induction years as [|y ys IH]; simpl; intros fig sd Hl.
    + inv_Ok Hl. intros s0 Hs. exists []. rewrite app_nil_r. auto.
    + inv_bind_as Hl st Hst. inv_bind_as Hst ts Hts.
      inv_bind_as Hst sd1 Hsd1. inv_Ok Hst. intros s0 Hs.
      destruct (addSliderSteps_spec _ _ _ _ Hs Hsd1)
        as (step & Hstep & Hs1 & Hk1).
      destruct (IH _ _ Hl _ Hs1) as (new & Hnew & HF & Hk).
      exists (step :: new). rewrite <- app_assoc in Hnew.
      split; [exact Hnew|]. split; [constructor; assumption|].
      intros k Hne. rewrite Hk, Hk1; auto.
  - revert fig sd. induction years as [|y ys IH]; simpl; intros fig sd Hl.
    + now inv_Ok Hl.
    + inv_bind_as Hl st Hst. inv_bind_as Hst ts Hts. inv_Ok Hst.
      now apply IH in Hl.
Qed.

(** What [add_traces] does to the slider dictionary. *)
Lemma add_traces_steps (a : bubble_args) (category color : option string)
  (years : option (list scalar)) (categories : list scalar)
  (template : string) (grid : Grid) (sizeref : pyval) (ss : bool)
  (fig fig' : Figure) (sd sd' : dict) :
  add_traces a category color years categories template grid sizeref ss
    fig sd = Ok (fig', sd') ->
  if (given (time_column a) && ss)%bool then
    forall s0, steps_of sd = Some s0 ->
      exists ys new,
        years = Some ys
        /\ steps_of sd' = Some (s0 ++ new)
        /\ Forall2 step_for ys new
        /\ forall k, k <> "steps" -> dict_get sd' k = dict_get sd k
  else sd' = sd.
Proof.
  unfold add_traces. intros Ht.
  assert (Hloop : forall traces_of (f : Figure),
            (ys <- iter_years years ;;
             add_frames traces_of ss ys (f, sd)) = Ok (fig', sd') ->
            if ss then
              forall s0, steps_of sd = Some s0 ->
                exists ys new,
                  years = Some ys
                  /\ steps_of sd' = Some (s0 ++ new)
                  /\ Forall2 step_for ys new
                  /\ forall k, k <> "steps" -> dict_get sd' k = dict_get sd k
            else sd' = sd).
  { intros traces_of f Hl. inv_bind_as Hl ys Hys.
    destruct years as [ys'|]; [|discriminate]. inv_Ok Hys.
    apply add_frames_steps in Hl. destruct ss; [|exact Hl].
    intros s0 Hs. destruct (Hl s0 Hs) as (new & ?). exists ys, new. auto. }
  destruct (given category).
  - inv_bind_as Ht traces Htraces.
    destruct (given (time_column a)); simpl.
    + eapply Hloop. exact Ht.
    + now inv_Ok Ht.
  - inv_bind_as Ht tmpl Htmpl. inv_bind_as Ht trace Htrace.
    destruct (given (time_column a)); simpl.
    + eapply Hloop. exact Ht.
    + now inv_Ok Ht.
Qed.

(** The slider dictionary [setLayout] hands out when the slider is
    shown. *)
Lemma setLayout_slider (xt yt zt t : option string) (xl yl zl axes3D : bool)
  (scale : option (list scalar)) (sb legend : bool) (w h : option Z)
  (fig : Figure) (sd : dict) :
  setLayout xt yt zt t xl yl zl axes3D true scale sb legend w h
    = Ok (fig, sd) ->
  steps_of sd = Some []
  /\ dict_get sd "active" = Some (vint 0)
  /\ exists ys initial, scale = Some ys /\ py_min ys = Ok initial.
Proof.
  unfold setLayout. intros Hs. inv_bind_as Hs f Hf. inv_bind_as Hs p Hp.
  destruct p as [f1 sd1]. inv_Ok Hs.
  unfold addSlider in Hp. inv_bind_as Hp vs Hvs. inv_bind_as Hp i Hi.
  inv_Ok Hp. destruct scale as [ys|]; [|discriminate]. inv_Ok Hvs.
  repeat split. eauto.
Qed.

(** The buttons [setLayout] puts into the layout. *)
Lemma setLayout_buttons (xt yt zt t : option string)
  (xl yl zl axes3D ss : bool) (scale : option (list scalar))
  (sb legend : bool) (w h : option Z) (fig : Figure) (sd : dict) :
  setLayout xt yt zt t xl yl zl axes3D ss scale sb legend w h
    = Ok (fig, sd) ->
  map step_label (buttons_of fig)
  = (if sb then [Some "Play"; Some "Pause"] else []).
Proof.
  intros Hs. apply setLayout_spec in Hs as Hspec.
  destruct Hspec as (_ & _ & _ & _ & _ & Hb & _).
  unfold setLayout in Hs. inv_bind_as Hs f Hf. inv_bind_as Hs p Hp.
  destruct p as [f1 sd1]. inv_Ok Hs. unfold buttons_of.
  destruct sb.
  - unfold addButton. simpl. rewrite dict_get_set_same. reflexivity.
  - unfold dict_has in Hb.
    destruct (dict_get (layout f1) "updatemenus"); [discriminate|reflexivity].
Qed.

End Controls.

(* ================================================================= *)
(** ** The axes *)

Section Axes.

Context `{PyRuntime}.

(** The axis dictionary as [set2Daxes] and [set3Daxes] leave it, before
    it has its range. *)
Lemma axis_with_range (title : option string) (logscale : bool)
  (range : pyval) :
  VDict (dict_set
           (("title", vopt_str title) :: ("autorange", vbool false)
            :: (if logscale then [("type", vstr "log")] else []))
           "range" range)
  = axis_entry title logscale range.
Proof. destruct logscale; reflexivity. Qed.

Lemma set2Daxes_layout (fig fig' : Figure) (xt yt : option string)
  (xl yl : bool) :
  layout fig = [] ->
  set2Daxes fig xt yt xl yl = Ok fig' ->
  layout fig'
  = [("xaxis", VDict ([("title", vopt_str xt); ("autorange", vbool false)]
                      ++ (if xl then [("type", vstr "log")] else [])));
     ("yaxis", VDict ([("title", vopt_str yt); ("autorange", vbool false)]
                      ++ (if yl then [("type", vstr "log")] else [])))].
Proof.
  unfold set2Daxes. intros -> Hs.
  destruct xl, yl; simpl in Hs; inv_Ok Hs; reflexivity.
Qed.

Lemma set3Daxes_layout (fig fig' : Figure) (xt yt zt : option string)
  (xl yl zl : bool) :
  layout fig = [] ->
  set3Daxes fig xt yt zt xl yl zl = Ok fig' ->
  layout fig'
  = [("scene",
      VDict
        [("xaxis", VDict ([("title", vopt_str xt); ("autorange", vbool false)]
                          ++ (if xl then [("type", vstr "log")] else [])));
         ("yaxis", VDict ([("title", vopt_str yt); ("autorange", vbool false)]
                          ++ (if yl then [("type", vstr "log")] else [])));
         ("zaxis", VDict ([("title", vopt_str zt); ("autorange", vbool false)]
                          ++ (if zl then [("type", vstr "log")] else [])))])].
Proof.
  unfold set3Daxes. intros -> Hs.
  destruct xl, yl, zl; simpl in Hs; inv_Ok Hs; reflexivity.
Qed.

(** On the axis keys, the layout [setLayout] returns is the one the axis
    function wrote. *)
Lemma setLayout_axes (xt yt zt t : option string) (xl yl zl axes3D ss : bool)
  (scale : option (list scalar)) (sb legend : bool) (w h : option Z)
  (fig : Figure) (sd : dict) :
  setLayout xt yt zt t xl yl zl axes3D ss scale sb legend w h = Ok (fig, sd) ->
  exists f,
    (if axes3D
     then set3Daxes {| data := []; layout := []; frames := [] |}
            xt yt zt xl yl zl
     else set2Daxes {| data := []; layout := []; frames := [] |}
            xt yt xl yl) = Ok f
    /\ forall k, In k axis_keys ->
         dict_get (layout fig) k = dict_get (layout f) k.
Proof.
  unfold setLayout. intros Hs. inv_bind_as Hs f Hf. inv_bind_as Hs p Hp.
  destruct p as [f1 sd1]. inv_Ok Hs.
  exists f. split; [exact Hf|]. intros k Hk.
  assert (Hne : "title" <> k /\ "hovermode" <> k /\ "showlegend" <> k
                /\ "margin" <> k /\ "width" <> k /\ "height" <> k
                /\ "sliders" <> k /\ "updatemenus" <> k).
  { unfold axis_keys in Hk. simpl in Hk.
    destruct Hk as [<-|[<-|[<-|[]]]]; repeat split; discriminate. }
  destruct Hne as (N1 & N2 & N3 & N4 & N5 & N6 & N7 & N8).
  destruct sb; unfold addButton; simpl;
    (destruct ss;
     [unfold addSlider in Hp; inv_bind_as Hp vs Hvs; inv_bind_as Hp i Hi;
      inv_Ok Hp
     |inv_Ok Hp]);
    simpl; destruct (given_int h), (given_int w);
    repeat (rewrite dict_get_set_other by assumption); reflexivity.
Qed.

(** [store_ranges] on a 2D layout: each axis dictionary gets its range,
    and nothing else changes. *)
Lemma store_ranges_2d (l l' : dict) (dx dy : dict) (xr yr : pyval)
  (zr : result pyval) :
  dict_get l "xaxis" = Some (VDict dx) ->
  dict_get l "yaxis" = Some (VDict dy) ->
  store_ranges false l xr yr zr = Ok l' ->
  dict_get l' "xaxis" = Some (VDict (dict_set dx "range" xr))
  /\ dict_get l' "yaxis" = Some (VDict (dict_set dy "range" yr))
  /\ forall k, k <> "xaxis" -> k <> "yaxis" -> dict_get l' k = dict_get l k.
Proof.
  unfold store_ranges, dict_set_in. intros Hx Hy Hs. rewrite Hx in Hs.
  cbn [bind] in Hs. rewrite dict_get_set_other, Hy in Hs by discriminate.
  inv_Ok Hs. split; [|split].
  - rewrite dict_get_set_other by discriminate. apply dict_get_set_same.
  - apply dict_get_set_same.
  - intros k Kx Ky. rewrite !dict_get_set_other by congruence. reflexivity.
Qed.

(** [store_ranges] on a 3D layout. *)
Lemma store_ranges_3d (l l' : dict) (dx dy dz : dict) (xr yr : pyval)
  (zr : result pyval) :
  dict_get l "scene"
    = Some (VDict [("xaxis", VDict dx); ("yaxis", VDict dy);
                   ("zaxis", VDict dz)]) ->
  store_ranges true l xr yr zr = Ok l' ->
  exists z,
    zr = Ok z
    /\ dict_get l' "scene"
       = Some (VDict [("xaxis", VDict (dict_set dx "range" xr));
                      ("yaxis", VDict (dict_set dy "range" yr));
                      ("zaxis", VDict (dict_set dz "range" z))])
    /\ forall k, k <> "scene" -> dict_get l' k = dict_get l k.
Proof.
  unfold store_ranges. intros Hsc Hs. inv_bind_as Hs z Hz.
  exists z. split; [exact Hz|].
  unfold dict_set_in2 in Hs. rewrite Hsc in Hs. simpl in Hs.
  rewrite dict_get_set_same in Hs. simpl in Hs.
  rewrite dict_get_set_same in Hs. simpl in Hs. inv_Ok Hs. split.
  - apply dict_get_set_same.
  - intros k Hk. rewrite !dict_get_set_other by congruence. reflexivity.
Qed.

Lemma axis_range_of (ds : DataFrame) (name : string) (range : option pyval)
  (logscale : bool) (r : pyval) :
  axis_range ds name range logscale = Ok r ->
  range_of ds name range logscale r.
Proof.
  unfold axis_range, range_of. destruct range as [passed|]; intros Hr.
  - now inv_Ok Hr.
  - inv_bind_as Hr c Hc. eauto.
Qed.

End Axes.

(* ================================================================= *)
(** ** The dictionary of a trace *)

(** Writing under a key the dictionary does not have appends the
    entry. *)
Lemma dict_set_fresh (d : dict) (k : string) (v : pyval) :
  dict_get d k = None -> dict_set d k v = d ++ [(k, v)].
Proof.
  induction d as [|[k' v'] d IH]; simpl; intros Hn.
  - reflexivity.
  - destruct (String.eqb k' k); [discriminate|]. now rewrite IH.
Qed.

Lemma dict_get_app_fresh (d tail : dict) (k : string) :
  dict_get d k = None -> dict_get (d ++ tail) k = dict_get tail k.
Proof.
  induction d as [|[k' v'] d IH]; simpl; intros Hn.
  - reflexivity.
  - destruct (String.eqb k' k); [discriminate|]. now apply IH.
Qed.

Lemma dict_set_app_last (d : dict) (k : string) (v v' : pyval) :
  dict_get d k = None -> dict_set (d ++ [(k, v)]) k v' = d ++ [(k, v')].
Proof.
  induction d as [|[k0 v0] d IH]; simpl; intros Hn.
  - now rewrite String.eqb_refl.
  - destruct (String.eqb k0 k); [discriminate|]. now rewrite IH.
Qed.

Section TraceParts.

Context `{PyRuntime}.

(** The trace [getTrace] returns, entry by entry in the order of its
    keys. *)
Lemma getTrace_inv (grid : Grid) (template x y bubble : string)
  (z size : option string) (sizeref : pyval) (scale : num)
  (opacity border : option num) (color colorscale : option string)
  (show_colorbar : bool) (colorbar_title : option string) (category : scalar)
  (t : dict) :
  getTrace grid template x y bubble z size sizeref scale opacity border
    color colorscale show_colorbar colorbar_title category = Ok t ->
  exists xv yv tv zpart sizepart colorpart,
    grid_value grid template [x; py_str category] = Ok xv
    /\ grid_value grid template [y; py_str category] = Ok yv
    /\ grid_value grid template [bubble; py_str category] = Ok tv
    /\ (if given z
        then exists zv,
               grid_value grid template [name_of z; py_str category] = Ok zv
               /\ zpart = [("z", zv)]
        else zpart = [])
    /\ (if given size
        then exists sv,
               grid_value grid template [name_of size; py_str category]
                 = Ok sv
               /\ sizepart = [("sizemode", vstr "area"); ("sizeref", sizeref);
                              ("size", sv)]
        else exists s,
               num_mul (NInt 10) scale = Ok s
               /\ sizepart = [("size", VScalar (num_scalar s))])
    /\ (if given color
        then exists cv,
               grid_value grid template [name_of color] = Ok cv
               /\ colorpart
                  = [("color", cv);
                     ("colorbar", VDict [("title", vopt_str colorbar_title)]);
                     ("colorscale", vopt_str colorscale)]
        else colorpart = [])
    /\ t = [("x", xv); ("y", yv); ("text", tv); ("mode", vstr "markers")]
           ++ zpart
           ++ [("marker",
                VDict (sizepart ++ opacity_entry opacity ++ line_entry border
                       ++ colorpart))]
           ++ (if py_truthy category then [("name", VScalar category)]
               else []).
Proof.
  unfold getTrace. intros Hg.
  inv_bind_as Hg xv Hx. inv_bind_as Hg yv Hy. inv_bind_as Hg tv Ht.
  inv_bind_as Hg t1 Ht1. inv_bind_as Hg m Hm. inv_bind_as Hg t2 Ht2.
  inv_bind_as Hg t3 Ht3. inv_bind_as Hg t4 Ht4. inv_Ok Hg.
  (* the entries before the marker *)
  assert (Hz : exists zpart,
            t1 = [("x", xv); ("y", yv); ("text", tv);
                  ("mode", vstr "markers")] ++ zpart
            /\ dict_get t1 "marker" = None /\ dict_get t1 "name" = None
            /\ (if given z
                then exists zv,
                       grid_value grid template [name_of z; py_str category]
                         = Ok zv /\ zpart = [("z", zv)]
                else zpart = [])).
  { destruct (given z).
    - inv_bind_as Ht1 zv Hzv. inv_Ok Ht1. exists [("z", zv)].
      repeat split. eauto.
    - inv_Ok Ht1. exists []. repeat split. }
  clear Ht1. destruct Hz as (zpart & -> & Pm & Pn & Hz).
  set (base := [("x", xv); ("y", yv); ("text", tv);
                ("mode", vstr "markers")] ++ zpart) in *.
  (* the marker as first built *)
  assert (Hs : (if given size
                then exists sv,
                       grid_value grid template
                         [name_of size; py_str category] = Ok sv
                       /\ m = [("sizemode", vstr "area");
                               ("sizeref", sizeref); ("size", sv)]
                else exists s,
                       num_mul (NInt 10) scale = Ok s
                       /\ m = [("size", VScalar (num_scalar s))])).
  { destruct (given size).
    - inv_bind_as Hm sv Hsv. inv_Ok Hm. eauto.
    - inv_bind_as Hm s Hs. inv_Ok Hm. eauto. }
  clear Hm.
  assert (Hkeys : dict_get m "opacity" = None /\ dict_get m "line" = None
                  /\ dict_get m "color" = None /\ dict_get m "colorbar" = None
                  /\ dict_get m "colorscale" = None).
  { destruct (given size).
    - destruct Hs as (sv & _ & ->). repeat split.
    - destruct Hs as (s & _ & ->). repeat split. }
  destruct Hkeys as (K1 & K2 & K3 & K4 & K5).
  (* writing into the trace and into its marker *)
  pose proof dict_set_fresh as Hfresh.
  pose proof dict_get_app_fresh as Hafter.
  assert (Hin : forall (mk : dict) (k : string) (v : pyval),
            dict_set_in (base ++ [("marker", VDict mk)]) "marker" k v
            = Ok (base ++ [("marker", VDict (dict_set mk k v))])).
  { intros mk k v. unfold dict_set_in. rewrite (Hafter _ _ _ Pm).
    change (dict_get [("marker", VDict mk)] "marker") with (Some (VDict mk)).
    cbv iota. now rewrite (dict_set_app_last _ _ _ _ Pm). }
  rewrite (Hfresh _ _ _ Pm) in Ht2.
  (* opacity *)
  assert (H2 : t2 = base ++ [("marker", VDict (m ++ opacity_entry opacity))]).
  { unfold opacity_entry, optional_entry.
    destruct opacity as [o|]; [destruct (num_truthy o)|].
    - rewrite Hin in Ht2. inv_Ok Ht2. now rewrite Hfresh.
    - inv_Ok Ht2. now rewrite app_nil_r.
    - inv_Ok Ht2. now rewrite app_nil_r. }
  clear Ht2. subst t2.
  assert (L : dict_get (m ++ opacity_entry opacity) "line" = None
              /\ dict_get (m ++ opacity_entry opacity) "color" = None
              /\ dict_get (m ++ opacity_entry opacity) "colorbar" = None
              /\ dict_get (m ++ opacity_entry opacity) "colorscale" = None).
  { rewrite !Hafter by assumption. unfold opacity_entry, optional_entry.
    destruct opacity as [o|]; [destruct (num_truthy o)|]; repeat split. }
  destruct L as (L2 & L3 & L4 & L5).
  set (m2 := m ++ opacity_entry opacity) in *.
  (* border *)
  assert (H3 : t3 = base ++ [("marker", VDict (m2 ++ line_entry border))]).
  { unfold line_entry, optional_entry.
    destruct border as [w|]; [destruct (num_truthy w)|].
    - rewrite Hin in Ht3. inv_Ok Ht3. now rewrite Hfresh.
    - inv_Ok Ht3. now rewrite app_nil_r.
    - inv_Ok Ht3. now rewrite app_nil_r. }
  clear Ht3. subst t3.
  assert (M : dict_get (m2 ++ line_entry border) "color" = None
              /\ dict_get (m2 ++ line_entry border) "colorbar" = None
              /\ dict_get (m2 ++ line_entry border) "colorscale" = None).
  { rewrite !Hafter by assumption. unfold line_entry, optional_entry.
    destruct border as [w|]; [destruct (num_truthy w)|]; repeat split. }
  destruct M as (M3 & M4 & M5).
  set (m3 := m2 ++ line_entry border) in *.
  (* color *)
  assert (H4 : exists colorpart,
            t4 = base ++ [("marker", VDict (m3 ++ colorpart))]
            /\ (if given color
                then exists cv,
                       grid_value grid template [name_of color] = Ok cv
                       /\ colorpart
                          = [("color", cv);
                             ("colorbar",
                              VDict [("title", vopt_str colorbar_title)]);
                             ("colorscale", vopt_str colorscale)]
                else colorpart = [])).
  { destruct (given color).
    - inv_bind_as Ht4 cv Hcv. rewrite Hin in Ht4. cbn [bind] in Ht4.
      rewrite Hin in Ht4. cbn [bind] in Ht4. rewrite Hin in Ht4.
      inv_Ok Ht4. eexists. split; [|eauto].
      rewrite (Hfresh m3 "color") by assumption.
      rewrite (Hfresh _ "colorbar")
        by (rewrite Hafter by assumption; reflexivity).
      rewrite (Hfresh _ "colorscale")
        by (rewrite <- app_assoc, Hafter by assumption; reflexivity).
      rewrite <- !app_assoc. reflexivity.
    - inv_Ok Ht4. exists []. now rewrite app_nil_r. }
  clear Ht4. destruct H4 as (colorpart & -> & Hc).
  exists xv, yv, tv, zpart, m, colorpart.
  split; [exact Hx|]. split; [exact Hy|]. split; [exact Ht|].
  split; [exact Hz|]. split; [exact Hs|]. split; [exact Hc|].
  unfold m3, m2. rewrite <- !app_assoc.
  destruct (py_truthy category).
  - rewrite Hfresh.
    + rewrite <- !app_assoc. reflexivity.
    + rewrite Hafter by assumption. reflexivity.
  - rewrite app_nil_r. reflexivity.
Qed.

End TraceParts.

(* ================================================================= *)
(** ** The traces of a figure, call by call *)

Section TracesOf.

Context `{PyRuntime}.

Lemma category_traces_inv (a : bubble_args) (grid : Grid) (sizeref : pyval)
  (template : result string) (categories : list scalar)
  (acc ts : list pyval) :
  category_traces a grid sizeref template categories acc = Ok ts ->
  exists new,
    ts = acc ++ new
    /\ Forall2 (fun c v =>
         exists tmpl,
           template = Ok tmpl /\ category_trace_of a grid sizeref tmpl c v)
         categories new.
Proof.
  unfold category_traces. revert acc.
  induction categories as [|c cs IH]; simpl; intros acc Hl.
  - inv_Ok Hl. exists []. rewrite app_nil_r. split; [reflexivity|constructor].
  - inv_bind_as Hl acc1 Hacc. inv_bind_as Hacc tmpl Htmpl.
    inv_bind_as Hacc t Ht. injection Hacc as <-.
    apply IH in Hl. destruct Hl as (new & -> & HF).
    exists (VDict (mark3d (z_column a) t) :: new).
    rewrite <- app_assoc. split; [reflexivity|].
    constructor; [|exact HF]. exists tmpl. split; [exact Htmpl|].
    exists t. auto.
Qed.

(** The base traces and the frames [add_traces] builds, each with the
    call that built it. *)
Lemma add_traces_inv (a : bubble_args) (category color : option string)
  (years : option (list scalar)) (categories : list scalar)
  (template : string) (grid : Grid) (sizeref : pyval) (ss : bool)
  (fig fig' : Figure) (sd sd' : dict) :
  add_traces a category color years categories template grid sizeref ss
    fig sd = Ok (fig', sd') ->
  data fig = [] -> frames fig = [] ->
  if given category then
    Forall2 (fun c v =>
      exists tmpl,
        base_template a years template "{}+{}_grid" ["{}"; "{}"] = Ok tmpl
        /\ category_trace_of a grid sizeref tmpl c v)
      categories (data fig')
    /\ (if given (time_column a)
        then exists ys,
               years = Some ys
               /\ Forall2 (fun y f =>
                    exists ts,
                      f = frame ts y
                      /\ Forall2 (fun c v =>
                           exists tmpl,
                             str_format template [py_str y; "{}"; "{}"]
                               = Ok tmpl
                             /\ category_trace_of a grid sizeref tmpl c v)
                           categories ts)
                    ys (frames fig')
        else frames fig' = [])
  else
    (exists tmpl v,
       base_template a years template "{}_grid" ["{}"] = Ok tmpl
       /\ plain_trace a grid sizeref color tmpl = Ok v
       /\ data fig' = [v])
    /\ (if given (time_column a)
        then exists ys,
               years = Some ys
               /\ Forall2 (fun y f =>
                    exists tmpl v,
                      str_format template [py_str y; "{}"] = Ok tmpl
                      /\ plain_trace a grid sizeref color tmpl = Ok v
                      /\ f = frame [v] y)
                    ys (frames fig')
        else frames fig' = []).
Proof.
  unfold add_traces, base_template. intros Ht Hd Hf.
  destruct (given category).
  - inv_bind_as Ht traces Htraces. rewrite Hd in Htraces.
    apply category_traces_inv in Htraces.
    destruct Htraces as (new & -> & Hnew). simpl in Hnew.
    destruct (given (time_column a)).
    + inv_bind_as Ht ys Hys. destruct years as [ys'|]; [|discriminate].
      inv_Ok Hys. apply add_frames_spec in Ht.
      destruct Ht as (Hdata & _ & fs & Hfs & HF). simpl in Hdata, Hfs.
      rewrite Hf in Hfs. simpl in Hfs. rewrite Hdata, Hfs.
      split; [exact Hnew|]. exists ys. split; [reflexivity|].
      clear -HF. induction HF as [|y f ys fs (ts & Hts & ->) _ IH];
        constructor; [|exact IH].
      exists ts. split; [reflexivity|].
      apply category_traces_inv in Hts. destruct Hts as (new & -> & Hn).
      exact Hn.
    + inv_Ok Ht. simpl. auto.
  - inv_bind_as Ht tmpl Htmpl. inv_bind_as Ht v Hv.
    rewrite Hd in Ht. simpl in Ht.
    destruct (given (time_column a)).
    + inv_bind_as Ht ys Hys. destruct years as [ys'|]; [|discriminate].
      inv_Ok Hys. apply add_frames_spec in Ht.
      destruct Ht as (Hdata & _ & fs & Hfs & HF). simpl in Hdata, Hfs.
      rewrite Hf in Hfs. simpl in Hfs. rewrite Hdata, Hfs.
      split; [exists tmpl, v; auto|]. exists ys. split; [reflexivity|].
      clear -HF. induction HF as [|y f ys fs (ts & Hts & ->) _ IH];
        constructor; [|exact IH].
      inv_bind_as Hts tmpl Htmpl. inv_bind_as Hts v Hv. inv_Ok Hts.
      exists tmpl, v. auto.
    + inv_Ok Ht. simpl. split; [exists tmpl, v; auto | exact Hf].
Qed.

End TracesOf.

Section TraceFields.

Context `{PyRuntime}.

(** The fields of a trace that do not depend on the data. *)
Lemma getTrace_fields (grid : Grid) (template x y bubble : string)
  (z size : option string) (sizeref : pyval) (scale : num)
  (opacity border : option num) (color colorscale : option string)
  (show_colorbar : bool) (colorbar_title : option string) (category : scalar)
  (t : dict) :
  getTrace grid template x y bubble z size sizeref scale opacity border
    color colorscale show_colorbar colorbar_title category = Ok t ->
  let v := VDict (mark3d z t) in
  trace_field v "mode" = Some (vstr "markers")
  /\ trace_field v "type"
     = (if given z then Some (vstr "scatter3d") else None)
  /\ trace_has v "z" = given z
  /\ trace_field v "name"
     = (if py_truthy category then Some (VScalar category) else None)
  /\ marker_field v "opacity" = optional_value opacity (fun o => o)
  /\ marker_field v "line"
     = optional_value border (fun w => VDict [("width", w)])
  /\ marker_field v "sizemode"
     = (if given size then Some (vstr "area") else None)
  /\ marker_field v "sizeref" = (if given size then Some sizeref else None)
  /\ (given size = false ->
      exists s, num_mul (NInt 10) scale = Ok s
                /\ marker_field v "size" = Some (VScalar (num_scalar s)))
  /\ marker_field v "colorbar"
     = (if given color
        then Some (VDict [("title", vopt_str colorbar_title)]) else None)
  /\ marker_field v "colorscale"
     = (if given color then Some (vopt_str colorscale) else None)
  /\ trace_has v "showscale" = false
  /\ marker_field v "showscale" = None.
Proof.
  intros Hg v. subst v. apply getTrace_inv in Hg.
  destruct Hg as (xv & yv & tv & zpart & sizepart & colorpart & _ & _ & _
                  & Hz & Hs & Hc & ->).
  unfold mark3d, trace_has, trace_field, marker_field, optional_value,
    opacity_entry, line_entry, optional_entry.
  destruct (given z);
    [destruct Hz as (zv & _ & ->) | subst zpart];
    (destruct (given size);
     [destruct Hs as (sv & _ & ->) | destruct Hs as (s & Hs & ->)]);
    (destruct (given color);
     [destruct Hc as (cv & _ & ->) | subst colorpart]);
    destruct (py_truthy category);
    (destruct opacity as [o|]; [destruct (num_truthy o)|]);
    (destruct border as [w|]; [destruct (num_truthy w)|]);
    simpl; repeat split; try discriminate; eauto.
Qed.

End TraceFields.

(* ================================================================= *)
(** ** Composite keys *)

Lemma list_ascii_of_string_app (s t : string) :
  list_ascii_of_string (s ++ t)
  = list_ascii_of_string s ++ list_ascii_of_string t.
Proof. induction s as [|c s IH]; simpl; [reflexivity | now rewrite IH]. Qed.

Lemma list_ascii_of_string_inj (s t : string) :
  list_ascii_of_string s = list_ascii_of_string t -> s = t.
Proof.
  intros E. rewrite <- (string_of_list_ascii_of_string s),
    <- (string_of_list_ascii_of_string t). now rewrite E.
Qed.

Lemma append_inv_tail (s1 s2 t : string) :
  (s1 ++ t)%string = (s2 ++ t)%string -> s1 = s2.
Proof.
  intros E. apply list_ascii_of_string_inj.
  apply (f_equal list_ascii_of_string) in E.
  rewrite !list_ascii_of_string_app in E. now apply app_inv_tail in E.
Qed.

(** Two keys agree only on equal fields when the first fields have no
    separator. *)
Lemma split_at_plus (s1 s2 r1 r2 : string) :
  plus_free s1 -> plus_free s2 ->
  (s1 ++ "+" ++ r1)%string = (s2 ++ "+" ++ r2)%string ->
  s1 = s2 /\ r1 = r2.
Proof.
  revert s2. induction s1 as [|c s1 IH]; intros [|c2 s2] P1 P2 E; simpl in E.
  - inv_Ok E. auto.
  - injection E as E1 E2. subst c2. exfalso. apply (P2 "+"%char); simpl; auto.
  - injection E as E1 E2. subst c. exfalso. apply (P1 "+"%char); simpl; auto.
  - injection E as E1 E2. subst c2.
    destruct (IH s2) as [-> ->]; auto.
    + intros c' Hc'. apply P1. simpl. auto.
    + intros c' Hc'. apply P2. simpl. auto.
Qed.

Lemma string_of_uint_plus_free (d : Decimal.uint) :
  plus_free (NilZero.string_of_uint d).
Proof.
  assert (Hd : plus_free (NilEmpty.string_of_uint d)).
  { induction d; intros c Hc; simpl in Hc;
      try contradiction;
      (destruct Hc as [<-|Hc]; [discriminate | now apply IHd]). }
  destruct d; try exact Hd.
  intros c [<-|[]]. discriminate.
Qed.

Lemma string_of_Z_plus_free (z : Z) : plus_free (string_of_Z z).
Proof.
  unfold string_of_Z, NilZero.string_of_int.
  destruct (Z.to_int z) as [d|d].
  - apply string_of_uint_plus_free.
  - intros c [<-|Hc]; [discriminate|].
    now apply (string_of_uint_plus_free d).
Qed.

Lemma string_of_Z_inj (x y : Z) : string_of_Z x = string_of_Z y -> x = y.
Proof.
  unfold string_of_Z. intros E.
  assert (Hn : forall z, Z.to_int z <> Decimal.Pos Decimal.Nil
                         /\ Z.to_int z <> Decimal.Neg Decimal.Nil).
  { intros [|p|p]; simpl; split; try discriminate;
      intros E'; injection E' as E';
      now apply DecimalPos.Unsigned.to_uint_nonnil in E'. }
  apply to_int_inj.
  assert (Some (Z.to_int x) = Some (Z.to_int y)) as E'.
  { rewrite <- (NilZero.isi (Z.to_int x)), <- (NilZero.isi (Z.to_int y));
      try apply Hn. now rewrite E. }
  now injection E'.
Qed.

(* ================================================================= *)
(** ** From the grid to the trace *)

(** A value read from a grid is the subset of a visited combination
    with the key asked for. *)
Lemma grid_value_expected (guarded : bool) (cands : list candidate)
  (template : string) (args : list string) (v : pyval) :
  grid_value (expected_grid guarded cands) template args = Ok v ->
  exists k vals,
    str_format template args = Ok k
    /\ In (k, Some vals) cands
    /\ v = vscalars vals.
Proof.
  unfold grid_value. intros Hg.
  destruct (expected_grid guarded cands) as [|r0 g] eqn:E; [discriminate|].
  inv_bind_as Hg k Hk.
  destruct (find (fun r => String.eqb (key r) k) (r0 :: g)) as [r|] eqn:F;
    [|discriminate].
  inv_Ok Hg. apply find_some in F. destruct F as [Hin Hkey].
  apply String.eqb_eq in Hkey. rewrite <- E in Hin.
  destruct (expected_grid_holds guarded cands) as (_ & Hall & _).
  destruct (Hall r Hin) as [Hc _]. rewrite Hkey in Hc. eauto.
Qed.

Section TraceData.

Context `{PyRuntime}.

(** The fields of a trace that hold data, each with the grid lookup it
    comes from. *)
Lemma getTrace_data (grid : Grid) (template x y bubble : string)
  (z size : option string) (sizeref : pyval) (scale : num)
  (opacity border : option num) (color colorscale : option string)
  (show_colorbar : bool) (colorbar_title : option string) (category : scalar)
  (t : dict) :
  getTrace grid template x y bubble z size sizeref scale opacity border
    color colorscale show_colorbar colorbar_title category = Ok t ->
  let v := VDict (mark3d z t) in
  (exists xv, grid_value grid template [x; py_str category] = Ok xv
              /\ trace_field v "x" = Some xv)
  /\ (exists yv, grid_value grid template [y; py_str category] = Ok yv
                 /\ trace_field v "y" = Some yv)
  /\ (exists tv, grid_value grid template [bubble; py_str category] = Ok tv
                 /\ trace_field v "text" = Some tv)
  /\ (given z = true ->
      exists zv, grid_value grid template [name_of z; py_str category] = Ok zv
                 /\ trace_field v "z" = Some zv)
  /\ (given size = true ->
      exists sv, grid_value grid template [name_of size; py_str category]
                   = Ok sv
                 /\ marker_field v "size" = Some sv)
  /\ (given color = true ->
      exists cv, grid_value grid template [name_of color] = Ok cv
                 /\ marker_field v "color" = Some cv).
Proof.
  intros Hg v. subst v. apply getTrace_inv in Hg.
  destruct Hg as (xv & yv & tv & zpart & sizepart & colorpart & Hx & Hy & Ht
                  & Hz & Hs & Hc & ->).
  unfold mark3d, trace_field, marker_field, opacity_entry, line_entry,
    optional_entry.
  destruct (given z);
    [destruct Hz as (zv & Hz & ->) | subst zpart];
    (destruct (given size);
     [destruct Hs as (sv & Hs & ->) | destruct Hs as (s & Hs & ->)]);
    (destruct (given color);
     [destruct Hc as (cv & Hc & ->) | subst colorpart]);
    destruct (py_truthy category);
    (destruct opacity as [o|]; [destruct (num_truthy o)|]);
    (destruct border as [w|]; [destruct (num_truthy w)|]);
    simpl; repeat split; try discriminate; eauto.
Qed.

(** A trace built from the grid of visited combinations shows the rows
    of [subset] when every combination filed under one of its keys holds
    the cells [subset] gives. *)
Lemma getTrace_shows (a : bubble_args) (guarded : bool)
  (cands : list candidate) (tmpl : string) (sizeref : pyval)
  (color colorscale : option string) (sc : bool) (cbt : option string)
  (category : scalar) (t : dict) (subset : string -> option (list scalar)) :
  getTrace (expected_grid guarded cands) tmpl
    (x_column a) (y_column a) (bubble_column a) (z_column a) (size_column a)
    sizeref (scale_bubble a) (marker_opacity a) (marker_border_width a)
    color colorscale sc cbt category = Ok t ->
  (forall col k vals,
     In col (trace_columns a) ->
     str_format tmpl [col; py_str category] = Ok k ->
     In (k, Some vals) cands -> subset col = Some vals) ->
  (forall k vals,
     given color = true ->
     str_format tmpl [name_of color] = Ok k ->
     In (k, Some vals) cands -> subset (name_of color) = Some vals) ->
  trace_shows a color subset (VDict (mark3d (z_column a) t)).
Proof.
  intros Hg Hcols Hcolor. apply getTrace_data in Hg.
  destruct Hg as ((xv & Gx & Fx) & (yv & Gy & Fy) & (tv & Gt & Ft)
                  & Hz & Hs & Hc).
  assert (Hfield : forall col field v,
            In col (trace_columns a) ->
            grid_value (expected_grid guarded cands) tmpl
              [col; py_str category] = Ok v ->
            field = Some v ->
            exists cells, subset col = Some cells
                          /\ field = Some (vscalars cells)).
  { intros col field v Hin Hv ->. apply grid_value_expected in Hv.
    destruct Hv as (k & vals & Hk & Hcand & ->).
    exists vals. split; [|reflexivity]. eapply Hcols; eauto. }
  unfold trace_shows, trace_columns in *.
  split; [eapply Hfield; eauto; simpl; auto|].
  split; [eapply Hfield; eauto; simpl; auto|].
  split; [eapply Hfield; eauto; simpl; auto|].
  split; [|split].
  - intros G. destruct (Hz G) as (zv & Gz & Fz).
    eapply Hfield; eauto. rewrite G. simpl. auto.
  - intros G. destruct (Hs G) as (sv & Gs & Fs).
    eapply Hfield; eauto. rewrite G. apply in_or_app. right.
    apply in_or_app. right. simpl. auto.
  - intros G. destruct (Hc G) as (cv & Gc & Fc).
    apply grid_value_expected in Gc.
    destruct Gc as (k & vals & Hk & Hcand & ->).
    exists vals. split; [|exact Fc]. eapply Hcolor; eauto.
Qed.

End TraceData.

Section KeysToSubsets.

Context `{PyRuntime}.

Lemma is_int_inv (x : scalar) : is_int x = true -> exists z, x = SInt z.
Proof. destruct x; try discriminate. eauto. Qed.

Lemma is_text_inv (x : scalar) : is_text x = true -> exists s, x = SStr s.
Proof. destruct x; try discriminate. eauto. Qed.

(** The template of a time value. *)
Lemma time_template (y : Z) (rest tmpl : string) (holes : list string) :
  str_format rest holes = Ok rest ->
  str_format ("{}" ++ rest) (py_str (SInt y) :: holes) = Ok tmpl ->
  tmpl = (string_of_Z y ++ rest)%string.
Proof.
  intros Hrest Ht. simpl in Ht. rewrite Hrest in Ht. simpl in Ht.
  now inv_Ok Ht.
Qed.

(** Without time and categories, a key is the key of one column. *)
Lemma plain_key_subset (ds : DataFrame) (cols : list string)
  (tcol : option string) (years : option (list scalar))
  (col : string) (tail : list string) (k : string) (vals : list scalar) :
  given tcol = false ->
  str_format "{}_grid" (col :: tail) = Ok k ->
  In (k, Some vals) (makeGrid_candidates ds cols tcol years) ->
  whole_column ds col = Some vals.
Proof.
  unfold makeGrid_candidates. intros -> Hk Hin. simpl in Hk. inv_Ok Hk.
  apply in_map_iff in Hin. destruct Hin as (col' & E & _).
  injection E as Ek Ev. unfold plain_key in Ek.
  apply append_inv_tail in Ek. now subst col'.
Qed.

(** With integer time values, a key is the key of one time value and
    one column. *)
Lemma time_key_subset (ds : DataFrame) (cols : list string)
  (tcol : option string) (ys : list scalar) (y : Z) (col : string)
  (tail : list string) (tmpl k : string) (vals : list scalar) :
  given tcol = true ->
  forallb is_int ys = true ->
  str_format "{}+{}_grid" [py_str (SInt y); "{}"] = Ok tmpl ->
  str_format tmpl (col :: tail) = Ok k ->
  In (k, Some vals) (makeGrid_candidates ds cols tcol (Some ys)) ->
  time_subset ds (name_of tcol) (SInt y) col = Some vals.
Proof.
  unfold makeGrid_candidates. intros -> Hint Ht Hk Hin.
  apply (time_template y "+{}_grid" tmpl ["{}"]) in Ht; [|reflexivity].
  subst tmpl. rewrite str_format_prefix in Hk by apply string_of_Z_brace_free.
  simpl in Hk. inv_Ok Hk.
  apply in_flat_map in Hin. destruct Hin as (year' & Hy' & Hin).
  apply in_map_iff in Hin. destruct Hin as (col' & E & _).
  injection E as Ek Ev. simpl in Hy'.
  destruct (is_int_inv year') as [y' ->].
  { rewrite forallb_forall in Hint. now apply Hint. }
  unfold time_key in Ek. simpl in Ek.
  apply (split_at_plus (string_of_Z y') (string_of_Z y)) in Ek;
    try apply string_of_Z_plus_free.
  destruct Ek as [Ey Ec]. apply string_of_Z_inj in Ey.
  apply append_inv_tail in Ec. now subst.
Qed.

(** With text categories and column names without [+], a key is the key
    of one column and one category. *)
Lemma category_key_subset (ds : DataFrame) (cols : list string)
  (tcol : option string) (ccol : string) (years : option (list scalar))
  (cats : list scalar) (col : string) (c : scalar) (k : string)
  (vals : list scalar) :
  given tcol = false ->
  forallb is_text cats = true ->
  (forall col', In col' cols -> plus_free col') ->
  plus_free col -> In c cats ->
  str_format "{}+{}_grid" [col; py_str c] = Ok k ->
  In (k, Some vals)
    (makeGridWithCategories_candidates ds cols tcol ccol years (Some cats)) ->
  category_subset ds ccol c col = Some vals.
Proof.
  unfold makeGridWithCategories_candidates.
  intros -> Htext Hcols Hcol Hc Hk Hin. simpl in Hk. inv_Ok Hk.
  apply in_flat_map in Hin. destruct Hin as (c' & Hc' & Hin).
  apply in_map_iff in Hin. destruct Hin as (col' & E & Hcol').
  injection E as Ek Ev. simpl in Hc'.
  rewrite forallb_forall in Htext.
  destruct (is_text_inv c' (Htext _ Hc')) as [s' ->].
  destruct (is_text_inv c (Htext _ Hc)) as [s ->].
  unfold category_key in Ek. simpl in Ek.
  apply (split_at_plus col' col) in Ek; auto.
  destruct Ek as [Ecol Es]. apply append_inv_tail in Es. now subst.
Qed.

(** The same with integer time values. *)
Lemma time_category_key_subset (ds : DataFrame) (cols : list string)
  (tcol : option string) (ccol : string) (ys cats : list scalar) (y : Z)
  (col : string) (c : scalar) (tmpl k : string) (vals : list scalar) :
  given tcol = true ->
  forallb is_int ys = true ->
  forallb is_text cats = true ->
  (forall col', In col' cols -> plus_free col') ->
  plus_free col -> In c cats ->
  str_format "{}+{}+{}_grid" [py_str (SInt y); "{}"; "{}"] = Ok tmpl ->
  str_format tmpl [col; py_str c] = Ok k ->
  In (k, Some vals)
    (makeGridWithCategories_candidates ds cols tcol ccol (Some ys)
       (Some cats)) ->
  time_category_subset ds (name_of tcol) ccol (SInt y) c col = Some vals.
Proof.
  unfold makeGridWithCategories_candidates.
  intros -> Hint Htext Hcols Hcol Hc Ht Hk Hin.
  apply (time_template y "+{}+{}_grid" tmpl ["{}"; "{}"]) in Ht;
    [|reflexivity].
  subst tmpl. rewrite str_format_prefix in Hk by apply string_of_Z_brace_free.
  simpl in Hk. inv_Ok Hk.
  apply in_flat_map in Hin. destruct Hin as (year' & Hy' & Hin).
  apply in_flat_map in Hin. destruct Hin as (c' & Hc' & Hin).
  apply in_map_iff in Hin. destruct Hin as (col' & E & Hcol').
  injection E as Ek Ev. simpl in Hy', Hc'.
  rewrite forallb_forall in Hint, Htext.
  destruct (is_int_inv year' (Hint _ Hy')) as [y' ->].
  destruct (is_text_inv c' (Htext _ Hc')) as [s' ->].
  destruct (is_text_inv c (Htext _ Hc)) as [s ->].
  unfold time_category_key in Ek. simpl in Ek.
  apply (split_at_plus (string_of_Z y') (string_of_Z y)) in Ek;
    try apply string_of_Z_plus_free.
  destruct Ek as [Ey Ek]. apply string_of_Z_inj in Ey.
  apply (split_at_plus col' col) in Ek; auto.
  destruct Ek as [Ecol Es]. apply append_inv_tail in Es. now subst.
Qed.

End KeysToSubsets.

Lemma Forall2_impl_in {A B : Type} (P Q : A -> B -> Prop) (xs : list A)
  (ys : list B) :
  Forall2 P xs ys ->
  (forall x y, In x xs -> P x y -> Q x y) ->
  Forall2 Q xs ys.
Proof.
  induction 1 as [|x y xs ys Hxy _ IH]; intros Himp; constructor.
  - apply Himp; simpl; auto.
  - apply IH. intros x' y' Hin. apply Himp. simpl. auto.
Qed.

Section FigureTraces.

Context `{PyRuntime}.

Lemma min_from_in (xs : list scalar) (cur m : scalar) :
  min_from cur xs = Ok m -> In m (cur :: xs).
Proof.
  revert cur. induction xs as [|x xs IH]; simpl; intros cur Hm.
  - inv_Ok Hm. auto.
  - inv_bind_as Hm less Hless. apply IH in Hm.
    destruct less; destruct Hm as [<-|Hm]; auto.
Qed.

Lemma py_min_in (xs : list scalar) (m : scalar) :
  py_min xs = Ok m -> In m xs.
Proof.
  destruct xs as [|x xs]; [discriminate|]. apply min_from_in.
Qed.

Lemma column_names_trace_columns (a : bubble_args) (col : string) :
  In col (column_names_of a None) -> In col (trace_columns a).
Proof.
  unfold trace_columns, column_names_of.
  destruct (given (z_column a)), (given (size_column a));
    simpl; intuition.
Qed.

(** The traces and frames of a returned figure, each with the call of
    [getTrace] that built it on the grid of the visited combinations. *)
Lemma bubbleplot_traces_inv (ds : DataFrame) (a : bubble_args)
  (fig : Figure) :
  bubbleplot ds a = Ok fig ->
  exists category color years categories cands sizeref,
    classify_color ds (color_column a) = Ok (category, color)
    /\ (if given (time_column a)
        then exists tc,
               get_column ds (name_of (time_column a)) = Ok tc
               /\ years = Some (unique (cells tc))
        else years = None)
    /\ (if given category
        then exists cc,
               get_column ds (name_of category) = Ok cc
               /\ categories = unique (cells cc)
               /\ cands = makeGridWithCategories_candidates ds
                            (column_names_of a color) (time_column a)
                            (name_of category) years (Some categories)
        else cands = makeGrid_candidates ds (column_names_of a color)
                       (time_column a) years)
    /\ let grid :=
         expected_grid (given category || given (time_column a)) cands in
       if given category then
         Forall2 (fun c v =>
           exists tmpl,
             base_template a years "{}+{}+{}_grid" "{}+{}_grid" ["{}"; "{}"]
               = Ok tmpl
             /\ category_trace_of a grid sizeref tmpl c v)
           categories (data fig)
         /\ (if given (time_column a)
             then exists ys,
                    years = Some ys
                    /\ Forall2 (fun y f =>
                         exists ts,
                           f = frame ts y
                           /\ Forall2 (fun c v =>
                                exists tmpl,
                                  str_format "{}+{}+{}_grid"
                                    [py_str y; "{}"; "{}"] = Ok tmpl
                                  /\ category_trace_of a grid sizeref tmpl
                                       c v)
                                categories ts)
                         ys (frames fig)
             else frames fig = [])
       else
         (exists tmpl v,
            base_template a years "{}+{}_grid" "{}_grid" ["{}"] = Ok tmpl
            /\ plain_trace a grid sizeref color tmpl = Ok v
            /\ data fig = [v])
         /\ (if given (time_column a)
             then exists ys,
                    years = Some ys
                    /\ Forall2 (fun y f =>
                         exists tmpl v,
                           str_format "{}+{}_grid" [py_str y; "{}"] = Ok tmpl
                           /\ plain_trace a grid sizeref color tmpl = Ok v
                           /\ f = frame [v] y)
                         ys (frames fig)
             else frames fig = []).
Proof.
  intros Hb. apply bubbleplot_steps in Hb.
  destruct Hb as (category & color & years & ss & sb & categories & template
                  & grid & legend & fig0 & sd0 & sizeref & fig1 & sd1 & xr
                  & yr & l & Hcls & Htime & Hgrid & Hlay & _ & Htr & _ & _
                  & _ & ->).
  apply setLayout_spec in Hlay. destruct Hlay as (D0 & F0 & _).
  apply add_traces_inv in Htr; [|exact D0|exact F0].
  assert (Hfig : forall f : Figure,
            data (if ss
                  then with_layout (with_layout f l)
                         (dict_set l "sliders" (VList [VDict sd1]))
                  else with_layout f l) = data f
            /\ frames (if ss
                       then with_layout (with_layout f l)
                              (dict_set l "sliders" (VList [VDict sd1]))
                       else with_layout f l) = frames f).
  { intros f. destruct ss; auto. }
  destruct (Hfig fig1) as [-> ->]. clear Hfig.
  exists category, color, years, categories.
  exists (if given category
          then makeGridWithCategories_candidates ds
                 (column_names_of a color) (time_column a)
                 (name_of category) years (Some categories)
          else makeGrid_candidates ds (column_names_of a color)
                 (time_column a) years).
  exists sizeref. split; [exact Hcls|]. split.
  { destruct (given (time_column a)).
    - destruct Htime as (tc & Htc & -> & _). eauto.
    - tauto. }
  destruct (given category).
  - destruct Hgrid as (cc & Hcc & -> & -> & Hg & _).
    apply makeGridWithCategories_expected in Hg. subst grid.
    split; [eauto|]. exact Htr.
  - destruct Hgrid as (-> & -> & Hg & _).
    apply makeGrid_expected in Hg. subst grid.
    split; [reflexivity|]. exact Htr.
Qed.

End FigureTraces.

Lemma Forall2_in_l {A B : Type} (P : A -> B -> Prop) (xs : list A)
  (ys : list B) (x : A) :
  Forall2 P xs ys -> In x xs -> exists y, In y ys /\ P x y.
Proof.
  induction 1 as [|x0 y0 xs ys Hxy _ IH]; intros Hin; [contradiction|].
  destruct Hin as [<-|Hin].
  - exists y0. simpl. auto.
  - destruct (IH Hin) as (y & Hy & Hp). exists y. simpl. auto.
Qed.

(** Two lists related to one list by a functional relation are equal. *)
Lemma Forall2_functional {A B : Type} (P Q : A -> B -> Prop) (xs : list A)
  (ys zs : list B) :
  (forall x y z, P x y -> Q x z -> y = z) ->
  Forall2 P xs ys -> Forall2 Q xs zs -> ys = zs.
Proof.
  intros Hfun HP. revert zs.
  induction HP as [|x y xs ys Hxy _ IH]; intros zs HQ; inversion HQ; subst.
  - reflexivity.
  - f_equal; eauto.
Qed.

(* ================================================================= *)
(** ** Missing columns *)



Section Missing.

Context `{PyRuntime}.




End Missing.

(* ================================================================= *)
(** ** Errors of the layout and of the ranges *)

Section LayoutErrors.

Context `{PyRuntime}.

(** [setLayout] with the slider shown raises what [min] raises on the
    slider scale. *)
Lemma setLayout_slider_raises (xt yt zt t : option string)
  (xl yl zl axes3D : bool) (scale : option (list scalar))
  (sb legend : bool) (w h : option Z) (e : exn) :
  (values <- match scale with
             | Some ys => Ok ys
             | None => Raise TypeError
             end ;; py_min values) = Raise e ->
  setLayout xt yt zt t xl yl zl axes3D true scale sb legend w h = Raise e.
Proof.
  intros Hmin. unfold setLayout.
  assert (Haxes : exists f,
            (if axes3D
             then set3Daxes {| data := []; layout := []; frames := [] |}
                    xt yt zt xl yl zl
             else set2Daxes {| data := []; layout := []; frames := [] |}
                    xt yt xl yl) = Ok f).
  { destruct axes3D.
    - destruct (set3Daxes_returns {| data := []; layout := []; frames := [] |}
                  xt yt zt xl yl zl) as (f & Hf & _). eauto.
    - destruct (set2Daxes_returns {| data := []; layout := []; frames := [] |}
                  xt yt xl yl) as (f & Hf & _). eauto. }
  destruct Haxes as [f ->]. cbn [bind]. unfold addSlider.
  destruct scale as [ys|]; cbn [bind] in *.
  - rewrite Hmin. reflexivity.
  - inv_Ok Hmin. reflexivity.
Qed.

Lemma min_from_text (xs : list scalar) (s : string) :
  forallb is_text xs = true ->
  exists m, min_from (SStr s) xs = Ok (SStr m).
Proof.
  revert s. induction xs as [|x xs IH]; simpl; intros s Hxs; [eauto|].
  apply andb_prop in Hxs. destruct Hxs as [Hx Hxs].
  destruct (is_text_inv x Hx) as [s' ->]. simpl.
  destruct (String.ltb s' s); apply IH; exact Hxs.
Qed.

End LayoutErrors.

(* ================================================================= *)
(** ** A bubble scale of zero *)


Section ZeroScale.

Context `{PyRuntime}.


End ZeroScale.

(* ================================================================= *)
(** ** Fixed entries of the layout, and rows behind a grid entry *)

Section LayoutFixed.

Context `{PyRuntime}.

Lemma setLayout_fixed (xt yt zt t : option string) (xl yl zl axes3D ss : bool)
  (scale : option (list scalar)) (sb legend : bool) (w h : option Z)
  (fig : Figure) (sd : dict) :
  setLayout xt yt zt t xl yl zl axes3D ss scale sb legend w h = Ok (fig, sd) ->
  dict_get (layout fig) "title" = Some (vopt_str t)
  /\ dict_get (layout fig) "hovermode" = Some (vstr "closest")
  /\ dict_get (layout fig) "margin"
     = Some (VDict [("b", vint 50); ("t", vint 50); ("pad", vint 5)]).
Proof.
  unfold setLayout. intros Hs. inv_bind_as Hs f Hf. inv_bind_as Hs p Hp.
  destruct p as [f1 sd1]. inv_Ok Hs.
  destruct sb; unfold addButton; simpl;
    (destruct ss;
     [unfold addSlider in Hp; inv_bind_as Hp vs Hvs; inv_bind_as Hp i Hi;
      inv_Ok Hp
     |inv_Ok Hp]);
    simpl; destruct (given_int h), (given_int w);
    repeat split; dict_get_simpl; reflexivity.
Qed.

End LayoutFixed.

(** A value read from a grid built under the size check has a cell. *)
Lemma grid_value_expected_nonempty (cands : list candidate)
  (template : string) (args : list string) (v : pyval) :
  grid_value (expected_grid true cands) template args = Ok v ->
  exists k vals,
    str_format template args = Ok k
    /\ In (k, Some vals) cands
    /\ vals <> [].
Proof.
  unfold grid_value. intros Hg.
  destruct (expected_grid true cands) as [|r0 g] eqn:E; [discriminate|].
  inv_bind_as Hg k Hk.
  destruct (find (fun r => String.eqb (key r) k) (r0 :: g)) as [r|] eqn:F;
    [|discriminate].
  inv_Ok Hg. apply find_some in F. destruct F as [Hin Hkey].
  apply String.eqb_eq in Hkey. rewrite <- E in Hin.
  destruct (expected_grid_holds true cands) as (_ & Hall & _).
  destruct (Hall r Hin) as [Hc Hv]. rewrite Hkey in Hc.
  exists k, (value r). split; [exact Hk|]. split; [exact Hc|].
  now apply Hv.
Qed.

(** Rows that two selectors keep are rows on which both hold. *)
Lemma values_where2_pair (p q : scalar -> bool)
  (sel1 sel2 vals : list scalar) :
  values_where2 p q sel1 sel2 vals <> [] ->
  existsb (fun row => (p (fst row) && q (snd row))%bool) (combine sel1 sel2)
  = true.
Proof.
  unfold values_where2. intros Hne.
  destruct (filter _ (combine (combine sel1 sel2) vals)) as [|row rows] eqn:F;
    [now destruct Hne|].
  assert (Hin : In row (filter
                  (fun row => (p (fst (fst row)) && q (snd (fst row)))%bool)
                  (combine (combine sel1 sel2) vals))).
  { rewrite F. simpl. auto. }
  apply filter_In in Hin. destruct Hin as [Hin Hpq].
  apply existsb_exists. exists (fst row). split; [|exact Hpq].
  destruct row as [pr v]. simpl. eapply in_combine_l. exact Hin.
Qed.

(** ** The marker color of the traces *)


Section MarkerColor.

Context `{PyRuntime}.


End MarkerColor.
(* ================================================================= *)
(** * The claims *)

Section Claims.

Context `{PyRuntime}.






(** C6 (amended).  [setRange] on a non-empty column of numbers returns
    [[min(values) * 0.7, max(values) * 1.4]], where [min] and [max] are
    Python's and pick cells of the column: for a column of integers the
    least and the greatest of them as floats; for a column of floats two
    of its cells, which are at most, and at least, every cell when the
    column holds no NaN.  With the log flag, on a column of one of NumPy's
    numeric dtypes, it returns [[min(logs) * 0.97, max(logs) * 1.04]] for
    the logarithms [np.log10] computes, [min] and [max] picking a least
    and a greatest of them when none of them is a NaN.  The result depends
    on nothing but the two arguments. *)
Theorem setRange_value :
  (forall values,
     cells values <> [] ->
     forallb numeric_cell (cells values) = true ->
     exists lo hi,
       py_min (cells values) = Ok lo /\ py_max (cells values) = Ok hi
       /\ In lo (cells values) /\ In hi (cells values)
       /\ setRange values false
          = Ok (VList [vfloat (float_of_cell lo * 0.7);
                       vfloat (float_of_cell hi * 1.4)]))
  /\ (forall d z zs,
        forallb numeric_cell (map SInt (z :: zs)) = true ->
        setRange {| dtype := d; cells := map SInt (z :: zs) |} false
        = Ok (VList [vfloat (Z2float (least_of z zs) * 0.7);
                     vfloat (Z2float (greatest_of z zs) * 1.4)]))
  /\ (forall d f fs,
        exists lo hi,
          In lo (f :: fs) /\ In hi (f :: fs)
          /\ (no_nan (f :: fs) ->
              least lo (f :: fs) /\ greatest hi (f :: fs))
          /\ setRange {| dtype := d; cells := map SFloat (f :: fs) |} false
             = Ok (VList [vfloat (lo * 0.7); vfloat (hi * 1.4)]))
  /\ (forall values fmt,
        cells values <> [] ->
        forallb numeric_cell (cells values) = true ->
        log10_format (dtype values) = Some fmt ->
        let logs := log10_floats fmt (cells values) in
        exists lo hi,
          py_min (map SFloat logs) = Ok (SFloat lo)
          /\ py_max (map SFloat logs) = Ok (SFloat hi)
          /\ In lo logs /\ In hi logs
          /\ (no_nan logs -> least lo logs /\ greatest hi logs)
          /\ setRange values true
             = Ok (VList [vfloat (lo * 0.97); vfloat (hi * 1.04)]))
  /\ (forall values logscale r1 r2,
        setRange values logscale = r1 -> setRange values logscale = r2 ->
        r1 = r2).
Proof.
  repeat apply conj.
  - intros values Hne Hnum. now apply setRange_linear.
  - intros d z zs Hnum. now apply setRange_ints.
  - intros d f fs. apply setRange_floats.
  - intros values fmt Hne Hnum Hd. now apply setRange_log_floats.
  - congruence.
Qed.

(** C7 (amended).  The log-scale range computation raises no error on
    values that are zero or negative.  On every non-empty column of
    numbers of one of NumPy's numeric dtypes [setRange] with the log flag
    returns [[min(logs) * 0.97, max(logs) * 1.04]] for the logarithms
    [np.log10] computes, with Python's [min] and [max]; the logarithm of
    a zero is minus infinity and that of a negative value a NaN.  With a
    zero in the column and no NaN among the logarithms the lower bound is
    minus infinity; when the first value is negative both bounds are
    NaN. *)
Theorem log_range_returns :
  (forall values fmt,
     cells values <> [] ->
     forallb numeric_cell (cells values) = true ->
     log10_format (dtype values) = Some fmt ->
     exists lo hi,
       py_min (map SFloat (log10_floats fmt (cells values))) = Ok (SFloat lo)
       /\ py_max (map SFloat (log10_floats fmt (cells values)))
          = Ok (SFloat hi)
       /\ setRange values true
          = Ok (VList [vfloat (lo * 0.97); vfloat (hi * 1.04)]))
  /\ (forall fmt x, (x =? 0)%float = true -> np_log10 fmt x = neg_infinity)
  /\ (forall fmt x, (x <? 0)%float = true -> np_log10 fmt x = nan)
  /\ (forall values fmt x,
        forallb numeric_cell (cells values) = true ->
        log10_format (dtype values) = Some fmt ->
        In x (cells values) -> (float_of_cell x =? 0)%float = true ->
        no_nan (log10_floats fmt (cells values)) ->
        exists hi,
          greatest hi (log10_floats fmt (cells values))
          /\ setRange values true
             = Ok (VList [vfloat neg_infinity; vfloat (hi * 1.04)]))
  /\ (forall values fmt x rest,
        cells values = x :: rest ->
        forallb numeric_cell (cells values) = true ->
        log10_format (dtype values) = Some fmt ->
        (float_of_cell x <? 0)%float = true ->
        setRange values true = Ok (VList [vfloat nan; vfloat nan])).
Proof.
  repeat apply conj.
  - intros values fmt Hne Hnum Hd.
    destruct (setRange_log_floats values fmt Hne Hnum Hd)
      as (lo & hi & Hlo & Hhi & _ & _ & _ & Hr). eauto.
  - apply np_log10_zero.
  - apply np_log10_negative.
  - intros values fmt x Hnum Hd Hin Hx Hn.
    now apply (setRange_log_zero values fmt x).
  - intros values fmt x rest Hc Hnum Hd Hx.
    now apply (setRange_log_negative values fmt x rest).
Qed.

(** C8.  Without a time, size and color column (hence without a category
    column), [bubbleplot] returns a figure on every well-formed call, and
    a figure it returns has exactly one trace, no frame, and neither a
    slider nor a button entry in its layout, whatever [show_slider] and
    [show_button] were. *)
Theorem plain_figure (ds : DataFrame) (a : bubble_args) :
  given (time_column a) = false ->
  given (size_column a) = false ->
  given (color_column a) = false ->
  (well_formed_call ds a -> exists fig, bubbleplot ds a = Ok fig)
  /\ (forall fig,
        bubbleplot ds a = Ok fig ->
        (exists trace, data fig = [trace])
        /\ frames fig = []
        /\ dict_has (layout fig) "sliders" = false
        /\ dict_has (layout fig) "updatemenus" = false).
Proof.
  intros Ht _ Hc. split; [apply bubbleplot_returns|].
  intros fig Hb. apply bubbleplot_inv in Hb.
  destruct Hb as (category & color & years & categories & ss & sb & scale
                  & grid & sizeref & fig0 & sd0 & Hcls & Htime & _ & Hlay & _
                  & ((Hlen & _) & Hf) & Hkeys & Hsl).
  apply classify_color_cases in Hcls.
  destruct Hcls as [[-> ->]|(_ & _ & Hc' & _)]; [|congruence].
  rewrite Ht in Htime, Hf. destruct Htime as (_ & -> & ->).
  simpl in Hlen. repeat split; auto.
  - destruct (data fig) as [|t [|t' ts]]; try discriminate. eauto.
  - unfold dict_has.
    rewrite Hkeys by (unfold axis_keys; simpl; intuition discriminate).
    apply setLayout_spec in Hlay.
    destruct Hlay as (_ & _ & _ & _ & _ & Hb & _). exact Hb.
Qed.

(** C9 (amended).  The layout that [setLayout] returns, and the layout of
    a figure that [bubbleplot] returns, has the key ['width'] exactly
    when a width was passed and is not zero, and then with that value;
    and likewise ['height']. *)
Theorem width_height_keys :
  (forall xt yt zt t xl yl zl axes3D ss scale sb legend w h fig sd,
     setLayout xt yt zt t xl yl zl axes3D ss scale sb legend w h
       = Ok (fig, sd) ->
     dict_get (layout fig) "width" = shown_size w
     /\ dict_get (layout fig) "height" = shown_size h)
  /\ (forall ds a fig,
        bubbleplot ds a = Ok fig ->
        dict_get (layout fig) "width" = shown_size (width a)
        /\ dict_get (layout fig) "height" = shown_size (height a)).
Proof.
  assert (Hshown : forall o, (if given_int o then Some (vint (int_of o))
                              else None) = shown_size o).
  { intros [z|]; simpl; [|reflexivity]. destruct (z =? 0); reflexivity. }
  split.
  - intros xt yt zt t xl yl zl axes3D ss scale sb legend w h fig sd Hs.
    apply setLayout_spec in Hs.
    destruct Hs as (_ & _ & _ & Hw & Hh & _).
    now rewrite Hw, Hh, !Hshown.
  - intros ds a fig Hb. apply bubbleplot_inv in Hb.
    destruct Hb as (category & color & years & categories & ss & sb & scale
                    & grid & sizeref & fig0 & sd0 & _ & _ & _ & Hlay & _
                    & _ & Hkeys & _).
    apply setLayout_spec in Hlay.
    destruct Hlay as (_ & _ & _ & Hw & Hh & _).
    rewrite !Hkeys by (unfold axis_keys; simpl; intuition discriminate).
    now rewrite Hw, Hh, !Hshown.
Qed.

(** C10.  The ['showlegend'] of a returned figure is the [show_legend]
    that was passed; when none was passed it is true exactly when the call
    has a category column. *)
Theorem legend_default (ds : DataFrame) (a : bubble_args) (fig : Figure) :
  bubbleplot ds a = Ok fig ->
  exists category color,
    classify_color ds (color_column a) = Ok (category, color)
    /\ dict_get (layout fig) "showlegend"
       = Some (vbool (match show_legend a with
                      | None => given category
                      | Some b => b
                      end)).
Proof.
  intros Hb. apply bubbleplot_inv in Hb.
  destruct Hb as (category & color & years & categories & ss & sb & scale
                  & grid & sizeref & fig0 & sd0 & Hcls & _ & _ & Hlay & _
                  & _ & Hkeys & _).
  exists category, color. split; [exact Hcls|].
  rewrite Hkeys by (unfold axis_keys; simpl; intuition discriminate).
  apply setLayout_spec in Hlay. tauto.
Qed.

End Claims.

(* ================================================================= *)
(** * The claims on concrete calls *)

Section Examples.

#[local] Existing Instance example_runtime.








(** The range of the integers 20, 10, 40, 30 and of the floats 2.5, 0.5,
    8, 4, whose least and greatest cells are neither first nor last; and
    the log-scale range of 100, 1, 1000, whose logarithms are 2, 0, 3. *)
Lemma setRange_value_witness :
  setRange (int_column [20; 10; 40; 30]) false
  = Ok (VList [vfloat 7; vfloat 56])
  /\ setRange (float_column [2.5; 0.5; 8; 4]%float) false
     = Ok (VList [vfloat (0.5 * 0.7); vfloat (8 * 1.4)])
  /\ setRange (int_column [100; 1; 1000]) true
     = Ok (VList [vfloat (0 * 0.97); vfloat (3 * 1.04)]).
Proof.
  split; [|split].
  - apply (proj1 (proj2 setRange_value) "int64" 20 [10; 40; 30]).
    reflexivity.
  - destruct (proj1 (proj2 (proj2 setRange_value)) "float64"
                2.5%float [0.5; 8; 4]%float)
      as (lo & hi & Ilo & Ihi & Hl & Hr).
    destruct Hl as [[_ Llo] [_ Lhi]].
    + intros x [<-|[<-|[<-|[<-|[]]]]]; reflexivity.
    + assert (lo = 0.5%float) as ->.
      { pose proof (Llo 0.5%float (or_intror (or_introl eq_refl))) as L.
        destruct Ilo as [<-|[<-|[<-|[<-|[]]]]];
          (reflexivity || (vm_compute in L; discriminate L)). }
      assert (hi = 8%float) as ->.
      { pose proof (Lhi 8%float (or_intror (or_intror (or_introl eq_refl))))
          as L.
        destruct Ihi as [<-|[<-|[<-|[<-|[]]]]];
          (reflexivity || (vm_compute in L; discriminate L)). }
      exact Hr.
  - destruct (proj1 (proj2 (proj2 (proj2 setRange_value)))
                (int_column [100; 1; 1000]) Double)
      as (lo & hi & _ & _ & Ilo & Ihi & Hl & Hr).
    + discriminate.
    + reflexivity.
    + reflexivity.
    + destruct Hl as [[_ Llo] [_ Lhi]].
      { intros x [<-|[<-|[<-|[]]]]; reflexivity. }
      assert (lo = 0%float) as ->.
      { pose proof (Llo 0%float (or_intror (or_introl eq_refl))) as L.
        destruct Ilo as [<-|[<-|[<-|[]]]];
          (reflexivity || (vm_compute in L; discriminate L)). }
      assert (hi = 3%float) as ->.
      { pose proof (Lhi 3%float (or_intror (or_intror (or_introl eq_refl))))
          as L.
        destruct Ihi as [<-|[<-|[<-|[]]]];
          (reflexivity || (vm_compute in L; discriminate L)). }
      exact Hr.
Defined.

(** C6 as stated fails for sequences that [setRange] cannot compute
    with: on text it raises [TypeError] (a text times a float), and so it
    does with the log flag on numbers held in a column of dtype [object],
    for which [np.log10] has no loop. *)
Lemma setRange_value_counterexample :
  setRange (text_column ["a"; "b"]) false = Raise TypeError
  /\ setRange {| dtype := "object"; cells := [SInt 1; SInt 10] |} true
     = Raise TypeError
  /\ setRange {| dtype := "object"; cells := [SInt 1; SInt 10] |} false
     = Ok (VList [vfloat (1 * 0.7); vfloat (10 * 1.4)]).
Proof. repeat split; reflexivity. Qed.

(** A column with a zero and a negative value: its log-scale range is
    returned.  With the negative value first both bounds are NaN; with a
    zero and no negative value the lower bound is minus infinity. *)
Lemma log_range_returns_witness :
  (exists rmin rmax,
     setRange (float_column [0; -1; 100]%float) true
     = Ok (VList [vfloat rmin; vfloat rmax]))
  /\ setRange (float_column [-1; 0; 100]%float) true
     = Ok (VList [vfloat nan; vfloat nan])
  /\ setRange (int_column [100; 0; 10]) true
     = Ok (VList [vfloat neg_infinity; vfloat (2 * 1.04)]).
Proof.
  split; [|split].
  - destruct (proj1 log_range_returns (float_column [0; -1; 100]%float)
                Double) as (lo & hi & _ & _ & Hr).
    + discriminate.
    + reflexivity.
    + reflexivity.
    + eauto.
  - apply (proj2 (proj2 (proj2 (proj2 log_range_returns)))
             (float_column [-1; 0; 100]%float) Double
             (SFloat (-1)) [SFloat 0; SFloat 100]); reflexivity.
  - destruct (proj1 (proj2 (proj2 (proj2 log_range_returns)))
                (int_column [100; 0; 10]) Double (SInt 0))
      as (hi & [Ihi Lhi] & Hr).
    + reflexivity.
    + reflexivity.
    + simpl. auto.
    + reflexivity.
    + intros x [<-|[<-|[<-|[]]]]; reflexivity.
    + assert (hi = 2%float) as ->.
      { pose proof (Lhi 2%float (or_introl eq_refl)) as L.
        destruct Ihi as [<-|[<-|[<-|[]]]];
          (reflexivity || (vm_compute in L; discriminate L)). }
      exact Hr.
Defined.

(** C7 as stated fails: the log-scale range of a column that holds a
    zero is returned, with minus infinity as its bounds, and that of a
    column that holds a negative value with NaN as its bounds; no error
    is raised. *)
Lemma log_range_counterexample :
  setRange (float_column [0%float]) true
  = Ok (VList [vfloat neg_infinity; vfloat neg_infinity])
  /\ setRange (float_column [(-1)%float]) true
     = Ok (VList [vfloat nan; vfloat nan]).
Proof. split; reflexivity. Qed.

(** The call with the three required columns only, slider and buttons
    left at their default [True]. *)
Lemma plain_figure_witness :
  exists fig,
    bubbleplot example_frame example_args = Ok fig
    /\ (exists trace, data fig = [trace])
    /\ frames fig = []
    /\ dict_has (layout fig) "sliders" = false
    /\ dict_has (layout fig) "updatemenus" = false.
Proof.
  eexists. split; [vm_compute; reflexivity|].
  apply (proj2 (plain_figure example_frame example_args
                  eq_refl eq_refl eq_refl)).
  vm_compute; reflexivity.
Defined.

(** A width of 300 is in the layout, a height that was not passed is
    not. *)
Lemma width_height_keys_witness :
  exists fig,
    bubbleplot example_frame (with_width example_args (Some 300)) = Ok fig
    /\ dict_get (layout fig) "width" = Some (vint 300)
    /\ dict_get (layout fig) "height" = None.
Proof.
  eexists. split; [vm_compute; reflexivity|].
  apply (proj2 width_height_keys example_frame
           (with_width example_args (Some 300))).
  vm_compute; reflexivity.
Defined.

(** C9 as stated fails: a width of 0 was passed, and the layout has no
    ['width']. *)
Lemma width_height_keys_counterexample :
  exists fig,
    bubbleplot example_frame (with_width example_args (Some 0)) = Ok fig
    /\ width (with_width example_args (Some 0)) = Some 0
    /\ dict_has (layout fig) "width" = false.
Proof.
  eexists. split; [vm_compute; reflexivity|]. split; reflexivity.
Qed.

(** No [show_legend] and no category column: the legend is off; with
    the text column as color column it is on. *)
Lemma legend_default_witness :
  (exists fig,
     bubbleplot example_frame example_args = Ok fig
     /\ dict_get (layout fig) "showlegend" = Some (vbool false))
  /\ (exists fig,
        bubbleplot example_panel (with_color example_args (Some "country"))
          = Ok fig
        /\ dict_get (layout fig) "showlegend" = Some (vbool true)).
Proof.
  split.
  - eexists. split; [vm_compute; reflexivity|].
    destruct (legend_default example_frame example_args _ eq_refl)
      as (category & color & Hc & Hl).
    vm_compute in Hc. inv_Ok Hc. exact Hl.
  - eexists. split; [vm_compute; reflexivity|].
    destruct (legend_default example_panel
                (with_color example_args (Some "country")) _ eq_refl)
      as (category & color & Hc & Hl).
    vm_compute in Hc. inv_Ok Hc. exact Hl.
Defined.

(** The example calls are well formed, so [bubbleplot_returns] speaks
    of them. *)
Ltac frame_rows :=
  let Hc := fresh "Hc" in
  intros ? ?; cbn [get_column];
  repeat match goal with
         | |- (if String.eqb ?k ?name then _ else _) = _ -> _ =>
             destruct (String.eqb k name);
             [intros Hc; inv_Ok Hc; reflexivity|]
         end;
  discriminate.

Ltac computable_range :=
  intros _; eexists; split; [reflexivity|];
  split; [reflexivity | intros G; discriminate G].

Ltac simple_field :=
  first [ eexists; reflexivity
        | computable_range
        | unfold column_if_given; cbn [given]; intros G; discriminate G
        | cbn [given]; intros G; discriminate G
        | intros c G; discriminate G ].

Lemma example_call_well_formed :
  well_formed_call example_frame (with_time example_args (Some "year")).
Proof.
  constructor; cbn [example_args with_time default_args x_column y_column
                    bubble_column z_column size_column color_column
                    time_column x_range y_range z_range x_logscale
                    y_logscale z_logscale scale_bubble name_of].
  - exists 3%nat. split; [discriminate|]. unfold example_frame. frame_rows.
  - simple_field.
  - simple_field.
  - simple_field.
  - simple_field.
  - simple_field.
  - simple_field.
  - intros _. eexists. split; reflexivity.
  - simple_field.
  - simple_field.
  - simple_field.
  - simple_field.
Qed.

Lemma example_panel_call_well_formed :
  well_formed_call example_panel
    (with_color (with_time example_args (Some "year")) (Some "country")).
Proof.
  constructor; cbn [example_args with_time with_color default_args x_column
                    y_column bubble_column z_column size_column color_column
                    time_column x_range y_range z_range x_logscale
                    y_logscale z_logscale scale_bubble name_of].
  - exists 4%nat. split; [discriminate|]. unfold example_panel. frame_rows.
  - simple_field.
  - simple_field.
  - simple_field.
  - simple_field.
  - simple_field.
  - intros _. eexists. reflexivity.
  - intros _. eexists. split; reflexivity.
  - intros c _ Hc _. vm_compute in Hc. inv_Ok Hc. split; [reflexivity|].
    intros tc year category _ Htc Hy Hcat. vm_compute in Htc. inv_Ok Htc.
    simpl in Hy, Hcat.
    repeat (destruct Hy as [<-|Hy]; [|]); try contradiction;
      repeat (destruct Hcat as [<-|Hcat]; [|]); try contradiction;
      reflexivity.
  - simple_field.
  - simple_field.
  - simple_field.
Qed.

End Examples.

(* ================================================================= *)
(** * Further properties of the program *)

Section Further.

Context `{PyRuntime}.

(** X1.  A returned figure has the slider exactly when the call has a
    time column and [show_slider] is true, and the play and pause buttons
    exactly when it has a time column and [show_button] is true; without a
    time column both flags are ignored. *)
Theorem controls_need_time (ds : DataFrame) (a : bubble_args) (fig : Figure) :
  bubbleplot ds a = Ok fig ->
  dict_has (layout fig) "sliders"
    = (given (time_column a) && show_slider a)%bool
  /\ dict_has (layout fig) "updatemenus"
     = (given (time_column a) && show_button a)%bool
  /\ map step_label (buttons_of fig)
     = (if (given (time_column a) && show_button a)%bool
        then [Some "Play"; Some "Pause"] else []).
Proof.
  intros Hb. apply bubbleplot_inv in Hb.
  destruct Hb as (category & color & years & categories & ss & sb & scale
                  & grid & sizeref & fig0 & sd0 & _ & Htime & _ & Hlay & _
                  & _ & Hkeys & Hsl).
  assert (Hflags : ss = (given (time_column a) && show_slider a)%bool
                   /\ sb = (given (time_column a) && show_button a)%bool).
  { destruct (given (time_column a)); simpl.
    - destruct Htime as (tc & _ & _ & -> & ->). auto.
    - destruct Htime as (_ & -> & ->). auto. }
  destruct Hflags as [Hss Hsb].
  assert (Hum : dict_get (layout fig) "updatemenus"
                = dict_get (layout fig0) "updatemenus").
  { apply Hkeys; [unfold axis_keys; simpl; intuition discriminate
                 | discriminate]. }
  split; [now rewrite Hsl|]. split.
  - unfold dict_has. rewrite Hum. apply setLayout_spec in Hlay.
    destruct Hlay as (_ & _ & _ & _ & _ & Hbt & _).
    unfold dict_has in Hbt. now rewrite Hbt.
  - unfold buttons_of. rewrite Hum. apply setLayout_buttons in Hlay.
    unfold buttons_of in Hlay. now rewrite Hlay, Hsb.
Qed.

(** X2.  With a time column and the slider shown, the layout of a
    returned figure holds one slider, active at position 0, with one step
    per distinct time value in first-seen order; the step of a time value
    is labelled [str] of it and animates to the frame of that name, so
    the labels of the steps are the names of the frames, in order. *)
Theorem slider_steps (ds : DataFrame) (a : bubble_args) (tc : column)
  (fig : Figure) :
  given (time_column a) = true ->
  show_slider a = true ->
  get_column ds (name_of (time_column a)) = Ok tc ->
  bubbleplot ds a = Ok fig ->
  exists sd steps,
    slider_of fig = Some sd
    /\ dict_get sd "active" = Some (vint 0)
    /\ steps_of sd = Some steps
    /\ Forall2 step_for (first_seen (cells tc)) steps
    /\ map step_label steps = map frame_name (frames fig).
Proof.
  intros Ht Hshow Htc Hb.
  apply bubbleplot_inv in Hb as Hinv.
  destruct Hinv as (category' & color' & years' & categories' & ss' & sb'
                    & scale' & grid' & sizeref' & fig0' & sd0' & _ & Htime'
                    & _ & _ & _ & (_ & Hf) & _).
  rewrite Ht in Htime', Hf. destruct Htime' as (tc' & Htc' & -> & _).
  assert (tc' = tc) by congruence. subst tc'. clear Htc'.
  apply bubbleplot_steps in Hb.
  destruct Hb as (category & color & years & ss & sb & categories & template
                  & grid & legend & fig0 & sd0 & sizeref & fig1 & sd1 & xr
                  & yr & l & _ & Htime & _ & Hlay & _ & Htr & _ & _ & _ & ->).
  rewrite Ht in Htime. destruct Htime as (tc2 & Htc2 & -> & -> & ->).
  assert (tc2 = tc) by congruence. subst tc2. clear Htc2.
  rewrite Hshow in *.
  apply setLayout_slider in Hlay. destruct Hlay as (Hs0 & Hact & _).
  apply add_traces_steps in Htr. rewrite Ht in Htr. simpl in Htr.
  destruct (Htr [] Hs0) as (ys & new & Hys & Hnew & HF & Hk).
  inv_Ok Hys. simpl in Hnew.
  exists sd1, new. unfold slider_of. simpl. rewrite dict_get_set_same.
  split; [reflexivity|]. split; [rewrite Hk by discriminate; exact Hact|].
  split; [exact Hnew|]. rewrite <- unique_first_seen.
  split; [exact HF|].
  transitivity (map (fun year => Some (py_str year)) (unique (cells tc))).
  - clear -HF. induction HF as [|y s ys ss (Hl & _) _ IH]; simpl;
      [reflexivity|]. now rewrite Hl, IH.
  - simpl in Hf |- *. revert Hf.
    generalize (frames fig1) (unique (cells tc)). intros fs ys Hf.
    induction Hf as [|y f ys fs (ts & -> & _) _ IH]; simpl;
      [reflexivity|]. now rewrite IH.
Qed.

(** X3.  The axes of a returned figure.  A 2D figure has the entries
    ['xaxis'] and ['yaxis'] and no ['scene']; a 3D figure has ['scene']
    with its three axes and neither ['xaxis'] nor ['yaxis'].  Each axis
    dictionary is the title passed, ['autorange'] false, the type ['log']
    exactly when the axis is logarithmic, and the range, which is the one
    passed, unchanged, or else what [setRange] computes from the column of
    the axis. *)
Theorem axes_of_figure (ds : DataFrame) (a : bubble_args) (fig : Figure) :
  bubbleplot ds a = Ok fig ->
  exists xr yr,
    range_of ds (x_column a) (x_range a) (x_logscale a) xr
    /\ range_of ds (y_column a) (y_range a) (y_logscale a) yr
    /\ if given (z_column a) then
         exists zr,
           range_of ds (name_of (z_column a)) (z_range a) (z_logscale a) zr
           /\ dict_get (layout fig) "scene"
              = Some (VDict
                        [("xaxis", axis_entry (x_title a) (x_logscale a) xr);
                         ("yaxis", axis_entry (y_title a) (y_logscale a) yr);
                         ("zaxis", axis_entry (z_title a) (z_logscale a) zr)])
           /\ dict_get (layout fig) "xaxis" = None
           /\ dict_get (layout fig) "yaxis" = None
       else
         dict_get (layout fig) "xaxis"
           = Some (axis_entry (x_title a) (x_logscale a) xr)
         /\ dict_get (layout fig) "yaxis"
            = Some (axis_entry (y_title a) (y_logscale a) yr)
         /\ dict_get (layout fig) "scene" = None.
Proof.
  intros Hb. apply bubbleplot_steps in Hb.
  destruct Hb as (category & color & years & ss & sb & categories & template
                  & grid & legend & fig0 & sd0 & sizeref & fig1 & sd1 & xr
                  & yr & l & _ & _ & _ & Hlay & _ & Htr & Hxr & Hyr & Hl
                  & ->).
  apply add_traces_layout in Htr. rewrite Htr in Hl.
  apply setLayout_axes in Hlay. destruct Hlay as (f & Hf & Hk).
  exists xr, yr.
  split; [now apply axis_range_of|]. split; [now apply axis_range_of|].
  assert (Hfin : forall k, In k axis_keys ->
            dict_get
              (layout (if ss
                       then with_layout (with_layout fig1 l)
                              (dict_set l "sliders" (VList [VDict sd1]))
                       else with_layout fig1 l)) k
            = dict_get l k).
  { intros k Hin. destruct ss; simpl; [|reflexivity].
    apply dict_get_set_other. unfold axis_keys in Hin. simpl in Hin.
    destruct Hin as [<-|[<-|[<-|[]]]]; discriminate. }
  rewrite !Hfin by (unfold axis_keys; simpl; auto).
  destruct (given (z_column a)).
  - apply set3Daxes_layout in Hf; [|reflexivity].
    assert (Hsc := Hk "scene" (or_intror (or_intror (or_introl eq_refl)))).
    assert (Hx := Hk "xaxis" (or_introl eq_refl)).
    assert (Hy := Hk "yaxis" (or_intror (or_introl eq_refl))).
    rewrite Hf in Hsc, Hx, Hy. simpl in Hsc, Hx, Hy.
    destruct (store_ranges_3d _ _ _ _ _ _ _ _ Hsc Hl) as (zr & Hzr & Hs & Ho).
    exists zr. split; [now apply axis_range_of|].
    rewrite Hs, !Ho by discriminate. rewrite !axis_with_range. auto.
  - apply set2Daxes_layout in Hf; [|reflexivity].
    assert (Hsc := Hk "scene" (or_intror (or_intror (or_introl eq_refl)))).
    assert (Hx := Hk "xaxis" (or_introl eq_refl)).
    assert (Hy := Hk "yaxis" (or_intror (or_introl eq_refl))).
    rewrite Hf in Hsc, Hx, Hy. simpl in Hsc, Hx, Hy.
    destruct (store_ranges_2d _ _ _ _ _ _ _ Hx Hy Hl) as (Sx & Sy & So).
    rewrite Sx, Sy, So by discriminate. rewrite !axis_with_range. auto.
Qed.

(** X4.  Every trace of a returned figure, in the base data and in the
    frames, has the mode ['markers']; with a z column it has the type
    ['scatter3d'] and a ['z'] entry, without one it has neither. *)
Theorem trace_kinds (ds : DataFrame) (a : bubble_args) (fig : Figure) :
  bubbleplot ds a = Ok fig ->
  Forall (fun v =>
            trace_field v "mode" = Some (vstr "markers")
            /\ trace_field v "type"
               = (if given (z_column a) then Some (vstr "scatter3d")
                  else None)
            /\ trace_has v "z" = given (z_column a))
    (all_traces fig).
Proof.
  intros Hb. apply bubbleplot_traces in Hb.
  destruct Hb as (category & color & grid & sizeref & _ & _ & HF).
  eapply Forall_impl; [|exact HF].
  intros v (template & cs & sc & cbt & c & t & Hg & ->).
  apply getTrace_fields in Hg. cbv zeta in Hg. tauto.
Qed.


(** X6.  With a color column of a categorical dtype, the traces of the
    base data, and those of every frame, are named after the distinct
    values of that column in first-seen order, a value that is false
    under [if category:] (an empty text, [False], 0) leaving its trace
    without a name; without categorical grouping no trace has a name. *)
Theorem traces_named_by_category :
  (forall ds a cc fig,
     given (color_column a) = true ->
     get_column ds (name_of (color_column a)) = Ok cc ->
     categorical_dtype (dtype cc) = true ->
     bubbleplot ds a = Ok fig ->
     map (fun v => trace_field v "name") (data fig)
       = map trace_name_of (first_seen (cells cc))
     /\ Forall (fun f =>
                  exists ts,
                    frame_data f = Some ts
                    /\ map (fun v => trace_field v "name") ts
                       = map trace_name_of (first_seen (cells cc)))
          (frames fig))
  /\ (forall ds a fig,
        no_grouping ds a ->
        bubbleplot ds a = Ok fig ->
        Forall (fun v => trace_field v "name" = None) (all_traces fig)).
Proof.
  split.
  - intros ds a cc fig Hc Hcc Hd Hb. rewrite <- unique_first_seen.
    apply bubbleplot_traces_inv in Hb.
    destruct Hb as (category & color & years & categories & cands & sizeref
                    & Hcls & _ & Hcat & Htr).
    rewrite (classify_color_categorical _ _ _ Hc Hcc Hd) in Hcls.
    inv_Ok Hcls. cbv zeta in Htr. rewrite Hc in Hcat, Htr.
    destruct Hcat as (cc' & Hcc' & -> & _).
    assert (cc' = cc) by congruence. subst cc'.
    destruct Htr as [Hdata Hframes].
    assert (Hnames : forall g tmpl_of cats ts,
              Forall2 (fun c v =>
                exists tmpl : string,
                  tmpl_of = Ok tmpl /\ category_trace_of a g sizeref tmpl c v)
                cats ts ->
              map (fun v => trace_field v "name") ts
              = map trace_name_of cats).
    { clear. intros g tmpl_of cats ts HF.
      induction HF as [|c v cs vs (tmpl & _ & t & Hg & ->) _ IH];
        cbn [map]; [reflexivity|].
      apply getTrace_fields in Hg. cbv zeta in Hg.
      destruct Hg as (_ & _ & _ & Hn & _). rewrite Hn, IH. reflexivity. }
    split; [eapply Hnames; exact Hdata|].
    destruct (given (time_column a)); [|rewrite Hframes; constructor].
    destruct Hframes as (ys & _ & HF).
    induction HF as [|y f ys' fs (ts & -> & Hts) _ IH]; constructor;
      [|exact IH].
    exists ts. split; [reflexivity|]. eapply Hnames; exact Hts.
  - intros ds a fig Hno Hb. apply bubbleplot_traces_inv in Hb.
    destruct Hb as (category & color & years & categories & cands & sizeref
                    & Hcls & _ & _ & Htr).
    apply classify_color_cases in Hcls.
    destruct Hcls as [[-> ->]|(_ & _ & Hg & c & Hc & Hd)];
      [|rewrite (Hno c Hg Hc) in Hd; discriminate].
    cbv zeta in Htr. simpl in Htr.
    destruct Htr as [(tmpl & v & _ & Hv & Hdata) Hframes].
    assert (Hplain : forall g tmpl v,
              plain_trace a g sizeref (color_column a) tmpl = Ok v ->
              trace_field v "name" = None).
    { intros g tm v0 Hp. unfold plain_trace in Hp. inv_bind_as Hp t Ht.
      inv_Ok Hp. apply getTrace_fields in Ht. cbv zeta in Ht.
      destruct Ht as (_ & _ & _ & Hn & _). exact Hn. }
    unfold all_traces. rewrite Hdata. apply Forall_app. split.
    + constructor; [|constructor]. eapply Hplain; exact Hv.
    + destruct (given (time_column a)); [|rewrite Hframes; constructor].
      destruct Hframes as (ys & _ & HF).
      induction HF as [|y f ys' fs (tm & v0 & _ & Hv0 & ->) _ IH]; simpl.
      * constructor.
      * constructor; [eapply Hplain; exact Hv0 | exact IH].
Qed.

(** X7.  Without a time column and without categorical grouping, the
    single trace of a returned figure shows the whole dataset: its
    ['x'], ['y'] and ['text'] are the cells of the x, y and bubble
    columns, top to bottom, and so are its ['z'], the ['size'] of its
    marker and the ['color'] of its marker for the columns given. *)
Theorem plain_trace_data (ds : DataFrame) (a : bubble_args) (fig : Figure) :
  given (time_column a) = false ->
  no_grouping ds a ->
  bubbleplot ds a = Ok fig ->
  exists v,
    data fig = [v]
    /\ trace_shows a (color_column a) (whole_column ds) v.
Proof.
  intros Ht Hno Hb. apply bubbleplot_traces_inv in Hb.
  destruct Hb as (category & color & years & categories & cands & sizeref
                  & Hcls & _ & Hcat & Htr).
  apply classify_color_cases in Hcls.
  destruct Hcls as [[-> ->]|(_ & _ & Hg & c & Hc & Hd)];
    [|rewrite (Hno c Hg Hc) in Hd; discriminate].
  cbv zeta in Htr. simpl in Hcat, Htr. subst cands.
  destruct Htr as [(tmpl & v & Htmpl & Hv & Hdata) _].
  unfold base_template in Htmpl. rewrite Ht in Htmpl. inv_Ok Htmpl.
  exists v. split; [exact Hdata|].
  unfold plain_trace in Hv. inv_bind_as Hv t Hg. inv_Ok Hv.
  eapply getTrace_shows; [exact Hg| |].
  - intros col k vals _ Hk Hin. eapply plain_key_subset; eauto.
  - intros k vals _ Hk Hin. eapply plain_key_subset; eauto.
Qed.

(** X8.  With a time column of integers and without categorical
    grouping, the frame of each time value holds one trace, which shows
    the rows of that time value, in row order; and the base data is one
    trace that shows the rows of the smallest time value. *)
Theorem frames_show_years (ds : DataFrame) (a : bubble_args) (tc : column)
  (fig : Figure) :
  given (time_column a) = true ->
  get_column ds (name_of (time_column a)) = Ok tc ->
  forallb is_int (cells tc) = true ->
  no_grouping ds a ->
  bubbleplot ds a = Ok fig ->
  Forall2 (fun year f =>
             exists v,
               frame_data f = Some [v]
               /\ trace_shows a (color_column a)
                    (time_subset ds (name_of (time_column a)) year) v)
    (first_seen (cells tc)) (frames fig)
  /\ exists first v,
       py_min (first_seen (cells tc)) = Ok first
       /\ data fig = [v]
       /\ trace_shows a (color_column a)
            (time_subset ds (name_of (time_column a)) first) v.
Proof.
  intros Ht Htc Hint Hno Hb. rewrite <- unique_first_seen.
  apply bubbleplot_traces_inv in Hb.
  destruct Hb as (category & color & years & categories & cands & sizeref
                  & Hcls & Htime & Hcat & Htr).
  apply classify_color_cases in Hcls.
  destruct Hcls as [[-> ->]|(_ & _ & Hg & c & Hc & Hd)];
    [|rewrite (Hno c Hg Hc) in Hd; discriminate].
  cbv zeta in Htr. rewrite Ht in Htime, Htr. cbn [given orb] in Hcat, Htr.
  subst cands. destruct Htime as (tc' & Htc' & ->).
  assert (tc' = tc) by congruence. subst tc'.
  assert (Hys : forallb is_int (unique (cells tc)) = true).
  { apply forallb_forall. intros y Hy. apply unique_incl in Hy.
    rewrite forallb_forall in Hint. now apply Hint. }
  assert (Hshow : forall y tmpl v,
            In y (unique (cells tc)) ->
            str_format "{}+{}_grid" [py_str y; "{}"] = Ok tmpl ->
            plain_trace a
              (expected_grid true
                 (makeGrid_candidates ds (column_names_of a (color_column a))
                    (time_column a) (Some (unique (cells tc)))))
              sizeref (color_column a) tmpl = Ok v ->
            trace_shows a (color_column a)
              (time_subset ds (name_of (time_column a)) y) v).
  { intros y tmpl v Hy Htmpl Hv.
    destruct (is_int_inv y (proj1 (forallb_forall _ _) Hys y Hy)) as [z ->].
    unfold plain_trace in Hv. inv_bind_as Hv t Hg. inv_Ok Hv.
    eapply getTrace_shows; [exact Hg| |].
    - intros col k vals _ Hk Hin.
      exact (time_key_subset ds _ _ _ z col _ tmpl k vals Ht Hys Htmpl Hk
               Hin).
    - intros k vals _ Hk Hin.
      exact (time_key_subset ds _ _ _ z _ _ tmpl k vals Ht Hys Htmpl Hk
               Hin). }
  destruct Htr as [(tmpl & v & Htmpl & Hv & Hdata) (ys & Hyears & HF)].
  inv_Ok Hyears. split.
  - eapply Forall2_impl_in; [exact HF|].
    intros y f Hy (tm & v0 & Htm & Hv0 & ->).
    exists v0. split; [reflexivity|]. eapply Hshow; eauto.
  - unfold base_template in Htmpl. rewrite Ht in Htmpl.
    inv_bind_as Htmpl y0 Hfirst. simpl in Hfirst.
    exists y0, v. split; [exact Hfirst|]. split; [exact Hdata|].
    eapply Hshow; eauto. now apply py_min_in.
Qed.

(** X9.  With a color column of a categorical dtype that holds text,
    column names without the key separator [+] and no time column, the
    traces of the base data show, category by category in first-seen
    order, the rows of their category. *)
Theorem category_traces_show (ds : DataFrame) (a : bubble_args)
  (cc : column) (fig : Figure) :
  given (color_column a) = true ->
  get_column ds (name_of (color_column a)) = Ok cc ->
  categorical_dtype (dtype cc) = true ->
  forallb is_text (cells cc) = true ->
  (forall col, In col (trace_columns a) -> plus_free col) ->
  given (time_column a) = false ->
  bubbleplot ds a = Ok fig ->
  Forall2 (fun category v =>
             trace_shows a None
               (category_subset ds (name_of (color_column a)) category) v)
    (first_seen (cells cc)) (data fig).
Proof.
  intros Hc Hcc Hd Htext Hplus Ht Hb. rewrite <- unique_first_seen.
  apply bubbleplot_traces_inv in Hb.
  destruct Hb as (category & color & years & categories & cands & sizeref
                  & Hcls & _ & Hcat & Htr).
  rewrite (classify_color_categorical _ _ _ Hc Hcc Hd) in Hcls.
  inv_Ok Hcls. cbv zeta in Htr. rewrite Hc in Hcat, Htr.
  destruct Hcat as (cc' & Hcc' & -> & ->).
  assert (cc' = cc) by congruence. subst cc'.
  destruct Htr as [Hdata _].
  assert (Hcats : forallb is_text (unique (cells cc)) = true).
  { apply forallb_forall. intros y Hy. apply unique_incl in Hy.
    rewrite forallb_forall in Htext. now apply Htext. }
  eapply Forall2_impl_in; [exact Hdata|].
  intros c v Hcin (tmpl & Htmpl & t & Hg & ->).
  unfold base_template in Htmpl. rewrite Ht in Htmpl. inv_Ok Htmpl.
  eapply getTrace_shows; [exact Hg| |].
  - intros col k vals Hin Hk Hcand.
    refine (category_key_subset ds _ _ _ _ _ col c k vals Ht Hcats _
              (Hplus col Hin) Hcin Hk Hcand).
    intros col' Hcol'. apply Hplus.
    now apply column_names_trace_columns.
  - intros k vals G. discriminate G.
Qed.

(** X10.  With a time column of integers as well, the frame of each
    time value holds one trace per category, in first-seen order, and
    the trace of a category shows the rows of that time value and
    category; the traces of the base data show those of the smallest
    time value. *)
Theorem panel_traces_show (ds : DataFrame) (a : bubble_args)
  (cc tc : column) (fig : Figure) :
  given (color_column a) = true ->
  get_column ds (name_of (color_column a)) = Ok cc ->
  categorical_dtype (dtype cc) = true ->
  forallb is_text (cells cc) = true ->
  (forall col, In col (trace_columns a) -> plus_free col) ->
  given (time_column a) = true ->
  get_column ds (name_of (time_column a)) = Ok tc ->
  forallb is_int (cells tc) = true ->
  bubbleplot ds a = Ok fig ->
  let shows year category v :=
    trace_shows a None
      (time_category_subset ds (name_of (time_column a))
         (name_of (color_column a)) year category) v in
  Forall2 (fun year f =>
             exists ts,
               frame_data f = Some ts
               /\ Forall2 (shows year) (first_seen (cells cc)) ts)
    (first_seen (cells tc)) (frames fig)
  /\ Forall2 (fun category v =>
                exists first,
                  py_min (first_seen (cells tc)) = Ok first
                  /\ shows first category v)
       (first_seen (cells cc)) (data fig).
Proof.
  intros Hc Hcc Hd Htext Hplus Ht Htc Hint Hb shows. subst shows.
  rewrite <- !unique_first_seen.
  apply bubbleplot_traces_inv in Hb.
  destruct Hb as (category & color & years & categories & cands & sizeref
                  & Hcls & Htime & Hcat & Htr).
  rewrite (classify_color_categorical _ _ _ Hc Hcc Hd) in Hcls.
  inv_Ok Hcls. cbv zeta in Htr. rewrite Hc in Hcat, Htr.
  rewrite Ht in Htime, Htr.
  destruct Hcat as (cc' & Hcc' & -> & ->).
  assert (cc' = cc) by congruence. subst cc'.
  destruct Htime as (tc' & Htc' & ->).
  assert (tc' = tc) by congruence. subst tc'.
  assert (Hcats : forallb is_text (unique (cells cc)) = true).
  { apply forallb_forall. intros y Hy. apply unique_incl in Hy.
    rewrite forallb_forall in Htext. now apply Htext. }
  assert (Hys : forallb is_int (unique (cells tc)) = true).
  { apply forallb_forall. intros y Hy. apply unique_incl in Hy.
    rewrite forallb_forall in Hint. now apply Hint. }
  set (grid := expected_grid (true || true)
                 (makeGridWithCategories_candidates ds
                    (column_names_of a None) (time_column a)
                    (name_of (color_column a)) (Some (unique (cells tc)))
                    (Some (unique (cells cc))))) in *.
  assert (Hshow : forall y c tmpl v,
            In y (unique (cells tc)) -> In c (unique (cells cc)) ->
            str_format "{}+{}+{}_grid" [py_str y; "{}"; "{}"] = Ok tmpl ->
            category_trace_of a grid sizeref tmpl c v ->
            trace_shows a None
              (time_category_subset ds (name_of (time_column a))
                 (name_of (color_column a)) y c) v).
  { intros y c tmpl v Hy Hcin Htmpl (t & Hg & ->).
    destruct (is_int_inv y (proj1 (forallb_forall _ _) Hys y Hy)) as [z ->].
    eapply getTrace_shows; [exact Hg| |].
    - intros col k vals Hin Hk Hcand.
      refine (time_category_key_subset ds _ _ _ _ _ z col c tmpl k vals
                Ht Hys Hcats _ (Hplus col Hin) Hcin Htmpl Hk Hcand).
      intros col' Hcol'. apply Hplus.
      now apply column_names_trace_columns.
    - intros k vals G. discriminate G. }
  destruct Htr as [Hdata (ys & Hyears & HF)]. inv_Ok Hyears. split.
  - eapply Forall2_impl_in; [exact HF|].
    intros y f Hy (ts & -> & Hts).
    exists ts. split; [reflexivity|].
    eapply Forall2_impl_in; [exact Hts|].
    intros c v Hcin (tmpl & Htmpl & Hv). eapply Hshow; eauto.
  - eapply Forall2_impl_in; [exact Hdata|].
    intros c v Hcin (tmpl & Htmpl & Hv).
    unfold base_template in Htmpl. rewrite Ht in Htmpl.
    inv_bind_as Htmpl y0 Hfirst. simpl in Hfirst.
    exists y0. split; [exact Hfirst|].
    eapply Hshow; eauto. now apply py_min_in.
Qed.

(** X11.  With a time column that has a row, the base data of a returned
    figure is the data of one of its frames, the frame of the smallest
    time value [min(years)]: the figure opens on its earliest frame. *)
Theorem base_is_earliest_frame (ds : DataFrame) (a : bubble_args)
  (tc : column) (fig : Figure) :
  given (time_column a) = true ->
  get_column ds (name_of (time_column a)) = Ok tc ->
  cells tc <> [] ->
  bubbleplot ds a = Ok fig ->
  exists f,
    In f (frames fig)
    /\ frame_data f = Some (data fig)
    /\ forall earliest,
         py_min (first_seen (cells tc)) = Ok earliest ->
         frame_name f = Some (py_str earliest).
Proof.
  intros Ht Htc Hne Hb. rewrite <- unique_first_seen.
  apply bubbleplot_traces_inv in Hb.
  destruct Hb as (category & color & years & categories & cands & sizeref
                  & _ & Htime & _ & Htr).
  cbv zeta in Htr. rewrite Ht in Htime, Htr.
  destruct Htime as (tc' & Htc' & ->).
  assert (tc' = tc) by congruence. subst tc'.
  set (ys := unique (cells tc)) in *.
  assert (Hys : ys <> []) by now apply unique_nonempty.
  clearbody ys. unfold base_template in Htr. rewrite Ht in Htr.
  destruct (given category).
  - destruct Htr as [Hdata (ys' & Hyears & HF)]. injection Hyears as <-.
    destruct (py_min ys) as [y0|e] eqn:Hmin.
    + destruct (Forall2_in_l _ _ _ y0 HF (py_min_in _ _ Hmin))
        as (f & Hf & ts & -> & Hts).
      exists (frame ts y0). split; [exact Hf|]. split.
      * rewrite frame_data_frame. f_equal.
        eapply Forall2_functional; [|exact Hts|exact Hdata].
        intros c v1 v2 (tm1 & E1 & t1 & G1 & ->) (tm2 & E2 & t2 & G2 & ->).
        change (min_year (Some ys)) with (py_min ys) in E2.
        rewrite Hmin in E2. cbn [bind] in E2. rewrite E1 in E2. inv_Ok E2.
        rewrite G1 in G2. now inv_Ok G2.
      * intros y1 Hy1. inv_Ok Hy1. apply frame_name_frame.
    + assert (Hnone : categories = []).
      { destruct categories as [|c cs]; [reflexivity|].
        inversion Hdata as [|c' v cs' vs (tm & E & _) _].
        change (min_year (Some ys)) with (py_min ys) in E.
        rewrite Hmin in E. discriminate E. }
      subst categories. inversion Hdata as [Ec Ed|].
      destruct HF as [|y f ys1 fs1 (ts & -> & Hts) _]; [congruence|].
      inversion Hts. subst ts.
      exists (frame [] y). split; [simpl; auto|]. split.
      * apply frame_data_frame.
      * intros y1 Hy1. discriminate Hy1.
  - destruct Htr as [(tmpl & v & Htmpl & Hv & Hdata) (ys' & Hyears & HF)].
    injection Hyears as <-. inv_bind_as Htmpl y0 Hmin.
    change (min_year (Some ys)) with (py_min ys) in Hmin.
    destruct (Forall2_in_l _ _ _ y0 HF (py_min_in _ _ Hmin))
      as (f & Hf & tm & v' & Etm & Hv' & ->).
    exists (frame [v'] y0). split; [exact Hf|]. split.
    + rewrite frame_data_frame, Hdata. rewrite Htmpl in Etm. inv_Ok Etm.
      rewrite Hv in Hv'. now inv_Ok Hv'.
    + intros y1 Hy1. rewrite Hmin in Hy1. inv_Ok Hy1.
      apply frame_name_frame.
Qed.


(** X13.  [setRange] on a column without cells raises [ValueError]
    ([min] of an empty sequence), on both scales; on a column of text it
    raises [TypeError] on the linear scale (a text times a float). *)
Theorem setRange_errors :
  (forall values logscale,
     cells values = [] ->
     (logscale = true -> numeric_dtype (dtype values) = true) ->
     setRange values logscale = Raise ValueError)
  /\ (forall values,
        cells values <> [] ->
        forallb is_text (cells values) = true ->
        setRange values false = Raise TypeError).
Proof.
  split.
  - intros values logscale Hc Hd. unfold setRange, np_log10_series.
    destruct logscale.
    + destruct (numeric_dtype_format _ (Hd eq_refl)) as [fmt ->].
      rewrite Hc. reflexivity.
    + rewrite Hc. reflexivity.
  - intros values Hne Htext. unfold setRange.
    destruct (cells values) as [|x xs]; [congruence|].
    simpl in Htext. apply andb_prop in Htext. destruct Htext as [Hx Hxs].
    destruct (is_text_inv x Hx) as [s ->].
    destruct (min_from_text xs s Hxs) as [m Hm].
    unfold py_min. rewrite Hm. reflexivity.
Qed.


(** X15.  [setLayout] with the slider shown needs a slider scale with a
    minimum: without a scale (the default [None]) it raises [TypeError],
    with an empty scale [ValueError]; it returns when the scale has a
    minimum, and always when the slider is hidden. *)
Theorem setLayout_needs_scale :
  (forall xt yt zt t xl yl zl axes3D sb legend w h,
     setLayout xt yt zt t xl yl zl axes3D true None sb legend w h
     = Raise TypeError
     /\ setLayout xt yt zt t xl yl zl axes3D true (Some []) sb legend w h
        = Raise ValueError)
  /\ (forall xt yt zt t xl yl zl axes3D scale sb legend w h,
        exists fig,
          setLayout xt yt zt t xl yl zl axes3D false scale sb legend w h
          = Ok (fig, []))
  /\ (forall xt yt zt t xl yl zl axes3D ys m sb legend w h,
        py_min ys = Ok m ->
        exists fig sd,
          setLayout xt yt zt t xl yl zl axes3D true (Some ys) sb legend w h
          = Ok (fig, sd)).
Proof.
  split; [|split].
  - intros. split; apply setLayout_slider_raises; reflexivity.
  - intros.
    destruct (setLayout_returns xt yt zt t xl yl zl axes3D false scale sb
                legend w h) as (fig & sd & Hs & _); [discriminate|].
    apply setLayout_spec in Hs as Hspec.
    destruct Hspec as (_ & _ & _ & _ & _ & _ & _ & ->). eauto.
  - intros xt yt zt t xl yl zl axes3D ys m sb legend w h Hm.
    destruct (setLayout_returns xt yt zt t xl yl zl axes3D true (Some ys) sb
                legend w h) as (fig & sd & Hs & _); eauto.
Qed.

(** X16.  A call with a time column that has no row, the slider shown
    and a color column, if any, that the dataset has, raises
    [ValueError]: the slider asks for the minimum of no time value. *)
Theorem empty_time_column (ds : DataFrame) (a : bubble_args) (tc : column) :
  given (time_column a) = true ->
  get_column ds (name_of (time_column a)) = Ok tc ->
  cells tc = [] ->
  show_slider a = true ->
  column_if_given ds (color_column a) ->
  bubbleplot ds a = Raise ValueError.
Proof.
  intros Ht Htc Hempty Hss Hcolor. unfold bubbleplot.
  assert (Hcls : exists category color,
            classify_color ds (color_column a) = Ok (category, color)
            /\ (given category = true ->
                exists cc, get_column ds (name_of category) = Ok cc)).
  { unfold classify_color, column_if_given in *.
    destruct (given (color_column a)) eqn:G.
    - destruct (Hcolor eq_refl) as [c Hc]. rewrite Hc. cbn [bind].
      destruct (categorical_dtype (dtype c)).
      + exists (color_column a), None. split; [reflexivity|]. eauto.
      + exists None, (color_column a). split; [reflexivity|]. discriminate.
    - exists None, (color_column a). split; [reflexivity|]. discriminate. }
  destruct Hcls as (category & color & -> & Hcat). cbn [bind].
  rewrite Ht, Htc. cbn [bind]. rewrite Hempty, Hss.
  destruct (given category) eqn:G.
  - destruct (Hcat eq_refl) as [cc ->]. cbn [bind].
    unfold makeGridWithCategories. rewrite Ht. cbn [bind].
    unfold years_or_unique. cbn [bind for_each unique unique_from].
    rewrite (setLayout_slider_raises _ _ _ _ _ _ _ _ (Some []) _ _ _ _
               ValueError eq_refl).
    reflexivity.
  - unfold makeGrid. rewrite Ht.
    unfold years_or_unique. cbn [bind for_each unique unique_from].
    rewrite (setLayout_slider_raises _ _ _ _ _ _ _ _ (Some []) _ _ _ _
               ValueError eq_refl).
    reflexivity.
Qed.


(** X18.  With a color column that is not of a categorical dtype, the
    marker of every trace of a returned figure has a ['color'] list, the
    ['colorbar'] with the title passed and the ['colorscale'] passed;
    with one of a categorical dtype no marker has a ['colorbar'] or a
    ['colorscale'].  No trace and no marker has a ['showscale'] entry:
    [show_colorbar] is not put into the figure. *)
Theorem color_mapping :
  (forall ds a fig,
     given (color_column a) = true ->
     no_grouping ds a ->
     bubbleplot ds a = Ok fig ->
     Forall (fun v =>
               (exists colors, marker_field v "color" = Some (vscalars colors))
               /\ marker_field v "colorbar"
                  = Some (VDict [("title", vopt_str (colorbar_title a))])
               /\ marker_field v "colorscale"
                  = Some (vopt_str (colorscale a)))
       (all_traces fig))
  /\ (forall ds a c fig,
        given (color_column a) = true ->
        get_column ds (name_of (color_column a)) = Ok c ->
        categorical_dtype (dtype c) = true ->
        bubbleplot ds a = Ok fig ->
        Forall (fun v => marker_field v "colorbar" = None
                         /\ marker_field v "colorscale" = None)
          (all_traces fig))
  /\ (forall ds a fig,
        bubbleplot ds a = Ok fig ->
        Forall (fun v => trace_has v "showscale" = false
                         /\ marker_field v "showscale" = None)
          (all_traces fig)).
Proof.
  split; [|split].
  - intros ds a fig Hg Hno Hb. apply bubbleplot_traces_inv in Hb.
    destruct Hb as (category & color & years & categories & cands & sizeref
                    & Hcls & _ & _ & Htr).
    apply classify_color_cases in Hcls.
    destruct Hcls as [[-> ->]|(_ & _ & Hg' & c & Hc & Hd)];
      [|rewrite (Hno c Hg' Hc) in Hd; discriminate].
    cbv zeta in Htr. cbn [given] in Htr.
    destruct Htr as [(tmpl & v & _ & Hv & Hdata) Hframes].
    assert (Hplain : forall tm v0,
              plain_trace a
                (expected_grid (false || given (time_column a)) cands)
                sizeref (color_column a) tm = Ok v0 ->
              (exists colors,
                 marker_field v0 "color" = Some (vscalars colors))
              /\ marker_field v0 "colorbar"
                 = Some (VDict [("title", vopt_str (colorbar_title a))])
              /\ marker_field v0 "colorscale"
                 = Some (vopt_str (colorscale a))).
    { intros tm v0 Hp. unfold plain_trace in Hp. inv_bind_as Hp t Ht.
      inv_Ok Hp. apply getTrace_fields in Ht as Hf.
      apply getTrace_data in Ht. cbv zeta in Hf, Ht.
      destruct Hf as (_ & _ & _ & _ & _ & _ & _ & _ & _ & Hcb & Hcs & _).
      destruct Ht as (_ & _ & _ & _ & _ & Hcol).
      rewrite Hg in Hcb, Hcs. destruct (Hcol Hg) as (cv & Gc & Fc).
      apply grid_value_expected in Gc.
      destruct Gc as (k & vals & _ & _ & ->). eauto. }
    unfold all_traces. rewrite Hdata. apply Forall_app. split.
    + constructor; [|constructor]. eapply Hplain; exact Hv.
    + destruct (given (time_column a)); [|rewrite Hframes; constructor].
      destruct Hframes as (ys & _ & HF).
      induction HF as [|y f ys' fs (tm & v0 & _ & Hv0 & ->) _ IH]; simpl.
      * constructor.
      * constructor; [eapply Hplain; exact Hv0 | exact IH].
  - intros ds a c fig Hg Hc Hd Hb. apply bubbleplot_traces in Hb.
    destruct Hb as (category & color & grid & sizeref & Hcls & _ & HF).
    rewrite (classify_color_categorical _ _ _ Hg Hc Hd) in Hcls.
    inv_Ok Hcls. rewrite Hg in HF.
    eapply Forall_impl; [|exact HF].
    intros v (template & cs & sc & cbt & cat & t & Ht & ->).
    apply getTrace_fields in Ht. cbv zeta in Ht.
    destruct Ht as (_ & _ & _ & _ & _ & _ & _ & _ & _ & Hcb & Hcs & _).
    auto.
  - intros ds a fig Hb. apply bubbleplot_traces in Hb.
    destruct Hb as (category & color & grid & sizeref & _ & _ & HF).
    eapply Forall_impl; [|exact HF].
    intros v (template & cs & sc & cbt & cat & t & Ht & ->).
    apply getTrace_fields in Ht. cbv zeta in Ht.
    destruct Ht as (_ & _ & _ & _ & _ & _ & _ & _ & _ & _ & _ & Hs1 & Hs2).
    auto.
Qed.

(** X19.  The layout of a returned figure holds the title as passed
    ([None] when none was passed), the hover mode ['closest'] and the
    margins b = 50, t = 50, pad = 5. *)
Theorem layout_fixed_entries (ds : DataFrame) (a : bubble_args)
  (fig : Figure) :
  bubbleplot ds a = Ok fig ->
  dict_get (layout fig) "title" = Some (vopt_str (title a))
  /\ dict_get (layout fig) "hovermode" = Some (vstr "closest")
  /\ dict_get (layout fig) "margin"
     = Some (VDict [("b", vint 50); ("t", vint 50); ("pad", vint 5)]).
Proof.
  intros Hb. apply bubbleplot_inv in Hb.
  destruct Hb as (category & color & years & categories & ss & sb & scale
                  & grid & sizeref & fig0 & sd0 & _ & _ & _ & Hlay & _
                  & _ & Hkeys & _).
  apply setLayout_fixed in Hlay. destruct Hlay as (Ht & Hh & Hm).
  rewrite !Hkeys
    by (try discriminate; unfold axis_keys; simpl; intuition discriminate).
  auto.
Qed.

(** X20.  With a time column of integers, a color column of a
    categorical dtype that holds text and column names without [+],
    [bubbleplot] returns a figure only when every category has a row at
    every time value; on other datasets it raises. *)
Theorem panel_is_balanced (ds : DataFrame) (a : bubble_args)
  (cc tc : column) (fig : Figure) :
  given (color_column a) = true ->
  get_column ds (name_of (color_column a)) = Ok cc ->
  categorical_dtype (dtype cc) = true ->
  forallb is_text (cells cc) = true ->
  (forall col, In col (trace_columns a) -> plus_free col) ->
  given (time_column a) = true ->
  get_column ds (name_of (time_column a)) = Ok tc ->
  forallb is_int (cells tc) = true ->
  bubbleplot ds a = Ok fig ->
  forall year category,
    In year (first_seen (cells tc)) ->
    In category (first_seen (cells cc)) ->
    pair_occurs (cells tc) (cells cc) year category = true.
Proof.
  intros Hc Hcc Hd Htext Hplus Ht Htc Hint Hb year category.
  rewrite <- !unique_first_seen. intros Hy Hcat.
  apply bubbleplot_traces_inv in Hb.
  destruct Hb as (category' & color & years & categories & cands & sizeref
                  & Hcls & Htime & Hcats & Htr).
  rewrite (classify_color_categorical _ _ _ Hc Hcc Hd) in Hcls.
  inv_Ok Hcls. cbv zeta in Htr. rewrite Hc in Hcats, Htr.
  rewrite Ht in Htime, Htr.
  destruct Hcats as (cc' & Hcc' & -> & ->).
  assert (cc' = cc) by congruence. subst cc'.
  destruct Htime as (tc' & Htc' & ->).
  assert (tc' = tc) by congruence. subst tc'.
  assert (Hcs : forallb is_text (unique (cells cc)) = true).
  { apply forallb_forall. intros y' Hy'. apply unique_incl in Hy'.
    rewrite forallb_forall in Htext. now apply Htext. }
  assert (Hys : forallb is_int (unique (cells tc)) = true).
  { apply forallb_forall. intros y' Hy'. apply unique_incl in Hy'.
    rewrite forallb_forall in Hint. now apply Hint. }
  destruct Htr as [_ (ys & Hyears & HF)]. injection Hyears as <-.
  destruct (Forall2_in_l _ _ _ year HF Hy) as (f & _ & ts & _ & Hts).
  destruct (Forall2_in_l _ _ _ category Hts Hcat)
    as (v & _ & tmpl & Htmpl & t & Hg & _).
  apply getTrace_inv in Hg.
  destruct Hg as (xv & _ & _ & _ & _ & _ & Hx & _).
  apply grid_value_expected_nonempty in Hx.
  destruct Hx as (k & vals & Hk & Hcand & Hne).
  destruct (is_int_inv year (proj1 (forallb_forall _ _) Hys year Hy))
    as [z ->].
  assert (Hsub : time_category_subset ds (name_of (time_column a))
                   (name_of (color_column a)) (SInt z) category (x_column a)
                 = Some vals).
  { refine (time_category_key_subset ds _ _ _ _ _ z (x_column a) category
              tmpl k vals Ht Hys Hcs _ _ Hcat Htmpl Hk Hcand).
    - intros col' Hcol'. apply Hplus.
      now apply column_names_trace_columns.
    - apply Hplus. unfold trace_columns. simpl. auto. }
  unfold time_category_subset in Hsub. rewrite Htc, Hcc in Hsub.
  cbn [py_int] in Hsub.
  destruct (get_column ds (x_column a)) as [cx|]; [|discriminate].
  rewrite (compared_int_exact tc z (SInt z) (unique_incl _ _ Hy) eq_refl)
    in Hsub.
  rewrite (compared_own cc category Hd (unique_incl _ _ Hcat)) in Hsub.
  inv_Ok Hsub. apply values_where2_pair in Hne. exact Hne.
Qed.

(** X21.  The time values go through [int]: on a dataset with rows, a
    call whose time column starts with a value that [int] rejects (a
    text that is no integer literal, [None], a NaN) raises what [int]
    raises, provided the dataset has the color column, if one is
    given. *)
Theorem time_values_need_int (ds : DataFrame) (a : bubble_args)
  (tc : column) (y : scalar) (rest : list scalar) (e : exn) :
  has_rows ds ->
  given (time_column a) = true ->
  get_column ds (name_of (time_column a)) = Ok tc ->
  cells tc = y :: rest ->
  py_int y = Raise e ->
  column_if_given ds (color_column a) ->
  bubbleplot ds a = Raise e.
Proof.
  intros Hrows Ht Htc Hcells Hy Hcolor. unfold bubbleplot.
  assert (Hcls : exists category color,
            classify_color ds (color_column a) = Ok (category, color)
            /\ (given category = true ->
                exists cc, get_column ds (name_of category) = Ok cc)).
  { unfold classify_color, column_if_given in *.
    destruct (given (color_column a)) eqn:G.
    - destruct (Hcolor eq_refl) as [c Hc]. rewrite Hc. cbn [bind].
      destruct (categorical_dtype (dtype c)).
      + exists (color_column a), None. split; [reflexivity|]. eauto.
      + exists None, (color_column a). split; [reflexivity|]. discriminate.
    - exists None, (color_column a). split; [reflexivity|]. discriminate. }
  destruct Hcls as (category & color & -> & Hcat). cbn [bind].
  rewrite Ht, Htc. cbn [bind]. rewrite Hcells.
  change (unique (y :: rest)) with (y :: unique_from [y] rest).
  destruct (given category) eqn:G.
  - destruct (Hcat eq_refl) as [cc Hcc]. rewrite Hcc. cbn [bind].
    destruct (unique (cells cc)) as [|c0 cs] eqn:Ec.
    { exfalso. apply (unique_nonempty (cells cc)); [|exact Ec].
      eapply Hrows; eauto. }
    unfold makeGridWithCategories. rewrite Ht. cbn [bind].
    unfold years_or_unique. cbn [bind for_each].
    unfold year_mask. rewrite Htc. cbn [bind]. rewrite Hy. reflexivity.
  - unfold makeGrid. rewrite Ht.
    unfold years_or_unique. cbn [bind for_each].
    unfold year_mask. rewrite Htc. cbn [bind]. rewrite Hy. reflexivity.
Qed.


(** X23.  A dataset without rows.  For a 2D call without time, size and
    color column whose x, y and bubble columns are in the dataset and
    have no cell, [bubbleplot] raises [ValueError] when the x or the y
    range is left to be computed ([min] of an empty column), and returns
    a figure when both ranges are passed. *)
Theorem empty_dataset (ds : DataFrame) (a : bubble_args) (cx cy cb : column) :
  given (time_column a) = false ->
  given (color_column a) = false ->
  given (size_column a) = false ->
  given (z_column a) = false ->
  get_column ds (x_column a) = Ok cx ->
  get_column ds (y_column a) = Ok cy ->
  get_column ds (bubble_column a) = Ok cb ->
  cells cx = [] -> cells cy = [] ->
  (x_logscale a = true -> numeric_dtype (dtype cx) = true) ->
  (y_logscale a = true -> numeric_dtype (dtype cy) = true) ->
  (x_range a = None \/ y_range a = None ->
   bubbleplot ds a = Raise ValueError)
  /\ (x_range a <> None -> y_range a <> None ->
      exists fig, bubbleplot ds a = Ok fig).
Proof.
  intros Ht Hc Hs Hz Hx Hy Hb Ex Ey Lx Ly.
  assert (Hxr : x_range a = None ->
                axis_range ds (x_column a) (x_range a) (x_logscale a)
                = Raise ValueError).
  { intros ->. unfold axis_range. rewrite Hx. cbn [bind].
    unfold setRange, np_log10_series. destruct (x_logscale a).
    - destruct (numeric_dtype_format _ (Lx eq_refl)) as [fmt ->].
      rewrite Ex. reflexivity.
    - rewrite Ex. reflexivity. }
  assert (Hyr : y_range a = None ->
                axis_range ds (y_column a) (y_range a) (y_logscale a)
                = Raise ValueError).
  { intros ->. unfold axis_range. rewrite Hy. cbn [bind].
    unfold setRange, np_log10_series. destruct (y_logscale a).
    - destruct (numeric_dtype_format _ (Ly eq_refl)) as [fmt ->].
      rewrite Ey. reflexivity.
    - rewrite Ey. reflexivity. }
  assert (Hsteps : exists fig1,
            (bubbleplot ds a
             = (x_range <- axis_range ds (x_column a) (x_range a)
                             (x_logscale a) ;;
                y_range <- axis_range ds (y_column a) (y_range a)
                             (y_logscale a) ;;
                l <- store_ranges false (layout fig1) x_range y_range
                       (axis_range ds (name_of (z_column a)) (z_range a)
                          (z_logscale a)) ;;
                Ok (with_layout fig1 l)))
            /\ has_axes false (layout fig1)).
  { unfold bubbleplot, classify_color. rewrite Hc, Ht, Hz. cbn [bind given].
    unfold column_names_of, makeGrid. rewrite Hz, Hs, Ht, Hc. cbn [given app].
    cbn [for_each]. rewrite Hx. cbn [bind]. rewrite Hy. cbn [bind].
    rewrite Hb. cbn [bind app].
    destruct (setLayout_returns (x_title a) (y_title a) (z_title a) (title a)
                (x_logscale a) (y_logscale a) (z_logscale a) false false None
                false
                match show_legend a with None => false | Some b => b end
                (width a) (height a)) as (fig0 & sd0 & Hlay & Hax);
      [discriminate|].
    rewrite Hlay. cbn [bind]. unfold compute_sizeref. rewrite Hs. cbn [bind].
    set (grid := [{| value := cells cx;
                     key := (x_column a ++ "_grid")%string |};
                  {| value := cells cy;
                     key := (y_column a ++ "_grid")%string |};
                  {| value := cells cb;
                     key := (bubble_column a ++ "_grid")%string |}]).
    destruct (add_traces_returns a None (color_column a) None []
                "{}+{}_grid" grid vnone false fig0 sd0)
      as (fig1 & sd1 & Htr).
    - discriminate.
    - discriminate.
    - intros _ _. split; [|intros G; rewrite Hc in G; discriminate G].
      intros col Hin.
      apply grid_value_returns with (k := (col ++ "_grid")%string);
        [reflexivity|].
      unfold trace_columns in Hin. rewrite Hz, Hs in Hin. simpl in Hin.
      destruct Hin as [<-|[<-|[<-|[]]]].
      + exists {| value := cells cx; key := (x_column a ++ "_grid")%string |}.
        simpl. auto.
      + exists {| value := cells cy; key := (y_column a ++ "_grid")%string |}.
        simpl. auto.
      + exists {| value := cells cb;
                  key := (bubble_column a ++ "_grid")%string |}.
        simpl. auto.
    - intros _ G. rewrite Ht in G. discriminate G.
    - discriminate.
    - exists fig1. rewrite Htr. cbn [bind]. split.
      + reflexivity.
      + rewrite (add_traces_layout _ _ _ _ _ _ _ _ _ _ _ _ _ Htr).
        exact Hax. }
  destruct Hsteps as (fig1 & Hbp & Hax).
  rewrite Hbp. split.
  - intros [Hn|Hn].
    + rewrite (Hxr Hn). reflexivity.
    + destruct (x_range a) as [xr|].
      * cbn [axis_range bind]. rewrite (Hyr Hn). reflexivity.
      * rewrite (Hxr eq_refl). reflexivity.
  - intros Nx Ny. destruct (x_range a) as [xr|]; [|congruence].
    destruct (y_range a) as [yr|]; [|congruence]. cbn [axis_range bind].
    destruct (store_ranges_returns false (layout fig1) xr yr
                (axis_range ds (name_of (z_column a)) (z_range a)
                   (z_logscale a)) Hax) as [l ->]; [discriminate|].
    cbn [bind]. eauto.
Qed.

End Further.

(* ================================================================= *)
(** * The further properties on concrete calls *)

Section FurtherExamples.

#[local] Existing Instance example_runtime.

(** The example call with its time column: slider and buttons; with
    the slider switched off, the buttons only; without the time column,
    neither, although both flags are true. *)
Lemma controls_need_time_witness :
  (exists fig,
     bubbleplot example_frame (with_time example_args (Some "year")) = Ok fig
     /\ dict_has (layout fig) "sliders" = true
     /\ dict_has (layout fig) "updatemenus" = true
     /\ map step_label (buttons_of fig) = [Some "Play"; Some "Pause"])
  /\ (exists fig,
        bubbleplot example_frame
          (with_controls (with_time example_args (Some "year")) false true)
          = Ok fig
        /\ dict_has (layout fig) "sliders" = false
        /\ dict_has (layout fig) "updatemenus" = true
        /\ map step_label (buttons_of fig) = [Some "Play"; Some "Pause"])
  /\ (exists fig,
        bubbleplot example_frame example_args = Ok fig
        /\ dict_has (layout fig) "sliders" = false
        /\ dict_has (layout fig) "updatemenus" = false
        /\ map step_label (buttons_of fig) = []).
Proof.
  split; [|split].
  - eexists. split; [vm_compute; reflexivity|].
    apply (controls_need_time example_frame
             (with_time example_args (Some "year"))).
    vm_compute; reflexivity.
  - eexists. split; [vm_compute; reflexivity|].
    apply (controls_need_time example_frame
             (with_controls (with_time example_args (Some "year"))
                false true)).
    vm_compute; reflexivity.
  - eexists. split; [vm_compute; reflexivity|].
    apply (controls_need_time example_frame example_args).
    vm_compute; reflexivity.
Defined.

(** The steps of the example call are labelled 2000 and 2001. *)
Lemma slider_steps_witness :
  exists fig,
    bubbleplot example_frame (with_time example_args (Some "year")) = Ok fig
    /\ exists sd steps,
         slider_of fig = Some sd
         /\ dict_get sd "active" = Some (vint 0)
         /\ steps_of sd = Some steps
         /\ Forall2 step_for (first_seen (map SInt [2000; 2000; 2001])) steps
         /\ map step_label steps = map frame_name (frames fig).
Proof.
  eexists. split; [vm_compute; reflexivity|].
  apply (slider_steps example_frame (with_time example_args (Some "year"))
           (int_column [2000; 2000; 2001]) _ eq_refl eq_refl eq_refl).
  vm_compute; reflexivity.
Defined.

(** Explicit ranges are stored as passed; a range left out is computed
    from the column; a logarithmic axis has the type ['log']; and with a
    z column the axes are under ['scene']. *)
Lemma axes_of_figure_witness :
  (exists fig yr,
     bubbleplot example_frame
       (with_ranges example_args (Some (VList [vint 0; vint 5])) None)
       = Ok fig
     /\ setRange (int_column [10; 20; 30]) false = Ok yr
     /\ dict_get (layout fig) "xaxis"
        = Some (axis_entry None false (VList [vint 0; vint 5]))
     /\ dict_get (layout fig) "yaxis" = Some (axis_entry None false yr)
     /\ dict_get (layout fig) "scene" = None)
  /\ (exists fig xr yr,
        bubbleplot example_frame (with_logscale example_args true false)
          = Ok fig
        /\ setRange (int_column [1; 2; 3]) true = Ok xr
        /\ dict_get (layout fig) "xaxis" = Some (axis_entry None true xr)
        /\ dict_get (layout fig) "yaxis" = Some (axis_entry None false yr))
  /\ (exists fig xr yr zr,
        bubbleplot example_frame (with_z example_args (Some "year")) = Ok fig
        /\ dict_get (layout fig) "scene"
           = Some (VDict [("xaxis", axis_entry None false xr);
                          ("yaxis", axis_entry None false yr);
                          ("zaxis", axis_entry None false zr)])
        /\ dict_get (layout fig) "xaxis" = None).
Proof.
  split; [|split].
  - edestruct (axes_of_figure example_frame
                 (with_ranges example_args (Some (VList [vint 0; vint 5]))
                    None))
      as (xr & yr & Hx & Hy & Hax); [vm_compute; reflexivity|].
    simpl in Hx, Hy, Hax. destruct Hy as (c & Hc & Hy). inv_Ok Hc.
    destruct Hax as (Ax & Ay & As).
    eexists. exists yr. split; [vm_compute; reflexivity|]. auto.
  - edestruct (axes_of_figure example_frame
                 (with_logscale example_args true false))
      as (xr & yr & Hx & Hy & Hax); [vm_compute; reflexivity|].
    simpl in Hx, Hax. destruct Hx as (c & Hc & Hx). inv_Ok Hc.
    destruct Hax as (Ax & Ay & As).
    eexists. exists xr, yr. split; [vm_compute; reflexivity|]. auto.
  - edestruct (axes_of_figure example_frame (with_z example_args (Some "year")))
      as (xr & yr & Hx & Hy & Hax); [vm_compute; reflexivity|].
    simpl in Hax. destruct Hax as (zr & _ & Hs & Ax & _).
    eexists. exists xr, yr, zr. split; [vm_compute; reflexivity|]. auto.
Defined.

(** A 3D call: each trace is a ['scatter3d'] with a ['z']. *)
Lemma trace_kinds_witness :
  exists fig,
    bubbleplot example_frame (with_z example_args (Some "year")) = Ok fig
    /\ Forall (fun v =>
                 trace_field v "mode" = Some (vstr "markers")
                 /\ trace_field v "type" = Some (vstr "scatter3d")
                 /\ trace_has v "z" = true)
         (all_traces fig).
Proof.
  eexists. split; [vm_compute; reflexivity|].
  apply (trace_kinds example_frame (with_z example_args (Some "year"))).
  vm_compute; reflexivity.
Defined.


(** The two countries name the two traces. *)
Lemma traces_named_by_category_witness :
  exists fig,
    bubbleplot example_panel
      (with_color (with_time example_args (Some "year")) (Some "country"))
      = Ok fig
    /\ map (fun v => trace_field v "name") (data fig)
       = [Some (vstr "A"); Some (vstr "B")].
Proof.
  eexists. split; [vm_compute; reflexivity|].
  apply (proj1 traces_named_by_category example_panel
           (with_color (with_time example_args (Some "year"))
              (Some "country"))
           (text_column ["A"; "B"; "A"; "B"]) _ eq_refl eq_refl eq_refl).
  vm_compute; reflexivity.
Defined.

(** The column names of the example calls have no [+]. *)
Ltac names_plus_free :=
  let col := fresh "col" in
  let Hin := fresh "Hin" in
  let c := fresh "c" in
  let Hc := fresh "Hc" in
  intros col Hin; simpl in Hin;
  repeat (destruct Hin as [<-|Hin];
          [intros c Hc; simpl in Hc;
           repeat (destruct Hc as [<-|Hc]; [discriminate|]);
           contradiction|]);
  contradiction.

(** The example call colored by the numeric column [pop]: the trace
    holds the three rows, and the populations as marker colors. *)
Lemma plain_trace_data_witness :
  exists fig v,
    bubbleplot example_frame (with_color example_args (Some "pop")) = Ok fig
    /\ data fig = [v]
    /\ trace_field v "x" = Some (vscalars (map SInt [1; 2; 3]))
    /\ trace_field v "text" = Some (vscalars (map SStr ["A"; "B"; "A"]))
    /\ marker_field v "color" = Some (vscalars (map SInt [10; 20; 30])).
Proof.
  edestruct (plain_trace_data example_frame
               (with_color example_args (Some "pop")))
    as (v & Hd & (xs & Hx & Fx) & _ & (ts & Ht & Ft) & _ & _ & Hc);
    [reflexivity
    |intros c _ Hc; vm_compute in Hc; inv_Ok Hc; reflexivity
    |vm_compute; reflexivity|].
  destruct (Hc eq_refl) as (cs & Hcs & Fc).
  vm_compute in Hx, Ht, Hcs. inv_Ok Hx. inv_Ok Ht. inv_Ok Hcs.
  eexists. exists v. split; [vm_compute; reflexivity|]. auto.
Defined.

(** The frames of the example call show the rows of 2000 and of 2001,
    and the base data those of 2000. *)
Lemma frames_show_years_witness :
  exists fig,
    bubbleplot example_frame (with_time example_args (Some "year")) = Ok fig
    /\ Forall2 (fun year f =>
                  exists v,
                    frame_data f = Some [v]
                    /\ trace_shows (with_time example_args (Some "year")) None
                         (time_subset example_frame "year" year) v)
         (first_seen (map SInt [2000; 2000; 2001])) (frames fig)
    /\ exists first v,
         py_min (first_seen (map SInt [2000; 2000; 2001])) = Ok first
         /\ data fig = [v]
         /\ trace_shows (with_time example_args (Some "year")) None
              (time_subset example_frame "year" first) v.
Proof.
  eexists. split; [vm_compute; reflexivity|].
  apply (frames_show_years example_frame
           (with_time example_args (Some "year"))
           (int_column [2000; 2000; 2001]) _ eq_refl eq_refl eq_refl).
  - intros c G. discriminate G.
  - vm_compute; reflexivity.
Defined.

(** The two countries of the panel, without a time column: each trace
    holds the rows of its country. *)
Lemma category_traces_show_witness :
  exists fig,
    bubbleplot example_panel (with_color example_args (Some "country"))
      = Ok fig
    /\ Forall2 (fun category v =>
                  trace_shows (with_color example_args (Some "country")) None
                    (category_subset example_panel "country" category) v)
         (first_seen (map SStr ["A"; "B"; "A"; "B"])) (data fig).
Proof.
  eexists. split; [vm_compute; reflexivity|].
  apply (category_traces_show example_panel
           (with_color example_args (Some "country"))
           (text_column ["A"; "B"; "A"; "B"]) _
           eq_refl eq_refl eq_refl eq_refl).
  - names_plus_free.
  - reflexivity.
  - vm_compute; reflexivity.
Defined.

(** The panel over its two years: each frame holds the rows of each
    country in its year. *)
Lemma panel_traces_show_witness :
  exists fig,
    bubbleplot example_panel
      (with_color (with_time example_args (Some "year")) (Some "country"))
      = Ok fig
    /\ Forall2 (fun year f =>
                  exists ts,
                    frame_data f = Some ts
                    /\ Forall2 (fun category v =>
                         trace_shows
                           (with_color (with_time example_args (Some "year"))
                              (Some "country")) None
                           (time_category_subset example_panel "year"
                              "country" year category) v)
                         (first_seen (map SStr ["A"; "B"; "A"; "B"])) ts)
         (first_seen (map SInt [2000; 2000; 2001; 2001])) (frames fig).
Proof.
  eexists. split; [vm_compute; reflexivity|].
  apply (panel_traces_show example_panel
           (with_color (with_time example_args (Some "year"))
              (Some "country"))
           (text_column ["A"; "B"; "A"; "B"])
           (int_column [2000; 2000; 2001; 2001]) _
           eq_refl eq_refl eq_refl eq_refl).
  - names_plus_free.
  - reflexivity.
  - reflexivity.
  - reflexivity.
  - vm_compute; reflexivity.
Defined.

(** The example call opens on the frame of 2000. *)
Lemma base_is_earliest_frame_witness :
  exists fig f,
    bubbleplot example_unsorted (with_time example_args (Some "year"))
      = Ok fig
    /\ In f (frames fig)
    /\ frame_data f = Some (data fig)
    /\ frame_name f = Some "2000".
Proof.
  edestruct (base_is_earliest_frame example_unsorted
               (with_time example_args (Some "year"))
               (int_column [2001; 2000; 2000]))
    as (f & Hin & Hd & Hn);
    [reflexivity | reflexivity | discriminate | vm_compute; reflexivity |].
  eexists. exists f. split; [vm_compute; reflexivity|].
  split; [exact Hin|]. split; [exact Hd|].
  apply (Hn (SInt 2000)). reflexivity.
Defined.



(** The example dataset without its rows, with the time column. *)
Lemma empty_time_column_witness :
  bubbleplot
    [("year", int_column []); ("gdp", int_column []); ("pop", int_column []);
     ("country", text_column [])]
    (with_time example_args (Some "year"))
  = Raise ValueError.
Proof.
  apply (empty_time_column _ (with_time example_args (Some "year"))
           (int_column [])).
  - reflexivity.
  - reflexivity.
  - reflexivity.
  - reflexivity.
  - intros G. discriminate G.
Defined.

(** A column of text has no linear range. *)
Lemma setRange_errors_witness :
  setRange (text_column ["A"; "B"]) false = Raise TypeError.
Proof.
  apply (proj2 setRange_errors (text_column ["A"; "B"])).
  - discriminate.
  - reflexivity.
Defined.

(** The minimum of the two years. *)
Lemma setLayout_needs_scale_witness :
  exists fig sd,
    setLayout None None None None false false false false true
      (Some [SInt 2000; SInt 2001]) true false None None = Ok (fig, sd).
Proof.
  apply (proj2 (proj2 setLayout_needs_scale) None None None None
           false false false false [SInt 2000; SInt 2001] (SInt 2000)).
  reflexivity.
Defined.


(** Colored by the numeric column [pop], with a title for the color
    bar. *)
Lemma color_mapping_witness :
  exists fig,
    bubbleplot example_frame (with_color example_args (Some "pop")) = Ok fig
    /\ Forall (fun v =>
                 (exists colors,
                    marker_field v "color" = Some (vscalars colors))
                 /\ marker_field v "colorbar"
                    = Some (VDict [("title", vnone)])
                 /\ marker_field v "colorscale" = Some vnone)
         (all_traces fig).
Proof.
  eexists. split; [vm_compute; reflexivity|].
  apply (proj1 color_mapping example_frame
           (with_color example_args (Some "pop")) _ eq_refl).
  - intros c _ Hc. vm_compute in Hc. inv_Ok Hc. reflexivity.
  - vm_compute; reflexivity.
Defined.

(** The example call passes no title. *)
Lemma layout_fixed_entries_witness :
  exists fig,
    bubbleplot example_frame example_args = Ok fig
    /\ dict_get (layout fig) "title" = Some vnone
    /\ dict_get (layout fig) "hovermode" = Some (vstr "closest")
    /\ dict_get (layout fig) "margin"
       = Some (VDict [("b", vint 50); ("t", vint 50); ("pad", vint 5)]).
Proof.
  eexists. split; [vm_compute; reflexivity|].
  apply (layout_fixed_entries example_frame example_args).
  vm_compute; reflexivity.
Defined.

(** The panel has country B in 2001; the example dataset has not, and
    the call on it raises [IndexError]. *)
Lemma panel_is_balanced_witness :
  pair_occurs (map SInt [2000; 2000; 2001; 2001])
    (map SStr ["A"; "B"; "A"; "B"]) (SInt 2001) (SStr "B") = true
  /\ bubbleplot example_frame
       (with_color (with_time example_args (Some "year")) (Some "country"))
     = Raise IndexError.
Proof.
  split; [|vm_compute; reflexivity].
  edestruct (bubbleplot example_panel
               (with_color (with_time example_args (Some "year"))
                  (Some "country"))) as [fig|e] eqn:Hb;
    [|vm_compute in Hb; discriminate Hb].
  apply (panel_is_balanced example_panel
           (with_color (with_time example_args (Some "year"))
              (Some "country"))
           (text_column ["A"; "B"; "A"; "B"])
           (int_column [2000; 2000; 2001; 2001]) fig
           eq_refl eq_refl eq_refl eq_refl).
  - names_plus_free.
  - reflexivity.
  - reflexivity.
  - reflexivity.
  - exact Hb.
  - simpl. auto.
  - simpl. auto.
Defined.

(** Quarters as time values: [int('Q1')] raises [ValueError]. *)
Lemma time_values_need_int_witness :
  bubbleplot
    [("quarter", text_column ["Q1"; "Q2"]); ("gdp", int_column [1; 2]);
     ("pop", int_column [10; 20]); ("country", text_column ["A"; "B"])]
    (with_time example_args (Some "quarter"))
  = Raise ValueError.
Proof.
  apply (time_values_need_int _ (with_time example_args (Some "quarter"))
           (text_column ["Q1"; "Q2"]) (SStr "Q1") [SStr "Q2"]).
  - intros name c. cbn [get_column].
    repeat match goal with
           | |- (if String.eqb ?k name then _ else _) = _ -> _ =>
               destruct (String.eqb k name);
               [intros Hc; inv_Ok Hc; discriminate|]
           end.
    discriminate.
  - reflexivity.
  - reflexivity.
  - reflexivity.
  - reflexivity.
  - intros G. discriminate G.
Defined.


(** The example dataset without its rows: an error, unless both ranges
    are passed. *)
Lemma empty_dataset_witness :
  bubbleplot empty_frame example_args = Raise ValueError
  /\ exists fig,
       bubbleplot empty_frame
         (with_ranges example_args (Some (VList [vint 0; vint 1]))
            (Some (VList [vint 0; vint 1]))) = Ok fig.
Proof.
  split.
  - apply (proj1 (empty_dataset empty_frame example_args
                    (int_column []) (int_column []) (text_column [])
                    eq_refl eq_refl eq_refl eq_refl eq_refl eq_refl eq_refl
                    eq_refl eq_refl
                    ltac:(intros G; discriminate G)
                    ltac:(intros G; discriminate G))).
    left. reflexivity.
  - apply (proj2 (empty_dataset empty_frame
                    (with_ranges example_args (Some (VList [vint 0; vint 1]))
                       (Some (VList [vint 0; vint 1])))
                    (int_column []) (int_column []) (text_column [])
                    eq_refl eq_refl eq_refl eq_refl eq_refl eq_refl eq_refl
                    eq_refl eq_refl
                    ltac:(intros G; discriminate G)
                    ltac:(intros G; discriminate G))).
    + discriminate.
    + discriminate.
Defined.

End FurtherExamples.
